(** * CentralizadorBackEnd: a shallow embedding of the request pipeline

    The backend is an Express application in three layers (data access,
    services, controllers) plus declarative route tables.  This development
    embeds the JavaScript of those layers as Rocq functions over a small
    model of JavaScript values, exceptions and the PostgreSQL connection
    pool, and states the properties of the natural-language specification
    over that embedding. *)

From stdpp Require Import gmap strings list fin_maps pretty.
From Stdlib Require Import ZArith Lia Ascii Btauto.

#[local] Set Warnings "-register-all".
#[local] Open Scope string_scope.
#[local] Open Scope Z_scope.

(** ** JavaScript values *)

Module Js.

(** Plain data as it travels through the application: JSON-like values,
    [undefined], and [Date] objects (a time value in milliseconds).  Objects
    are finite maps from property names to values; a property may hold
    [JUndefined] explicitly, as in JavaScript. *)
Inductive JsVal : Type :=
| JUndefined
| JNull
| JBool (b : bool)
| JNum (n : Z)
| JStr (s : string)
| JArr (l : list JsVal)
| JObj (m : gmap string JsVal)
| JDate (t : Z).

(** A thrown value is always an object in this code base ([Error]
    instances, driver errors, [TypeError]s): we keep its property map. *)
Abbreviation ErrObj := (gmap string JsVal).

(** Outcome of evaluating an expression or a function body. *)
Inductive Res (A : Type) : Type :=
| Ret (a : A)
| Throw (e : ErrObj).
Arguments Ret {A} a.
Arguments Throw {A} e.

Definition Res_bind {A B : Type} (r : Res A) (f : A -> Res B) : Res B :=
  match r with
  | Ret a => f a
  | Throw e => Throw e
  end.

(** Sequencing of expressions that may throw. *)
Notation "x <- e ; k" := (Res_bind e (fun x => k))
  (at level 20, e at level 100, k at level 200, only parsing).

#[global] Instance Res_ret : MRet Res := fun _ a => Ret a.
#[global] Instance Res_mbind : MBind Res := fun _ _ f r => Res_bind r f.

Definition is_undefined (v : JsVal) : bool :=
  match v with JUndefined => true | _ => false end.

Definition is_nullish (v : JsVal) : bool :=
  match v with JUndefined | JNull => true | _ => false end.

(** [v === null] *)
Definition is_null (v : JsVal) : bool :=
  match v with JNull => true | _ => false end.

(** ToBoolean. *)
Definition truthy (v : JsVal) : bool :=
  match v with
  | JUndefined | JNull => false
  | JBool b => b
  | JNum n => negb (n =? 0)
  | JStr s => negb (String.eqb s "")
  | JArr _ | JObj _ | JDate _ => true
  end.

Definition typeof (v : JsVal) : string :=
  match v with
  | JUndefined => "undefined"
  | JNull => "object"
  | JBool _ => "boolean"
  | JNum _ => "number"
  | JStr _ => "string"
  | JArr _ | JObj _ | JDate _ => "object"
  end.

(** [Array.isArray]. *)
Definition isArray (v : JsVal) : bool :=
  match v with JArr _ => true | _ => false end.

(** [typeof v === 'string'] and [typeof v === 'object']. *)
Definition is_string (v : JsVal) : bool := String.eqb (typeof v) "string".
Definition is_object_type (v : JsVal) : bool := String.eqb (typeof v) "object".

(** [a || b] and [a ?? b] on values. *)
Definition js_or (a b : JsVal) : JsVal := if truthy a then a else b.
Definition js_nullish_or (a b : JsVal) : JsVal := if is_nullish a then b else a.

(** [v === 'lit'] for a string literal. *)
Definition str_eq (v : JsVal) (lit : string) : bool :=
  match v with JStr s => String.eqb s lit | _ => false end.

(** *** Strings *)

(** [hay.includes(needle)] on strings. *)
Fixpoint str_includes (needle hay : string) : bool :=
  String.prefix needle hay ||
  match hay with
  | EmptyString => false
  | String _ rest => str_includes needle rest
  end.

(** [s.slice(0, n)]. *)
Definition str_slice0 (n : nat) (s : string) : string := String.substring 0 n s.

(** [s.split(sep)[0]] for a one-character separator. *)
Fixpoint str_before (sep : ascii) (s : string) : string :=
  match s with
  | EmptyString => EmptyString
  | String c rest => if Ascii.eqb c sep then EmptyString else String c (str_before sep rest)
  end.

Fixpoint str_join (sep : string) (l : list string) : string :=
  match l with
  | [] => ""
  | [x] => x
  | x :: rest => x +:+ sep +:+ str_join sep rest
  end.

(** *** Code points and code units

    A string of the model is the UTF-8 form of a JavaScript string, whose
    elements are UTF-16 code units: one for a code point up to U+FFFF, two
    (a pair of surrogates) for a code point above. *)

(** A continuation byte of UTF-8. *)
Definition is_cont (b : N) : bool := ((128 <=? b) && (b <=? 191))%N.

(** The code points of a sequence of bytes.  A byte that starts no
    sequence of UTF-8 is read as U+FFFD. *)
Fixpoint decode (l : list N) : list N :=
  match l with
  | [] => []
  | b0 :: rest =>
      if (b0 <? 128)%N then b0 :: decode rest
      else
        match rest with
        | b1 :: rest1 =>
            if ((194 <=? b0) && (b0 <=? 223) && is_cont b1)%N
            then ((b0 - 192) * 64 + (b1 - 128))%N :: decode rest1
            else
              match rest1 with
              | b2 :: rest2 =>
                  if ((224 <=? b0) && (b0 <=? 239) && is_cont b1 && is_cont b2)%N
                  then ((b0 - 224) * 4096 + (b1 - 128) * 64 + (b2 - 128))%N :: decode rest2
                  else
                    match rest2 with
                    | b3 :: rest3 =>
                        if ((240 <=? b0) && (b0 <=? 244) && is_cont b1 && is_cont b2 && is_cont b3)%N
                        then ((b0 - 240) * 262144 + (b1 - 128) * 4096 + (b2 - 128) * 64 + (b3 - 128))%N
                             :: decode rest3
                        else 65533%N :: decode rest
                    | [] => 65533%N :: decode rest
                    end
              | [] => 65533%N :: decode rest
              end
        | [] => [65533%N]
        end
  end.

Definition code_points (s : string) : list N :=
  decode (N_of_ascii <$> String.list_ascii_of_string s).

(** The code units of a code point. *)
Definition code_units (p : N) : list N :=
  if (p <? 65536)%N then [p]
  else [(55296 + (p - 65536) / 1024)%N; (56320 + (p - 65536) mod 1024)%N].

(** [s.length] *)
Definition str_length (s : string) : nat := length (code_points s ≫= code_units).

(** The UTF-8 form of one code unit. *)
Definition unit_string (u : N) : string :=
  String.string_of_list_ascii
    (ascii_of_N <$>
       (if (u <? 128)%N then [u]
        else if (u <? 2048)%N then [(192 + u / 64)%N; (128 + u mod 64)%N]
        else [(224 + u / 4096)%N; (128 + (u / 64) mod 64)%N; (128 + u mod 64)%N])).

(** *** The parts of the runtime the application relies on

    Case mapping, trimming, the printing of numbers and [Date] are
    services of the JavaScript engine, not code of the application.  They
    are a parameter of the embedding; [Node.runtime] below is the instance
    used to run it. *)
Class Runtime : Type := {
  toLowerCase : string -> string;
  trim : string -> string;
  (** [String(n)] for a number *)
  Number_toString : Z -> string;
  (** [new Date(s).getTime()], [None] standing for [NaN] (Invalid Date) *)
  Date_parse : string -> option Z;
  Date_toISOString : Z -> string;
  (** [String(date)] *)
  Date_toString : Z -> string
}.

Section WithRuntime.
Context {rt : Runtime}.

(** *** Conversion to a string

    The objects of this model are plain data (parsed JSON, rows of a
    result, object literals): none of their properties is a function.  An
    object that has a property [toString] of its own has therefore no
    callable [toString], and neither that property nor the inherited
    [valueOf] yields a primitive: ToString throws a TypeError.  Every
    other object prints through [Object.prototype.toString].  An array
    prints its elements, so it can be converted when they can. *)
Fixpoint has_string_form (v : JsVal) : bool :=
  match v with
  | JObj m => bool_decide (m !! "toString" = None)
  | JArr l =>
      (fix all (l : list JsVal) : bool :=
         match l with
         | [] => true
         | x :: rest => (is_nullish x || has_string_form x) && all rest
         end) l
  | _ => true
  end.

(** What ToString gives for a value that can be converted.  Array elements
    that are [null] or [undefined] print as the empty string, as
    [Array.prototype.join] does.  Where the application converts a value
    that is a string or a primitive by its origin (a route parameter, the
    message of an error, a column of a row), the embedding takes this form
    directly. *)
Fixpoint string_form (v : JsVal) : string :=
  match v with
  | JUndefined => "undefined"
  | JNull => "null"
  | JBool true => "true"
  | JBool false => "false"
  | JNum n => Number_toString n
  | JStr s => s
  | JArr l =>
      str_join ","
        ((fix elems (l : list JsVal) : list string :=
            match l with
            | [] => []
            | x :: rest => (if is_nullish x then "" else string_form x) :: elems rest
            end) l)
  | JObj _ => "[object Object]"
  | JDate t => Date_toString t
  end.

(** [new Error(msg)]: the [message] property is the string form of the
    argument; with [undefined] it stays the prototype's empty string. *)
Definition new_Error (msg : JsVal) : ErrObj :=
  {[ "message" := JStr (if is_undefined msg then "" else string_form msg) ]}.

(** The engine's [TypeError] (reading a property of [undefined], calling
    something that is not a function). *)
Definition TypeError (msg : string) : ErrObj :=
  <[ "name" := JStr "TypeError" ]> (new_Error (JStr msg)).

(** ToString, as a template literal [`${v}`], [regex.test(v)] and
    [new Date(v)] apply it to a value of a request body, which can be any
    JSON value. *)
Definition js_to_string (v : JsVal) : Res string :=
  if has_string_form v then Ret (string_form v)
  else Throw (TypeError "Cannot convert object to primitive value").

(** A template literal that only goes to the log: what can be observed of
    it is the conversion of the interpolated values, in order. *)
Fixpoint interpolated (vs : list JsVal) : Res unit :=
  match vs with
  | [] => Ret tt
  | v :: rest => Res_bind (js_to_string v) (fun _ => interpolated rest)
  end.

(** Property read [v.k].  Reading from [undefined] or [null] throws. *)
Definition get_prop (v : JsVal) (k : string) : Res JsVal :=
  match v with
  | JUndefined | JNull =>
      Throw (TypeError ("Cannot read properties of " +:+ string_form v +:+ " (reading '" +:+ k +:+ "')"))
  | JObj m => Ret (default JUndefined (m !! k))
  | JArr l => Ret (if String.eqb k "length" then JNum (Z.of_nat (length l)) else JUndefined)
  | JStr s => Ret (if String.eqb k "length" then JNum (Z.of_nat (str_length s)) else JUndefined)
  | _ => Ret JUndefined
  end.

(** Property read on an error object, or on an object known to exist. *)
Definition field (m : gmap string JsVal) (k : string) : JsVal :=
  default JUndefined (m !! k).

(** [v?.k] *)
Definition get_opt (v : JsVal) (k : string) : JsVal :=
  match v with
  | JObj m => field m k
  | _ => match get_prop v k with Ret x => x | Throw _ => JUndefined end
  end.

(** [const { a, b, ... } = v]: throws when [v] is [undefined] or [null],
    otherwise gives access to the properties read by the pattern.  (The
    engine names the first property and the expression in the message of
    the TypeError; the message here names the value alone.) *)
Definition destructure (v : JsVal) : Res (string -> JsVal) :=
  if is_nullish v
  then Throw (TypeError ("Cannot destructure '" +:+ string_form v +:+ "' as it is " +:+ string_form v +:+ "."))
  else Ret (get_opt v).

(** [v[0]] *)
Definition get_index0 (v : JsVal) : Res JsVal :=
  match v with
  | JUndefined | JNull =>
      Throw (TypeError ("Cannot read properties of " +:+ string_form v +:+ " (reading '0')"))
  | JArr l => Ret (default JUndefined (head l))
  | JObj m => Ret (field m "0")
  | JStr s => Ret (match code_points s ≫= code_units with
                   | [] => JUndefined
                   | u :: _ => JStr (unit_string u)
                   end)
  | _ => Ret JUndefined
  end.

(** The TypeError of a call of a method the receiver does not have.  The
    engine puts the text of the receiver expression in front of the method
    name; the message here has the name alone. *)
Definition not_a_function (name : string) : ErrObj :=
  TypeError (name +:+ " is not a function").

(** [v.trim()] *)
Definition js_trim (v : JsVal) : Res string :=
  match v with
  | JStr s => Ret (trim s)
  | JUndefined | JNull =>
      Throw (TypeError ("Cannot read properties of " +:+ string_form v +:+ " (reading 'trim')"))
  | _ => Throw (not_a_function "trim")
  end.

(** [v.toLowerCase()] *)
Definition js_toLowerCase (v : JsVal) : Res string :=
  match v with
  | JStr s => Ret (toLowerCase s)
  | JUndefined | JNull =>
      Throw (TypeError ("Cannot read properties of " +:+ string_form v +:+ " (reading 'toLowerCase')"))
  | _ => Throw (not_a_function "toLowerCase")
  end.

(** [v.includes('lit')]: substring test on strings, membership on arrays. *)
Definition js_includes (v : JsVal) (lit : string) : Res bool :=
  match v with
  | JStr s => Ret (str_includes lit s)
  | JArr l => Ret (existsb (fun x => str_eq x lit) l)
  | JUndefined | JNull =>
      Throw (TypeError ("Cannot read properties of " +:+ string_form v +:+ " (reading 'includes')"))
  | _ => Throw (not_a_function "includes")
  end.

(** [v.toISOString()] *)
Definition js_toISOString (v : JsVal) : Res string :=
  match v with
  | JDate t => Ret (Date_toISOString t)
  | JUndefined | JNull =>
      Throw (TypeError ("Cannot read properties of " +:+ string_form v +:+ " (reading 'toISOString')"))
  | _ => Throw (not_a_function "toISOString")
  end.

(** The string held by a value; only used under a [typeof v === 'string']
    guard. *)
Definition str_of (v : JsVal) : string :=
  match v with JStr s => s | _ => "" end.

(** The elements of an array; only used under an [Array.isArray] guard. *)
Definition elements (v : JsVal) : list JsVal :=
  match v with JArr l => l | _ => [] end.

(** [v === n] for a number literal. *)
Definition num_eq (v : JsVal) (n : Z) : bool :=
  match v with JNum k => k =? n | _ => false end.

(** The recurring test
    [!x || typeof x !== 'string' || x.trim() === ''] (also written with
    [!x.trim()] as last disjunct). *)
Definition blank (x : JsVal) : bool :=
  negb (truthy x) || negb (is_string x) || String.eqb (trim (str_of x)) "".

(** [new Date(v).getTime()], [None] for an invalid date.  A [Date] is
    copied; a string is parsed, and so is the primitive form of an array
    or object, which is its string form (the conversion can throw); the
    other primitives are converted to a time value. *)
Definition Date_of (v : JsVal) : Res (option Z) :=
  match v with
  | JDate t => Ret (Some t)
  | JNum n => Ret (if (Z.abs n <=? 8640000000000000) then Some n else None)
  | JUndefined => Ret None
  | JNull => Ret (Some 0)
  | JBool b => Ret (Some (if b then 1 else 0))
  | JStr _ | JArr _ | JObj _ => s <- js_to_string v; Ret (Date_parse s)
  end.

(** [throwClientError(message, statusCode)] from utils/response.util.js:
    the error that is thrown. *)
Definition clientError (message : JsVal) (statusCode : Z) : ErrObj :=
  <[ "statusCode" := JNum statusCode ]> (new_Error message).

Definition throwClientError {A} (message : JsVal) (statusCode : Z) : Res A :=
  Throw (clientError message statusCode).

(** [if (!error.statusCode) error.statusCode = n; throw error;] *)
Definition with_default_status (n : Z) (error : ErrObj) : ErrObj :=
  if truthy (field error "statusCode") then error
  else <[ "statusCode" := JNum n ]> error.

End WithRuntime.

(** Object literals. *)
Definition obj (props : list (string * JsVal)) : JsVal :=
  JObj (list_to_map props).

End Js.

(** ** Regular expressions used by the validators

    The anchored patterns of digits, hexadecimal digits and punctuation
    are matched byte by byte: each of their positions takes one ASCII
    character, which is one byte and one UTF-16 code unit.  The e-mail
    patterns have classes that reach beyond ASCII ([.] and [[^\s@]]) and
    are matched on code points; every such class holds of a code point
    above U+FFFF exactly when it holds of both its surrogates, and each is
    repeated with [+], so that matching code points and matching code
    units agree. *)

Module Regex.

Definition code (c : ascii) : N := N_of_ascii c.

Definition is_digit (c : ascii) : bool := ((48 <=? code c) && (code c <=? 57))%N.

Definition is_hex (c : ascii) : bool :=
  (is_digit c || ((97 <=? code c) && (code c <=? 102)) || ((65 <=? code c) && (code c <=? 70)))%N.

Definition is_char (x : ascii) (c : ascii) : bool := Ascii.eqb c x.

(** White space of the ASCII range: tab, line feed, vertical tab, form
    feed, carriage return, space. *)
Definition is_space (c : ascii) : bool :=
  (((9 <=? code c) && (code c <=? 13)) || (code c =? 32))%N.

(** An anchored pattern of one character class per position, such as
    [/^\d{4}-\d{2}-\d{2}$/]: the string must have exactly that shape. *)
Fixpoint match_shape (shape : list (ascii -> bool)) (s : string) : bool :=
  match shape, s with
  | [], EmptyString => true
  | p :: shape', String c s' => p c && match_shape shape' s'
  | _, _ => false
  end.

Definition repeat_cls (n : nat) (p : ascii -> bool) : list (ascii -> bool) := replicate n p.

(** [/^\d{4}-\d{2}-\d{2}$/] *)
Definition date_shape : list (ascii -> bool) :=
  repeat_cls 4 is_digit ++ [is_char "-"] ++ repeat_cls 2 is_digit ++ [is_char "-"] ++ repeat_cls 2 is_digit.

(** [/^\d{4}-\d{2}-\d{2} \d{2}:\d{2}:\d{2}$/] *)
Definition datetime_shape : list (ascii -> bool) :=
  date_shape ++ [is_char " "] ++ repeat_cls 2 is_digit ++ [is_char ":"]
  ++ repeat_cls 2 is_digit ++ [is_char ":"] ++ repeat_cls 2 is_digit.

(** [/^[0-9a-fA-F]{8}-[0-9a-fA-F]{4}-[0-9a-fA-F]{4}-[0-9a-fA-F]{4}-[0-9a-fA-F]{12}$/] *)
Definition uuid_shape : list (ascii -> bool) :=
  repeat_cls 8 is_hex ++ [is_char "-"] ++ repeat_cls 4 is_hex ++ [is_char "-"]
  ++ repeat_cls 4 is_hex ++ [is_char "-"] ++ repeat_cls 4 is_hex ++ [is_char "-"]
  ++ repeat_cls 12 is_hex.

(** *** Classes of code points *)

(** The line terminators: line feed, carriage return, U+2028, U+2029. *)
Definition is_line_terminator (p : N) : bool :=
  ((p =? 10) || (p =? 13) || (p =? 8232) || (p =? 8233))%N.

(** [\s]: the white space of ECMAScript (tab, vertical tab, form feed,
    space, U+00A0, U+FEFF and the space separators U+1680, U+2000 to
    U+200A, U+202F, U+205F, U+3000) and the line terminators. *)
Definition is_white (p : N) : bool :=
  ((p =? 9) || (p =? 11) || (p =? 12) || (p =? 32) || (p =? 160) || (p =? 65279)
   || (p =? 5760) || ((8192 <=? p) && (p <=? 8202)) || (p =? 8239) || (p =? 8287) || (p =? 12288)
   || is_line_terminator p)%N.

(** [.]: anything but a line terminator. *)
Definition is_dot (p : N) : bool := negb (is_line_terminator p).

(** One given ASCII character. *)
Definition is_point (x : ascii) (p : N) : bool := (p =? code x)%N.

(** General patterns, matched through Brzozowski derivatives. *)
Inductive re : Type :=
| Void
| Eps
| Cls (p : N -> bool)
| Seq (a b : re)
| Alt (a b : re)
| Star (a : re).

Fixpoint nullable (r : re) : bool :=
  match r with
  | Void => false
  | Eps => true
  | Cls _ => false
  | Seq a b => nullable a && nullable b
  | Alt a b => nullable a || nullable b
  | Star _ => true
  end.

Fixpoint deriv (c : N) (r : re) : re :=
  match r with
  | Void | Eps => Void
  | Cls p => if p c then Eps else Void
  | Seq a b =>
      if nullable a then Alt (Seq (deriv c a) b) (deriv c b) else Seq (deriv c a) b
  | Alt a b => Alt (deriv c a) (deriv c b)
  | Star a => Seq (deriv c a) (Star a)
  end.

Fixpoint matches_points (r : re) (l : list N) : bool :=
  match l with
  | [] => nullable r
  | c :: l' => matches_points (deriv c r) l'
  end.

(** [r.test(s)] for a pattern written with its anchors (or with
    [anywhere] for the lack of them). *)
Definition matches (r : re) (s : string) : bool := matches_points r (Js.code_points s).

Definition plus (a : re) : re := Seq a (Star a).

(** A pattern without anchors matches anywhere in the string. *)
Definition anywhere (r : re) : re :=
  Seq (Star (Cls (fun _ => true))) (Seq r (Star (Cls (fun _ => true)))).

(** [/.+@.+\..+/] *)
Definition loose_email : re :=
  anywhere (Seq (plus (Cls is_dot)) (Seq (Cls (is_point "@"))
    (Seq (plus (Cls is_dot)) (Seq (Cls (is_point ".")) (plus (Cls is_dot)))))).

(** [/^[^\s@]+@[^\s@]+\.[^\s@]+$/] *)
Definition strict_email : re :=
  let word := plus (Cls (fun p => negb (is_white p || is_point "@" p))) in
  Seq word (Seq (Cls (is_point "@")) (Seq word (Seq (Cls (is_point ".")) word))).

End Regex.

(** ** The connection pool and the effect monad *)

Module Db.
Import Js.

(** [pool.query(text, values)]: the statement text and its positional
    parameters ([values] omitted is the empty list). *)
Record Query : Type := { sql : string; params : list JsVal }.

(** A result row: an object keyed by column name. *)
Abbreviation Row := (gmap string JsVal).

(** What the driver rejects with: a message, and for server-side errors the
    SQLSTATE [code] and a [detail].  The driver never sets [statusCode]. *)
Record PgError : Type := {
  pg_message : string;
  pg_code : option string;
  pg_detail : option string
}.

Definition set_opt (k : string) (o : option string) (m : ErrObj) : ErrObj :=
  match o with
  | Some s => <[ k := JStr s ]> m
  | None => m
  end.

Definition pg_error_obj (e : PgError) : ErrObj :=
  set_opt "detail" (pg_detail e)
    (set_opt "code" (pg_code e) {[ "message" := JStr (pg_message e) ]}).

(** The database is opaque: a state and a function answering each
    statement with rows or an error.  [clock] is the wall clock read by
    [new Date()]. *)
Class Database : Type := {
  World : Type;
  pool_query : Query -> World -> (PgError + list Row) * World;
  clock : World -> Z
}.

Inductive Layer : Type := Controller | Service | Model.

Definition Layer_eqb (a b : Layer) : bool :=
  match a, b with
  | Controller, Controller | Service, Service | Model, Model => true
  | _, _ => false
  end.

(** Ghost trace: the statements sent to the pool and the calls that cross
    a layer boundary, in order. *)
Inductive Event : Type :=
| EvQuery (q : Query)
| EvCall (caller callee : Layer) (name : string).

Section WithDatabase.
Context {db : Database}.

Record St : Type := { world : World; trace : list Event }.

(** An [async] function body: it may read and change the database, and it
    resolves ([Ret]) or rejects ([Throw]). *)
Definition M (A : Type) : Type := St -> Res A * St.

#[global] Instance M_ret : MRet M := fun _ a st => (Ret a, st).

Definition M_bind {A B : Type} (m : M A) (f : A -> M B) : M B := fun st =>
  match m st with
  | (Ret a, st') => f a st'
  | (Throw e, st') => (Throw e, st')
  end.

Definition lift {A} (r : Res A) : M A := fun st => (r, st).

Definition throw {A} (e : ErrObj) : M A := lift (Throw e).

(** [try { body } catch (error) { handler }] *)
Definition try_catch {A} (body : M A) (handler : ErrObj -> M A) : M A := fun st =>
  match body st with
  | (Ret a, st') => (Ret a, st')
  | (Throw e, st') => handler e st'
  end.

(** [try { body } catch (error) { logger.error(...); throw error; }] *)
Definition rethrowing {A} (body : M A) : M A :=
  try_catch body (fun error => throw error).

(** [const { rows } = await pool.query(text, values)] *)
Definition query (text : string) (values : list JsVal) : M (list Row) := fun st =>
  let q := {| sql := text; params := values |} in
  let '(r, w) := pool_query q (world st) in
  (match r with
   | inl e => Throw (pg_error_obj e)
   | inr rows => Ret rows
   end,
   {| world := w; trace := trace st ++ [EvQuery q] |}).

(** A call from one layer into a named function of another. *)
Definition call {A} (caller callee : Layer) (name : string) (body : M A) : M A := fun st =>
  body {| world := world st; trace := trace st ++ [EvCall caller callee name] |}.

(** [new Date()] *)
Definition new_Date : M JsVal := fun st => (Ret (JDate (clock (world st))), st).

End WithDatabase.

(** One step of an [async] body. *)
Notation "x <- 'await' m ; k" := (M_bind m (fun x => k))
  (at level 20, m at level 100, k at level 200, only parsing).

(** The rows of a result as a JavaScript array. *)
Definition rows_array (rows : list Row) : JsVal := JArr (JObj <$> rows).

(** [rows[0]] *)
Definition first_row (rows : list Row) : JsVal :=
  match rows with
  | r :: _ => JObj r
  | [] => JUndefined
  end.

(** The double quote and the line feed, for statement texts. *)
Definition dq : string := String (Ascii.ascii_of_nat 34) EmptyString.
Definition nl : string := String (Ascii.ascii_of_nat 10) EmptyString.

(** The [i]-th actual argument of a call; a missing one is [undefined]. *)
Definition arg (i : nat) (args : list JsVal) : JsVal := nth i args JUndefined.

End Db.

(** ** Data-access layer

    Every function sends its statement through [query]; the [try]/[catch]
    blocks of this layer log and rethrow ([rethrowing]).  Logging is not
    modelled: the values this layer interpolates into its log messages are
    route parameters, fields the service has trimmed, and columns of the
    result, whose conversion to a string cannot throw. *)

(** models/entrenador.model.js *)
Module EntrenadorModel.
Import Js Db.
Section Defs.
Context {rt : Runtime} {db : Database}.

Definition registrar (datosEntrenador : JsVal) : M JsVal :=
  d <- await lift (destructure datosEntrenador);
  let queryParams :=
    [d "pSiglaTipoDocumento"; d "pNombres"; d "pApellidos"; d "pNumeroDocumento";
     d "pCorreo"; d "pFacultadNombres"; d "pFechaFin"] in
  let queryString := "SELECT * FROM CC.RegistrarEntrenadorUFT($1, $2, $3, $4, $5, $6, $7);" in
  rethrowing (
    rows <- await query queryString queryParams;
    match rows with
    | r :: _ => mret (JObj r)
    | [] => mret JNull
    end).

Definition obtenerTodos (filtros : JsVal) : M JsVal :=
  let filtros := if is_undefined filtros then obj [] else filtros in
  nombreFacultad <- await lift (get_prop filtros "nombreFacultad");
  let queryParams := if truthy nombreFacultad then [nombreFacultad] else [] in
  let condicionesWhere :=
    if truthy nombreFacultad
    then ["$" +:+ pretty (Z.of_nat (length queryParams)) +:+ " = ANY(facultadesAsignadas)"]
    else [] in
  let queryString :=
    "SELECT * FROM CC.DetalleEntrenadoresFacultadesUV"
    +:+ (if (0 <? Z.of_nat (length condicionesWhere))
         then " WHERE " +:+ str_join " AND " condicionesWhere else "")
    +:+ " ORDER BY apellidosEntrenador, nombresEntrenador;" in
  rethrowing (
    rows <- await query queryString queryParams;
    mret (rows_array rows)).

Definition actualizar (entrenadorID datosAActualizar : JsVal) : M JsVal :=
  d <- await lift (destructure datosAActualizar);
  let queryParams :=
    [entrenadorID; d "pNuevosNombres"; d "pNuevosApellidos"; d "pNuevoCorreo";
     d "pNuevaFechaFin"; d "pNuevosNombresFacultades"] in
  let queryString := "SELECT * FROM CC.ModificarInformacionEntrenadorUFT($1, $2, $3, $4, $5, $6);" in
  rethrowing (
    rows <- await query queryString queryParams;
    match rows with
    | r :: _ => mret (JObj r)
    | [] => mret JNull
    end).

Definition desactivar (entrenadorID : JsVal) : M JsVal :=
  let queryString := "SELECT * FROM CC.DesactivarEntrenadorUFT($1);" in
  let queryParams := [entrenadorID] in
  rethrowing (
    rows <- await query queryString queryParams;
    match rows with
    | r :: _ => mret (JObj r)
    | [] => mret JNull
    end).

Definition obtenerFacultadesPorEmailDB (pCorreo : JsVal) : M JsVal :=
  let queryString :=
    nl +:+ "    SELECT * FROM CC.ObtenerEntrenadorPorEmailUFT($1);" +:+ nl +:+ "  " in
  let values := [pCorreo] in
  rethrowing (
    rows <- await query queryString values;
    mret (rows_array rows)).

Definition obtenerDatosPorCorreo (correo : JsVal) : M JsVal :=
  let queryString :=
    nl +:+ "    SELECT " +:+ nl
    +:+ "      e.numerodocumento," +:+ nl
    +:+ "      td.sigla as siglaTipoDocumento," +:+ nl
    +:+ "      e.nombres," +:+ nl
    +:+ "      e.apellidos" +:+ nl
    +:+ "    FROM CC.entrenador e" +:+ nl
    +:+ "    INNER JOIN CC.tipodocumento td ON e.tipodocumento = td.id" +:+ nl
    +:+ "    WHERE e.correo = $1;" +:+ nl +:+ "  " in
  let values := [correo] in
  rethrowing (
    rows <- await query queryString values;
    match rows with
    | r :: _ =>
        mret (obj [("numeroDocumento", field r "numerodocumento");
                   ("siglaTipoDocumento", field r "siglatipodocumento");
                   ("nombres", field r "nombres");
                   ("apellidos", field r "apellidos")])
    | [] => mret JNull
    end).

Definition crearEntrenadorEntrenamiento (entrenadorId entrenamientoCognitivoId : JsVal) : M JsVal :=
  let queryString :=
    nl +:+ "    INSERT INTO CC.entrenadorentrenamiento (id, entrenador, entrenamientocognitivo)" +:+ nl
    +:+ "    VALUES (gen_random_uuid(), $1, $2)" +:+ nl
    +:+ "    RETURNING id, entrenador, entrenamientocognitivo;" +:+ nl +:+ "  " in
  let values := [entrenadorId; entrenamientoCognitivoId] in
  rethrowing (
    rows <- await query queryString values;
    match rows with
    | r :: _ =>
        mret (obj [("id", field r "id");
                   ("entrenador", field r "entrenador");
                   ("entrenamientocognitivo", field r "entrenamientocognitivo");
                   ("mensaje", JStr "Relación entrenador-entrenamiento creada exitosamente.")])
    | [] => throw (new_Error (JStr "No se pudo crear la relación entrenador-entrenamiento."))
    end).

End Defs.
End EntrenadorModel.

(** models/informe.model.js *)
Module InformeModel.
Import Js Db.
Section Defs.
Context {rt : Runtime} {db : Database}.

Definition obtenerListaEntrenamientosAdmin : M JsVal :=
  let queryString := "SELECT * FROM CC.AdminListaEntrenamientosUV ORDER BY fechainicioentrenamiento DESC, estudianteapellidos, estudiantenombres;" in
  rethrowing (
    rows <- await query queryString [];
    mret (rows_array rows)).

Definition obtenerDetalleInformeEntrenamiento (entrenamientoId : JsVal) : M JsVal :=
  let queryString := "SELECT * FROM CC.InformeVariablesFinalizadasPorEntrenamientoUV WHERE entrenamientoId = $1 ORDER BY variablecognitivanombre;" in
  rethrowing (
    rows <- await query queryString [entrenamientoId];
    mret (rows_array rows)).

Definition obtenerListaEntrenamientosEntrenador (entrenadorId : JsVal) : M JsVal :=
  let queryString := "SELECT * FROM CC.EntrenadorInformesPorFacultadUV WHERE entrenadorId = $1;" in
  rethrowing (
    rows <- await query queryString [entrenadorId];
    mret (rows_array rows)).

End Defs.
End InformeModel.

(** models/utilidades.model.js *)
Module UtilidadesModel.
Import Js Db.
Section Defs.
Context {rt : Runtime} {db : Database}.

Definition obtenerIdTipoDocumentoPorSigla (sigla : JsVal) : M JsVal :=
  let queryString := "SELECT id FROM CC.obteneridtipodocumentoporsiglaufs($1);" in
  let values := [sigla] in
  rethrowing (
    rows <- await query queryString values;
    match rows with
    | r :: _ => if truthy (field r "id") then mret (field r "id") else mret JNull
    | [] => mret JNull
    end).

Definition obtenerIdGeneroPorNombre (nombreGenero : JsVal) : M JsVal :=
  let queryString := "SELECT id FROM CC.obtenergeneropornombreuft($1);" in
  let values := [nombreGenero] in
  rethrowing (
    rows <- await query queryString values;
    match rows with
    | r :: _ => if truthy (field r "id") then mret (field r "id") else mret JNull
    | [] => mret JNull
    end).

Definition obtenerTodosLosGeneros : M JsVal :=
  let queryString := "SELECT * FROM CC.VistaGenerosUV;" in
  rethrowing (
    rows <- await query queryString [];
    mret (rows_array rows)).

Definition obtenerTodosLosTiposDocumento : M JsVal :=
  let queryString := "SELECT * FROM CC.VistaSiglasTipoDocumentoUV;" in
  rethrowing (
    rows <- await query queryString [];
    mret (rows_array rows)).

Definition obtenerTodosLosProgramas : M JsVal :=
  let queryString := "SELECT * FROM CC.VistaNombresProgramaUV;" in
  rethrowing (
    rows <- await query queryString [];
    mret (rows_array rows)).

Definition obtenerTiposVariablesCognitivasDB : M JsVal :=
  let queryString := "SELECT * FROM CC.ObtenerEntrenamientoCognitivosUV;" in
  rethrowing (
    rows <- await query queryString [];
    mret (rows_array rows)).

Definition obtenerIdEstudiantePorDocumentoDB (tipoDocumento numeroDocumento : JsVal) : M JsVal :=
  let queryString := "SELECT CC.obteneridestudiantepordocumentoufs($1, $2) AS estudiante_id;" in
  let values := [tipoDocumento; numeroDocumento] in
  rethrowing (
    rows <- await query queryString values;
    match rows with
    | r :: _ =>
        if truthy (field r "estudiante_id") then mret (field r "estudiante_id") else mret JNull
    | [] => mret JNull
    end).

End Defs.
End UtilidadesModel.

(** models/estudiantesEntrenamientos.model.js *)
Module EntrenamientoModel.
Import Js Db.
Section Defs.
Context {rt : Runtime} {db : Database}.

Definition obtenerEstudiantesPorFacultad (facultadId : JsVal) : M JsVal :=
  if negb (truthy facultadId)
  then throw (new_Error (JStr "El ID de la facultad es requerido."))
  else
    let queryString := "SELECT * FROM CC.obtenerestudiantesporfacultaduft($1);" in
    let values := [facultadId] in
    rethrowing (
      rows <- await query queryString values;
      mret (rows_array rows)).

Definition obtenerEntrenamientoCognitivoPorDocumento (tipoDocumento numeroDocumento : JsVal) : M JsVal :=
  let queryString :=
    "SELECT * FROM CC.DetalleEntrenamientoEstudianteUV WHERE " +:+ dq +:+ "estudianteTipoDocumento" +:+ dq
    +:+ " = $1 AND " +:+ dq +:+ "estudianteNumeroDocumento" +:+ dq +:+ " = $2;" in
  let values := [tipoDocumento; numeroDocumento] in
  rethrowing (
    rows <- await query queryString values;
    mret (rows_array rows)).

Definition crearEntrenamientoCognitivoDB (datosEntrenamiento : JsVal) : M JsVal :=
  d <- await lift (destructure datosEntrenamiento);
  let queryString :=
    nl +:+ "    SELECT * FROM CC.CrearEntrenamientoCognitivoUFT($1, $2, $3, $4, $5, $6);" +:+ nl +:+ "  " in
  let values :=
    [d "pSiglaTipoDocEstudiante"; d "pNumeroDocEstudiante"; d "pSiglaTipoDocEntrenador";
     d "pNumeroDocEntrenador"; d "pVariablesCognitivas";
     js_or (d "pFechaFinEntrenamiento") (JStr "2500-12-31")] in
  rethrowing (
    rows <- await query queryString values;
    match rows with
    | r :: _ =>
        mret (obj [("entrenamientoId", field r "entrenamientocognitivoid");
                   ("mensaje", field r "mensaje");
                   ("detalles", field r "detalles")])
    | [] => throw (new_Error (JStr "La función de base de datos no devolvió un resultado esperado."))
    end).

Definition registrarEntrenamientoAsignacionDB (datosAsignacion : JsVal) : M JsVal :=
  d <- await lift (destructure datosAsignacion);
  let queryString :=
    nl +:+ "    SELECT CC.RegistrarEntrenamientoAsignacionUFS($1::UUID, $2::TIMESTAMP, $3::UUID[], $4::JSONB, $5::JSONB) as mensaje;"
    +:+ nl +:+ "  " in
  let values :=
    [d "pEstudianteId"; d "pFechaInicio"; d "pTiposVariablesCognitivasIds";
     d "pNivelInicial"; d "pMetricas"] in
  rethrowing (
    rows <- await query queryString values;
    match rows with
    | r :: _ => mret (field r "mensaje")
    | [] => throw (new_Error (JStr "La función de base de datos no devolvió un resultado esperado."))
    end).

Definition obtenerProgresoVariablePorId (asignacionVariableId : JsVal) : M JsVal :=
  let queryString :=
    "SELECT * FROM CC.ProgresoVariableUV WHERE " +:+ dq +:+ "asignacionVariableId" +:+ dq +:+ " = $1;" in
  let values := [asignacionVariableId] in
  rethrowing (
    rows <- await query queryString values;
    match rows with
    | r :: _ => mret (JObj r)
    | [] => mret JNull
    end).

Definition actualizarObservacionSesionDB (idSesion nuevaObservacion : JsVal) : M JsVal :=
  let queryString := "SELECT * FROM CC.ActualizarObservacionSesionUFT($1, $2);" in
  let values := [idSesion; nuevaObservacion] in
  rethrowing (
    rows <- await query queryString values;
    match rows with
    | r :: _ => mret (JObj r)
    | [] => throw (new_Error (JStr "La operación en la base de datos no devolvió un resultado."))
    end).

Definition modificarEntrenamientoCognitivoDB (datos : JsVal) : M JsVal :=
  d <- await lift (destructure datos);
  let queryString :=
    nl +:+ "    SELECT * FROM cc.modificarentrenamientocognitivouft($1, $2, $3, $4, $5, $6, $7);" +:+ nl +:+ "  " in
  let values :=
    [d "pSiglaTipoDocEstudiante"; d "pNumeroDocEstudiante"; d "pVariablesAAgregar";
     d "pVariablesARemover"; d "pSiglaTipoDocNuevoEntrenador"; d "pNumeroDocNuevoEntrenador";
     d "pNuevaFechaFinEntrenamiento"] in
  rethrowing (
    rows <- await query queryString values;
    match rows with
    | r :: _ => mret (JObj r)
    | [] => throw (new_Error (JStr "La función de base de datos no devolvió un resultado esperado."))
    end).

(** [datos.pX] is read while the parameter array is built, before the
    [try]: a [datos] that is [undefined] or [null] throws there. *)
Definition crearSesionDB (datos : JsVal) : M JsVal :=
  let queryString := "SELECT * FROM CC.CrearSesionEntrenamientoUFT($1, $2, $3, $4, $5);" in
  _ <- await lift (get_prop datos "pSiglaTipoDocEstudiante");
  let d := get_opt datos in
  let values :=
    [d "pSiglaTipoDocEstudiante"; d "pNumeroDocEstudiante"; d "pNombreVariableCognitiva";
     d "pFechaInicio"; d "pObservacion"] in
  rethrowing (
    rows <- await query queryString values;
    mret (first_row rows)).

Definition iniciarSesionDB (idSesion : JsVal) : M JsVal :=
  let queryString := "SELECT * FROM CC.IniciarSesionEntrenamientoUFT($1);" in
  let values := [idSesion] in
  rethrowing (
    rows <- await query queryString values;
    mret (first_row rows)).

Definition finalizarSesionDB (idSesion nuevasMetricas nuevoNivelInicial : JsVal) : M JsVal :=
  let queryString := "SELECT * FROM CC.FinalizarSesionEntrenamientoUFT($1, $2, $3);" in
  let values := [idSesion; nuevasMetricas; nuevoNivelInicial] in
  rethrowing (
    rows <- await query queryString values;
    mret (first_row rows)).

Definition finalizarAsignacionVariableDB (idAsignacionVariable : JsVal) : M JsVal :=
  let queryString := "SELECT * FROM CC.FinalizarAsignacionVariableUFT($1);" in
  let values := [idAsignacionVariable] in
  rethrowing (
    rows <- await query queryString values;
    mret (first_row rows)).

End Defs.
End EntrenamientoModel.

(** models/variablesCognitivas.model.js *)
Module VariablesCognitivasModel.
Import Js Db.
Section Defs.
Context {rt : Runtime} {db : Database}.

Definition abandonarVariableCognitiva (siglaDocumento numeroDocumento idVariableCognitiva : JsVal) : M JsVal :=
  let query_ := "SELECT * FROM cc.abandonarvariablecognitivauft($1, $2, $3)" in
  let values := [siglaDocumento; numeroDocumento; idVariableCognitiva] in
  rethrowing (
    rows <- await query query_ values;
    mret (first_row rows)).

Definition reactivarVariableCognitiva (siglaDocumento numeroDocumento idVariableCognitiva : JsVal) : M JsVal :=
  let query_ := "SELECT * FROM cc.reactivarvariablecognitivauft($1, $2, $3)" in
  let values := [siglaDocumento; numeroDocumento; idVariableCognitiva] in
  rethrowing (
    rows <- await query query_ values;
    mret (first_row rows)).

Definition obtenerIdVariableCognitivaPorNombre (nombre : JsVal) : M JsVal :=
  let query_ := "SELECT id FROM CC.variablecognitiva WHERE nombre = $1" in
  let values := [nombre] in
  rethrowing (
    rows <- await query query_ values;
    mret (first_row rows)).

End Defs.
End VariablesCognitivasModel.

(** models/estudiante.model.js *)
Module EstudianteModel.
Import Js Db.
Section Defs.
Context {rt : Runtime} {db : Database}.

Definition registrarEstudianteDB (datosEstudiante : JsVal) : M JsVal :=
  d <- await lift (destructure datosEstudiante);
  let queryString :=
    nl +:+ "    SELECT * FROM CC.registrarestudianteuft($1, $2, $3, $4, $5, $6, $7, $8);" +:+ nl +:+ "  " in
  let values :=
    [d "pSiglaTipoDocumento"; d "pNombres"; d "pApellidos"; d "pNumeroDocumento";
     d "pCorreo"; d "pGeneroNombre"; d "pFechaNacimiento"; d "pProgramaNombres"] in
  rethrowing (
    rows <- await query queryString values;
    match rows with
    | r :: _ => mret (obj [("estudianteId", field r "estudianteId"); ("mensaje", field r "mensaje")])
    | [] => throw (new_Error (JStr "La función de base de datos no devolvió un resultado esperado."))
    end).

Definition modificarInformacionEstudiante (datos : JsVal) : M JsVal :=
  d <- await lift (destructure datos);
  let queryString :=
    nl +:+ "    SELECT * FROM CC.modificarinformacionestudianteuft($1, $2, $3, $4, $5, $6, $7, $8);" +:+ nl +:+ "  " in
  let values :=
    [d "pSiglaTipoDocActual"; d "pNumeroDocActual"; d "pNuevosNombres"; d "pNuevosApellidos";
     d "pNuevoCorreo"; d "pNuevaFechaNacimiento"; d "pNuevoNombreGenero"; d "pNuevosNombresProgramas"] in
  rethrowing (
    rows <- await query queryString values;
    mret (rows_array rows)).

Definition obtenerInformacionCompleta (siglaTipoDoc numeroDoc : JsVal) : M JsVal :=
  let queryString :=
    nl +:+ "    SELECT * FROM cc.obtenerinformacioncompletaestudianteufs($1, $2);" +:+ nl +:+ "  " in
  let values := [siglaTipoDoc; numeroDoc] in
  rethrowing (
    rows <- await query queryString values;
    mret (rows_array rows)).

Definition actualizarGenero (estudianteId nuevoNombreGenero : JsVal) : M JsVal :=
  let queryString := "SELECT * FROM CC.ActualizarGeneroEstudianteUFT($1, $2);" in
  let values := [estudianteId; nuevoNombreGenero] in
  rethrowing (
    rows <- await query queryString values;
    mret (first_row rows)).

End Defs.
End EstudianteModel.

(** ** Service layer

    Calls into the data-access layer are marked with [call Service Model].
    Of the logging, what the logger does with a message is not modelled;
    what the application does to build one is, where it can throw: a
    template literal that interpolates a value of the request body
    converts it to a string ([interpolated]).  Where the interpolated
    values are route parameters, messages of errors or columns of a row,
    or have passed a [typeof] check before, the conversion cannot throw
    and the log message is left out. *)

(** services/entrenamientoCognitivo.service.js *)
Module EntrenamientoCognitivoService.
Import Js Db Regex.
Section Defs.
Context {rt : Runtime} {db : Database}.

Definition isValidDateTimeString (dateTimeString : JsVal) : Res bool :=
  s <- js_to_string dateTimeString;
  if negb (match_shape datetime_shape s) then Ret false
  else
    date <- Date_of dateTimeString;
    Ret (negb (bool_decide (date = None))).

Definition failure (message : JsVal) (statusCode : Z) : JsVal :=
  obj [("success", JBool false); ("message", message); ("statusCode", JNum statusCode)].

Definition validarDatosCrearEntrenamiento (datosEntrada : JsVal) : Res JsVal :=
  d <- destructure datosEntrada;
  let siglaTipoDocEstudiante := d "siglaTipoDocEstudiante" in
  let numeroDocEstudiante := d "numeroDocEstudiante" in
  let siglaTipoDocEntrenador := d "siglaTipoDocEntrenador" in
  let numeroDocEntrenador := d "numeroDocEntrenador" in
  let fechaFinEntrenamiento := d "fechaFinEntrenamiento" in
  let variablesCognitivas := d "variablesCognitivas" in
  if blank siglaTipoDocEstudiante then
    Ret (failure (JStr "La sigla del tipo de documento del estudiante es requerida.") 400)
  else if blank numeroDocEstudiante then
    Ret (failure (JStr "El número de documento del estudiante es requerido.") 400)
  else if blank siglaTipoDocEntrenador then
    Ret (failure (JStr "La sigla del tipo de documento del entrenador es requerida.") 400)
  else if blank numeroDocEntrenador then
    Ret (failure (JStr "El número de documento del entrenador es requerido.") 400)
  else
    fechaInvalida <- (if truthy fechaFinEntrenamiento
                      then (valida <- isValidDateTimeString fechaFinEntrenamiento; Ret (negb valida))
                      else Ret false);
    if fechaInvalida then
      Ret (failure (JStr "La fecha de fin del entrenamiento debe estar en formato YYYY-MM-DD HH:MM:SS.") 400)
    else if negb (isArray variablesCognitivas) || (Z.of_nat (length (elements variablesCognitivas)) =? 0) then
      Ret (failure (JStr "Se debe especificar al menos una variable cognitiva.") 400)
    else if existsb (fun v => negb (is_string v) || String.eqb (trim (str_of v)) "")
              (elements variablesCognitivas) then
      Ret (failure (JStr "Las variables cognitivas deben ser cadenas de texto no vacías.") 400)
    else Ret JNull.

Definition prepararDatosEntrenamientoParaDB (datosEntrada : JsVal) : Res JsVal :=
  d <- destructure datosEntrada;
  pSiglaTipoDocEstudiante <- js_trim (d "siglaTipoDocEstudiante");
  pNumeroDocEstudiante <- js_trim (d "numeroDocEstudiante");
  pSiglaTipoDocEntrenador <- js_trim (d "siglaTipoDocEntrenador");
  pNumeroDocEntrenador <- js_trim (d "numeroDocEntrenador");
  pVariablesCognitivas <- mapM js_trim (elements (d "variablesCognitivas"));
  Ret (obj [("pSiglaTipoDocEstudiante", JStr pSiglaTipoDocEstudiante);
            ("pNumeroDocEstudiante", JStr pNumeroDocEstudiante);
            ("pSiglaTipoDocEntrenador", JStr pSiglaTipoDocEntrenador);
            ("pNumeroDocEntrenador", JStr pNumeroDocEntrenador);
            ("pVariablesCognitivas", JArr (JStr <$> pVariablesCognitivas));
            ("pFechaFinEntrenamiento", d "fechaFinEntrenamiento")]).

(** [mensaje && mensaje.includes(lit)] in a condition. *)
Definition and_includes (mensaje : JsVal) (lit : string) : Res bool :=
  if truthy mensaje then js_includes mensaje lit else Ret false.

Definition manejarRespuestaCrearEntrenamiento (resultado : JsVal) : Res JsVal :=
  d <- destructure resultado;
  let entrenamientoId := d "entrenamientoId" in
  let mensaje := d "mensaje" in
  let detalles := d "detalles" in
  exito <- and_includes mensaje "exitosamente";
  if exito then
    Ret (obj [("success", JBool true);
              ("data", obj [("id", entrenamientoId); ("message", mensaje); ("detalles", detalles)]);
              ("message", mensaje);
              ("statusCode", JNum 201)])
  else
    conflicto <- and_includes mensaje "ya tiene un entrenamiento";
    statusCode <- (if conflicto then Ret 409
                  else (esError <- and_includes mensaje "Error";
                        if esError then Ret 400 else Ret 400));
    Ret (obj [("success", JBool false); ("message", mensaje); ("statusCode", JNum statusCode)]).

Definition validarDatosModificarEntrenamiento (datosModificacion : JsVal) : Res unit :=
  d <- destructure datosModificacion;
  let siglaTipoDocNuevoEntrenador := d "siglaTipoDocNuevoEntrenador" in
  let numeroDocNuevoEntrenador := d "numeroDocNuevoEntrenador" in
  let variablesAAgregar := d "variablesAAgregar" in
  let variablesARemover := d "variablesARemover" in
  _ <- (if (truthy siglaTipoDocNuevoEntrenador && negb (truthy numeroDocNuevoEntrenador))
          || (negb (truthy siglaTipoDocNuevoEntrenador) && truthy numeroDocNuevoEntrenador)
       then throwClientError (JStr "Para cambiar el entrenador, se deben proporcionar tanto la sigla del tipo de documento como el número de documento del nuevo entrenador.") 400
       else Ret tt);
  _ <- (if truthy variablesAAgregar && negb (isArray variablesAAgregar)
       then throwClientError (JStr ("El campo " +:+ Db.dq +:+ "variablesAAgregar" +:+ Db.dq +:+ " debe ser un arreglo.")) 400
       else Ret tt);
  if truthy variablesARemover && negb (isArray variablesARemover)
  then throwClientError (JStr ("El campo " +:+ Db.dq +:+ "variablesARemover" +:+ Db.dq +:+ " debe ser un arreglo.")) 400
  else Ret tt.

Definition prepararDatosModificacionParaDB
    (siglaTipoDocEstudiante numeroDocEstudiante datosModificacion : JsVal) : Res JsVal :=
  d <- destructure datosModificacion;
  Ret (obj [("pSiglaTipoDocEstudiante", siglaTipoDocEstudiante);
            ("pNumeroDocEstudiante", numeroDocEstudiante);
            ("pVariablesAAgregar", js_or (d "variablesAAgregar") JNull);
            ("pVariablesARemover", js_or (d "variablesARemover") JNull);
            ("pSiglaTipoDocNuevoEntrenador", js_or (d "siglaTipoDocNuevoEntrenador") JNull);
            ("pNumeroDocNuevoEntrenador", js_or (d "numeroDocNuevoEntrenador") JNull);
            ("pNuevaFechaFinEntrenamiento", js_or (d "nuevaFechaFinEntrenamiento") JNull)]).

Definition manejarRespuestaModificarEntrenamiento (resultadoDB : JsVal) : Res JsVal :=
  mensaje <- get_prop resultadoDB "mensaje";
  controlado <- (if truthy mensaje
                then (lower <- js_toLowerCase mensaje;
                      Ret (negb (str_includes "exitosamente" lower)))
                else Ret false);
  if controlado then
    lower <- js_toLowerCase mensaje;
    let statusCode := if str_includes "no tiene un entrenamiento" lower then 404 else 400 in
    throwClientError mensaje statusCode
  else Ret resultadoDB.

Definition consultarEntrenamientoPorDocumento (tipoDocumento numeroDocumento : JsVal) : M JsVal :=
  _ <- await lift (interpolated [tipoDocumento; numeroDocumento]);
  if blank tipoDocumento then
    mret (failure (JStr "El tipo de documento es requerido y debe ser una cadena de texto no vacía.") 400)
  else if blank numeroDocumento then
    mret (failure (JStr "El número de documento es requerido y debe ser una cadena de texto no vacía.") 400)
  else
    try_catch (
      tipo <- await lift (js_trim tipoDocumento);
      numero <- await lift (js_trim numeroDocumento);
      entrenamientos <- await call Service Model "obtenerEntrenamientoCognitivoPorDocumento"
        (EntrenamientoModel.obtenerEntrenamientoCognitivoPorDocumento (JStr tipo) (JStr numero));
      lift (
        len <- get_prop entrenamientos "length";
        if num_eq len 0 then
          Ret (obj [("success", JBool true); ("data", JArr []);
                    ("message", JStr "No se encontró ningún entrenamiento cognitivo para el estudiante especificado.")])
        else Ret (obj [("success", JBool true); ("data", entrenamientos)])))
    (fun error => throw (with_default_status 500 error)).

Definition crearNuevoEntrenamientoCognitivo (datosEntrada : JsVal) : M JsVal :=
  try_catch (
    errorValidacion <- await lift (validarDatosCrearEntrenamiento datosEntrada);
    if truthy errorValidacion then mret errorValidacion
    else
      datosEntrenamientoParaDB <- await lift (prepararDatosEntrenamientoParaDB datosEntrada);
      resultado <- await call Service Model "crearEntrenamientoCognitivoDB"
        (EntrenamientoModel.crearEntrenamientoCognitivoDB datosEntrenamientoParaDB);
      lift (manejarRespuestaCrearEntrenamiento resultado))
  (fun error => throw (with_default_status 500 error)).

Definition isValidUUID (uuid : JsVal) : bool :=
  is_string uuid && match_shape uuid_shape (str_of uuid).

(** The [for ... of] loop of [registrarNuevaAsignacionService]: the first
    identifier that is not a UUID, if any. *)
Definition primer_id_invalido (ids : list JsVal) : option JsVal :=
  List.find (fun id => negb (isValidUUID id)) ids.

Definition registrarNuevaAsignacionService (datosAsignacion : JsVal) : M JsVal :=
  d <- await lift (destructure datosAsignacion);
  let estudianteId := d "estudianteId" in
  let fechaInicio := d "fechaInicio" in
  let tiposVariablesCognitivasIds := d "tiposVariablesCognitivasIds" in
  let nivelInicial := d "nivelInicial" in
  let metricas := d "metricas" in
  if negb (isValidUUID estudianteId) then
    mret (failure (JStr "El ID del estudiante es requerido y debe ser un UUID válido.") 400)
  else if negb (isArray tiposVariablesCognitivasIds)
          || (Z.of_nat (length (elements tiposVariablesCognitivasIds)) =? 0) then
    mret (failure (JStr "Se debe proporcionar al menos un ID de tipo de variable cognitiva en un arreglo.") 400)
  else
    match primer_id_invalido (elements tiposVariablesCognitivasIds) with
    | Some id =>
        texto <- await lift (js_to_string id);
        mret (failure (JStr ("El ID de tipo de variable cognitiva '" +:+ texto
                             +:+ "' no es un UUID válido.")) 400)
    | None =>
        fechaInvalida <- await lift (
          if truthy fechaInicio
          then (valida <- isValidDateTimeString fechaInicio; Ret (negb valida))
          else Ret true);
        if fechaInvalida then
          mret (failure (JStr "La fecha de inicio es requerida y debe estar en formato YYYY-MM-DD HH:MM:SS.") 400)
        else if is_null nivelInicial
                || negb (is_object_type nivelInicial) || isArray nivelInicial then
          mret (failure (JStr "El nivel inicial es requerido y debe ser un objeto JSON.") 400)
        else if is_null metricas
                || negb (is_object_type metricas) || isArray metricas then
          mret (failure (JStr "Las métricas son requeridas y deben ser un objeto JSON.") 400)
        else
          try_catch (
            let datosParaDB :=
              obj [("pEstudianteId", estudianteId);
                   ("pFechaInicio", fechaInicio);
                   ("pTiposVariablesCognitivasIds", tiposVariablesCognitivasIds);
                   ("pNivelInicial", nivelInicial);
                   ("pMetricas", metricas)] in
            mensajeDB <- await call Service Model "registrarEntrenamientoAsignacionDB"
              (EntrenamientoModel.registrarEntrenamientoAsignacionDB datosParaDB);
            lift (
              exito <- and_includes mensajeDB "éxito";
              if exito then
                Ret (obj [("success", JBool true); ("message", mensajeDB); ("statusCode", JNum 201)])
              else
                Ret (failure (js_or mensajeDB (JStr "Ocurrió un error en la base de datos.")) 400)))
          (fun error => throw error)
    end.

Definition consultarProgresoVariable (asignacionVariableId : JsVal) : M JsVal :=
  if negb (truthy asignacionVariableId) then
    mret (failure (JStr "El ID de la asignación de variable es requerido.") 400)
  else
    try_catch (
      progreso <- await call Service Model "obtenerProgresoVariablePorId"
        (EntrenamientoModel.obtenerProgresoVariablePorId asignacionVariableId);
      if negb (truthy progreso) then
        mret (failure (JStr "No se encontraron detalles de progreso para el ID proporcionado.") 404)
      else mret (obj [("success", JBool true); ("data", progreso)]))
    (fun error => throw (with_default_status 500 error)).

Definition actualizarObservacionSesion (idSesion nuevaObservacion : JsVal) : M JsVal :=
  if negb (is_string nuevaObservacion) then
    mret (failure (JStr "La observación debe ser una cadena de texto.") 400)
  else
    try_catch (
      resultadoDB <- await call Service Model "actualizarObservacionSesionDB"
        (EntrenamientoModel.actualizarObservacionSesionDB idSesion nuevaObservacion);
      if truthy resultadoDB && truthy (get_opt resultadoDB "sesionid") then
        mret (obj [("success", JBool true); ("data", resultadoDB);
                   ("message", get_opt resultadoDB "mensaje")])
      else
        let errorMessage :=
          if truthy resultadoDB then get_opt resultadoDB "mensaje"
          else JStr "No se pudo actualizar la observación." in
        throw (clientError errorMessage 400))
    (fun error => throw (with_default_status 400 error)).

Definition modificarEntrenamientoCognitivo
    (siglaTipoDocEstudiante numeroDocEstudiante datosModificacion : JsVal) : M JsVal :=
  try_catch (
    _ <- await lift (validarDatosModificarEntrenamiento datosModificacion);
    datosParaDB <- await lift (prepararDatosModificacionParaDB siglaTipoDocEstudiante numeroDocEstudiante datosModificacion);
    resultadoDB <- await call Service Model "modificarEntrenamientoCognitivoDB"
      (EntrenamientoModel.modificarEntrenamientoCognitivoDB datosParaDB);
    lift (manejarRespuestaModificarEntrenamiento resultadoDB))
  (fun error =>
    if truthy (field error "statusCode") then throw error
    else if str_eq (field error "code") "P0001" then
      lift (throwClientError (field error "message") 400)
    else
      throw (<[ "statusCode" := JNum 500 ]>
               (new_Error (JStr "Ocurrió un error inesperado en el servidor al intentar modificar el entrenamiento.")))).

Definition crearNuevaSesion (datos : JsVal) : M JsVal :=
  d <- await lift (destructure datos);
  let siglaTipoDocEstudiante := d "siglaTipoDocEstudiante" in
  let numeroDocEstudiante := d "numeroDocEstudiante" in
  let nombreVariableCognitiva := d "nombreVariableCognitiva" in
  let fechaInicio := d "fechaInicio" in
  try_catch (
    _ <- await lift (
      if negb (truthy siglaTipoDocEstudiante) || negb (truthy numeroDocEstudiante)
         || negb (truthy nombreVariableCognitiva)
      then throwClientError (JStr "Se requieren los datos del estudiante y el nombre de la variable.") 400
      else Ret tt);
    pFechaInicio <- await (if truthy fechaInicio then mret fechaInicio else new_Date);
    resultadoDB <- await call Service Model "crearSesionDB"
      (EntrenamientoModel.crearSesionDB
         (obj [("pSiglaTipoDocEstudiante", siglaTipoDocEstudiante);
               ("pNumeroDocEstudiante", numeroDocEstudiante);
               ("pNombreVariableCognitiva", nombreVariableCognitiva);
               ("pFechaInicio", pFechaInicio);
               ("pObservacion", JStr "")]));
    if negb (truthy resultadoDB) || negb (truthy (get_opt resultadoDB "sesionentrenamientoid")) then
      lift (throwClientError
              (js_or (get_opt resultadoDB "mensaje") (JStr "Error al crear la sesión en la base de datos.")) 400)
    else mret (obj [("mensaje", JStr "Sesión creada exitosamente"); ("data", resultadoDB)]))
  (fun error => throw (with_default_status 500 error)).

Definition iniciarSesion (idSesion : JsVal) : M JsVal :=
  try_catch (
    resultadoDB <- await call Service Model "iniciarSesionDB"
      (EntrenamientoModel.iniciarSesionDB idSesion);
    if negb (truthy resultadoDB) || negb (truthy (get_opt resultadoDB "exito")) then
      lift (throwClientError
              (js_or (get_opt resultadoDB "mensaje") (JStr "No se pudo iniciar la sesión.")) 400)
    else mret (obj [("mensaje", JStr "Sesión iniciada correctamente"); ("data", resultadoDB)]))
  (fun error => throw (with_default_status 500 error)).

(** [!v || typeof v !== 'object' || Array.isArray(v)] *)
Definition no_es_objeto (v : JsVal) : bool :=
  negb (truthy v) || negb (is_object_type v) || isArray v.

Definition finalizarSesion (idSesion nuevasMetricas nuevoNivelInicial : JsVal) : M JsVal :=
  try_catch (
    _ <- await lift (
      if negb (truthy idSesion) || negb (isValidUUID idSesion)
      then throwClientError (JStr "El ID de la sesión es requerido y debe ser un UUID válido.") 400
      else Ret tt);
    _ <- await lift (
      if no_es_objeto nuevasMetricas
      then throwClientError (JStr "Las nuevas métricas son requeridas y deben ser un objeto JSON válido.") 400
      else Ret tt);
    _ <- await lift (
      if no_es_objeto nuevoNivelInicial
      then throwClientError (JStr "El nuevo nivel inicial es requerido y debe ser un objeto JSON válido.") 400
      else Ret tt);
    resultadoDB <- await call Service Model "finalizarSesionDB"
      (EntrenamientoModel.finalizarSesionDB idSesion nuevasMetricas nuevoNivelInicial);
    lift (
      _ <- (if negb (truthy resultadoDB) || negb (truthy (get_opt resultadoDB "mensaje"))
            then throwClientError (JStr "Error al finalizar la sesión en la base de datos.") 500
            else Ret tt);
      mensaje <- get_prop resultadoDB "mensaje";
      conError <- js_includes mensaje "Error";
      conerror <- (if conError then Ret true else js_includes mensaje "error");
      if conerror then throwClientError mensaje 400
      else
        Ret (obj [("mensaje", mensaje);
                  ("data", obj [("idSesion", get_opt resultadoDB "idsesion");
                                ("detalles", get_opt resultadoDB "detalles")])])))
  (fun error => throw (with_default_status 500 error)).

Definition finalizarAsignacionVariable (idAsignacionVariable : JsVal) : M JsVal :=
  try_catch (
    _ <- await lift (
      if negb (truthy idAsignacionVariable) || negb (isValidUUID idAsignacionVariable)
      then throwClientError (JStr "El ID de la asignación de variable es requerido y debe ser un UUID válido.") 400
      else Ret tt);
    resultadoDB <- await call Service Model "finalizarAsignacionVariableDB"
      (EntrenamientoModel.finalizarAsignacionVariableDB idAsignacionVariable);
    lift (
      _ <- (if negb (truthy resultadoDB)
            then throwClientError (JStr "Error al finalizar la asignación de variable en la base de datos.") 500
            else Ret tt);
      _ <- (if negb (truthy (get_opt resultadoDB "exito"))
            then throwClientError
                   (js_or (get_opt resultadoDB "mensaje")
                          (JStr "No se pudo finalizar la asignación de variable.")) 400
            else Ret tt);
      Ret (obj [("mensaje", get_opt resultadoDB "mensaje");
                ("data", obj [("asignacionId", get_opt resultadoDB "asignacionid");
                              ("detalles", get_opt resultadoDB "detalles")])])))
  (fun error =>
    if truthy (field error "statusCode") then throw error
    else if str_eq (field error "code") "P0001" then
      lift (throwClientError (field error "message") 400)
    else
      throw (<[ "statusCode" := JNum 500 ]>
               (new_Error (JStr "Ocurrió un error inesperado en el servidor al intentar finalizar la asignación de variable.")))).

End Defs.
End EntrenamientoCognitivoService.

(** services/informe.service.js *)
Module InformeService.
Import Js Db.
Section Defs.
Context {rt : Runtime} {db : Database}.

Definition listarEntrenamientosParaAdmin : M JsVal :=
  try_catch (
    listaEntrenamientos <- await call Service Model "obtenerListaEntrenamientosAdmin"
      InformeModel.obtenerListaEntrenamientosAdmin;
    _ <- await lift (get_prop listaEntrenamientos "length");
    mret (obj [("success", JBool true); ("data", listaEntrenamientos)]))
  (fun error => throw (with_default_status 500 error)).

Definition obtenerDetallesDeInformePorId (entrenamientoId : JsVal) : M JsVal :=
  try_catch (
    detallesInforme <- await call Service Model "obtenerDetalleInformeEntrenamiento"
      (InformeModel.obtenerDetalleInformeEntrenamiento entrenamientoId);
    _ <- await lift (get_prop detallesInforme "length");
    mret (obj [("success", JBool true); ("data", detallesInforme)]))
  (fun error => throw (with_default_status 500 error)).

Definition listarEntrenamientosEntrenador (entrenadorId : JsVal) : M JsVal :=
  try_catch (
    listaEntrenamientos <- await call Service Model "obtenerListaEntrenamientosEntrenador"
      (InformeModel.obtenerListaEntrenamientosEntrenador entrenadorId);
    _ <- await lift (get_prop listaEntrenamientos "length");
    mret (obj [("success", JBool true); ("data", listaEntrenamientos)]))
  (fun error => throw (with_default_status 500 error)).

End Defs.
End InformeService.

(** services/variablesCognitivas.service.js *)
Module VariablesCognitivasService.
Import Js Db.
Section Defs.
Context {rt : Runtime} {db : Database}.

Definition abandonarVariableCognitiva (datosAbandono : JsVal) : M JsVal :=
  d <- await lift (destructure datosAbandono);
  let siglaDocumento := d "siglaDocumento" in
  let numeroDocumento := d "numeroDocumento" in
  let idVariableCognitiva := d "idVariableCognitiva" in
  if negb (truthy siglaDocumento) || negb (truthy numeroDocumento) || negb (truthy idVariableCognitiva) then
    throw (clientError (JStr "Datos incompletos. Se requiere siglaDocumento, numeroDocumento y idVariableCognitiva.") 400)
  else
    try_catch (
      resultado <- await call Service Model "abandonarVariableCognitiva"
        (VariablesCognitivasModel.abandonarVariableCognitiva siglaDocumento numeroDocumento idVariableCognitiva);
      if negb (truthy resultado) || negb (truthy (get_opt resultado "exito")) then
        throw (clientError (js_or (get_opt resultado "mensaje")
                                  (JStr "No se pudo completar la operación de abandono.")) 400)
      else
        _ <- await lift (interpolated [idVariableCognitiva; numeroDocumento]);
        mret resultado)
    (fun error => throw (with_default_status 500 error)).

Definition reactivarVariableCognitiva (datosReactivacion : JsVal) : M JsVal :=
  d <- await lift (destructure datosReactivacion);
  let siglaDocumento := d "siglaDocumento" in
  let numeroDocumento := d "numeroDocumento" in
  let idVariableCognitiva := d "idVariableCognitiva" in
  if negb (truthy siglaDocumento) || negb (truthy numeroDocumento) || negb (truthy idVariableCognitiva) then
    throw (clientError (JStr "Datos incompletos para reactivar. Se requiere siglaDocumento, numeroDocumento y idVariableCognitiva.") 400)
  else
    try_catch (
      resultado <- await call Service Model "reactivarVariableCognitiva"
        (VariablesCognitivasModel.reactivarVariableCognitiva siglaDocumento numeroDocumento idVariableCognitiva);
      if negb (truthy resultado) || negb (truthy (get_opt resultado "exito")) then
        throw (clientError (js_or (get_opt resultado "mensaje")
                                  (JStr "No se pudo completar la reactivación.")) 400)
      else
        _ <- await lift (interpolated [idVariableCognitiva; numeroDocumento]);
        mret resultado)
    (fun error => throw (with_default_status 500 error)).

Definition obtenerIdVariableCognitivaPorNombre (nombre : JsVal) : M JsVal :=
  if negb (truthy nombre) then
    throw (clientError (JStr "El nombre de la variable cognitiva es requerido.") 400)
  else
    try_catch (
      resultado <- await call Service Model "obtenerIdVariableCognitivaPorNombre"
        (VariablesCognitivasModel.obtenerIdVariableCognitivaPorNombre nombre);
      if negb (truthy resultado) || negb (truthy (get_opt resultado "id")) then
        throw (clientError (JStr ("Variable cognitiva con nombre " +:+ dq +:+ string_form nombre
                                  +:+ dq +:+ " no encontrada.")) 404)
      else mret resultado)
    (fun error => throw (with_default_status 500 error)).

End Defs.
End VariablesCognitivasService.

(** services/estudiante.service.js *)
Module EstudianteService.
Import Js Db Regex.
Section Defs.
Context {rt : Runtime} {db : Database}.

Definition isValidDateString (dateString : JsVal) : Res bool :=
  s <- js_to_string dateString;
  if negb (match_shape date_shape s) then Ret false
  else
    date <- Date_of dateString;
    Ret match date with
        | None => false
        | Some date => str_eq dateString (str_slice0 10 (Date_toISOString date))
        end.

Definition registrarEstudiante (datosEntrada : JsVal) : M JsVal :=
  d <- await lift (destructure datosEntrada);
  let siglaTipoDocumento := d "siglaTipoDocumento" in
  let nombreGenero := d "nombreGenero" in
  let nombres := d "nombres" in
  let apellidos := d "apellidos" in
  let numeroDocumento := d "numeroDocumento" in
  let fechaNacimiento := d "fechaNacimiento" in
  let correo := d "correo" in
  let programaNombres := d "programaNombres" in
  _ <- await lift (
    _ <- (if blank siglaTipoDocumento
          then throwClientError (JStr "La sigla del tipo de documento es requerida.") 400 else Ret tt);
    _ <- (if blank nombreGenero
          then throwClientError (JStr "El nombre del género es requerido.") 400 else Ret tt);
    _ <- (if blank nombres
          then throwClientError (JStr "El nombre del estudiante es requerido.") 400 else Ret tt);
    _ <- (if blank apellidos
          then throwClientError (JStr "Los apellidos del estudiante son requeridos.") 400 else Ret tt);
    _ <- (if blank numeroDocumento
          then throwClientError (JStr "El número de documento es requerido.") 400 else Ret tt);
    fechaInvalida <- (if truthy fechaNacimiento
                      then (valida <- isValidDateString fechaNacimiento; Ret (negb valida))
                      else Ret true);
    _ <- (if fechaInvalida
          then throwClientError (JStr "La fecha de nacimiento es requerida y debe estar en formato YYYY-MM-DD.") 400
          else Ret tt);
    _ <- (if negb (truthy correo) || negb (is_string correo)
             || negb (matches loose_email (trim (str_of correo)))
          then throwClientError (JStr "El correo electrónico es requerido y debe tener un formato válido.") 400
          else Ret tt);
    _ <- (if negb (isArray programaNombres) || (Z.of_nat (length (elements programaNombres)) =? 0)
          then throwClientError (JStr "Se debe especificar al menos un programa académico.") 400
          else Ret tt);
    if existsb (fun p => negb (is_string p) || String.eqb (trim (str_of p)) "") (elements programaNombres)
    then throwClientError (JStr "Los nombres de los programas deben ser cadenas de texto no vacías.") 400
    else Ret tt);
  try_catch (
    datosEstudianteParaDB <- await lift (
      pSiglaTipoDocumento <- js_trim siglaTipoDocumento;
      pGeneroNombre <- js_trim nombreGenero;
      pNombres <- js_trim nombres;
      pApellidos <- js_trim apellidos;
      pNumeroDocumento <- js_trim numeroDocumento;
      pCorreo <- js_trim correo;
      pProgramaNombres <- mapM js_trim (elements programaNombres);
      Ret (obj [("pSiglaTipoDocumento", JStr pSiglaTipoDocumento);
                ("pGeneroNombre", JStr pGeneroNombre);
                ("pNombres", JStr pNombres);
                ("pApellidos", JStr pApellidos);
                ("pNumeroDocumento", JStr pNumeroDocumento);
                ("pFechaNacimiento", fechaNacimiento);
                ("pCorreo", JStr pCorreo);
                ("pProgramaNombres", JArr (JStr <$> pProgramaNombres))]));
    resultado <- await call Service Model "registrarEstudianteDB"
      (EstudianteModel.registrarEstudianteDB datosEstudianteParaDB);
    lift (
      r <- destructure resultado;
      let estudianteId := r "estudianteId" in
      let mensaje := r "mensaje" in
      exito <- (if truthy mensaje
                then (lower <- js_toLowerCase mensaje; Ret (str_includes "exitosamente" lower))
                else Ret false);
      if exito then
        Ret (obj [("success", JBool true);
                  ("data", obj [("id", estudianteId); ("message", mensaje)]);
                  ("message", mensaje)])
      else
        lowerCaseMessage <- js_toLowerCase (js_or mensaje (JStr ""));
        _ <- (if str_includes "unicidad" lowerCaseMessage
                 || str_includes "violates unique constraint" lowerCaseMessage
              then
                let userMessage :=
                  if str_includes "correo" lowerCaseMessage
                  then "El correo electrónico ingresado ya está registrado."
                  else if str_includes "numerodocumento" lowerCaseMessage
                  then "El número de documento ingresado ya está registrado."
                  else "El valor de un campo único ya está registrado." in
                throwClientError (JStr userMessage) 409
              else Ret tt);
        throwClientError
          (js_or mensaje (JStr "La operación en la base de datos no se completó correctamente.")) 400))
  (fun error =>
    if truthy (field error "statusCode") then throw error
    else throw (<[ "statusCode" := JNum 500 ]>
                  (new_Error (JStr "Ocurrió un error inesperado en el servidor.")))).

Definition modificarEstudiante (siglaTipoDocActual numeroDocActual datosParaActualizar : JsVal) : M JsVal :=
  d <- await lift (destructure datosParaActualizar);
  try_catch (
    resultado <- await call Service Model "modificarInformacionEstudiante"
      (EstudianteModel.modificarInformacionEstudiante
         (obj [("pSiglaTipoDocActual", siglaTipoDocActual);
               ("pNumeroDocActual", numeroDocActual);
               ("pNuevosNombres", js_nullish_or (d "nombres") JNull);
               ("pNuevosApellidos", js_nullish_or (d "apellidos") JNull);
               ("pNuevoCorreo", js_nullish_or (d "correo") JNull);
               ("pNuevaFechaNacimiento", js_nullish_or (d "fechaNacimiento") JNull);
               ("pNuevoNombreGenero", js_nullish_or (d "genero") JNull);
               ("pNuevosNombresProgramas", js_nullish_or (d "programaNombres") JNull)]));
    lift (
      _ <- (if negb (truthy resultado) || num_eq (get_opt resultado "length") 0
            then throwClientError (JStr "La operación de modificación no devolvió ningún resultado.") 500
            else Ret tt);
      resultadoDB <- get_index0 resultado;
      mensaje <- get_prop resultadoDB "mensaje";
      _ <- (if truthy mensaje then
              lowerCaseMessage <- js_toLowerCase mensaje;
              _ <- (if str_includes "ya está en uso por otro estudiante" lowerCaseMessage
                    then throwClientError mensaje 409 else Ret tt);
              if negb (str_includes "procesada para actualización" lowerCaseMessage)
              then throwClientError mensaje 400 else Ret tt
            else Ret tt);
      Ret resultadoDB))
  (fun error =>
    if truthy (field error "statusCode") then throw error
    else throw (<[ "statusCode" := JNum 500 ]>
                  (new_Error (JStr "Ocurrió un error inesperado en el servidor al intentar modificar el estudiante.")))).

Definition obtenerEstudiantePorDocumento (siglaTipoDoc numeroDoc : JsVal) : M JsVal :=
  try_catch (
    resultado <- await call Service Model "obtenerInformacionCompleta"
      (EstudianteModel.obtenerInformacionCompleta siglaTipoDoc numeroDoc);
    lift (
      _ <- (if negb (truthy resultado) || num_eq (get_opt resultado "length") 0
            then throwClientError (JStr "Estudiante no encontrado.") 404
            else Ret tt);
      get_index0 resultado))
  (fun error =>
    if truthy (field error "statusCode") then throw error
    else throw (<[ "statusCode" := JNum 500 ]>
                  (new_Error (JStr "Ocurrió un error inesperado en el servidor al buscar el estudiante.")))).

Definition actualizarGenero (estudianteId nuevoNombreGenero : JsVal) : M JsVal :=
  try_catch (
    resultadoDB <- await call Service Model "actualizarGenero"
      (EstudianteModel.actualizarGenero estudianteId nuevoNombreGenero);
    lift (
      _ <- (if negb (truthy resultadoDB) || negb (truthy (get_opt resultadoDB "estudianteid"))
            then (mensaje <- get_prop resultadoDB "mensaje";
                  throwClientError (js_or mensaje (JStr "Estudiante o género no encontrado.")) 404)
            else Ret tt);
      mensaje <- get_prop resultadoDB "mensaje";
      sinCambios <- js_includes mensaje "No se requiere actualización";
      if sinCambios then Ret resultadoDB
      else
        _ <- (if negb (truthy (get_opt resultadoDB "generoactualizadoid"))
              then throwClientError (js_or mensaje (JStr "Ocurrió un error en la base de datos.")) 400
              else Ret tt);
        Ret resultadoDB))
  (fun error =>
    if truthy (field error "statusCode") then throw error
    else throw (new_Error (JStr ("Error en el servicio al actualizar género: "
                                 +:+ string_form (field error "message"))))).

End Defs.
End EstudianteService.

(** services/utilidades.service.js *)
Module UtilidadesService.
Import Js Db.
Section Defs.
Context {rt : Runtime} {db : Database}.

Definition listarTodosGenerosService : M JsVal :=
  try_catch (
    generos <- await call Service Model "obtenerTodosLosGeneros" UtilidadesModel.obtenerTodosLosGeneros;
    _ <- await lift (get_prop generos "length");
    mret (obj [("success", JBool true); ("data", generos);
               ("message", JStr "Lista de géneros obtenida exitosamente.")]))
  (fun error => throw (with_default_status 500 error)).

Definition listarTodosTiposDocumentoService : M JsVal :=
  try_catch (
    tiposDocumento <- await call Service Model "obtenerTodosLosTiposDocumento"
      UtilidadesModel.obtenerTodosLosTiposDocumento;
    _ <- await lift (get_prop tiposDocumento "length");
    mret (obj [("success", JBool true); ("data", tiposDocumento);
               ("message", JStr "Lista de tipos de documento obtenida exitosamente.")]))
  (fun error => throw (with_default_status 500 error)).

Definition listarTodosProgramasService : M JsVal :=
  try_catch (
    programas <- await call Service Model "obtenerTodosLosProgramas" UtilidadesModel.obtenerTodosLosProgramas;
    _ <- await lift (get_prop programas "length");
    mret (obj [("success", JBool true); ("data", programas);
               ("message", JStr "Lista de programas obtenida exitosamente.")]))
  (fun error => throw (with_default_status 500 error)).

Definition obtenerIdEstudiantePorDocumentoService (tipoDocumento numeroDocumento : JsVal) : M JsVal :=
  if blank tipoDocumento then
    mret (obj [("success", JBool false);
               ("message", JStr "El tipo de documento es requerido y debe ser una cadena de texto no vacía.");
               ("statusCode", JNum 400)])
  else if blank numeroDocumento then
    mret (obj [("success", JBool false);
               ("message", JStr "El número de documento es requerido y debe ser una cadena de texto no vacía.");
               ("statusCode", JNum 400)])
  else
    try_catch (
      tipo <- await lift (js_trim tipoDocumento);
      numero <- await lift (js_trim numeroDocumento);
      estudianteId <- await call Service Model "obtenerIdEstudiantePorDocumentoDB"
        (UtilidadesModel.obtenerIdEstudiantePorDocumentoDB (JStr tipo) (JStr numero));
      if truthy estudianteId then
        mret (obj [("success", JBool true); ("data", estudianteId);
                   ("message", JStr "ID de estudiante obtenido exitosamente.")])
      else
        mret (obj [("success", JBool false);
                   ("message", JStr "No se encontró estudiante con el tipo y número de documento especificados.");
                   ("statusCode", JNum 404)]))
    (fun error => throw (with_default_status 500 error)).

Definition listarTiposVariablesCognitivasService : M JsVal :=
  try_catch (
    tiposVariables <- await call Service Model "obtenerTiposVariablesCognitivasDB"
      UtilidadesModel.obtenerTiposVariablesCognitivasDB;
    _ <- await lift (get_prop tiposVariables "length");
    mret (obj [("success", JBool true); ("data", tiposVariables);
               ("message", JStr "Lista de tipos de variables cognitivas obtenida exitosamente.")]))
  (fun error => throw (with_default_status 500 error)).

End Defs.
End UtilidadesService.

(** services/entrenador.service.js *)
Module EntrenadorService.
Import Js Db Regex.
Section Defs.
Context {rt : Runtime} {db : Database}.

(** The [catch] block of [registrarEntrenador], for an error without
    [statusCode]. *)
Definition clasificarErrorRegistro (error : ErrObj) : Res JsVal :=
  lowerCaseMessage <- js_toLowerCase (js_or (field error "message") (JStr ""));
  _ <- (if str_eq (field error "code") "23505" || str_includes "unicidad" lowerCaseMessage
           || str_includes "ccentrenador001uq" lowerCaseMessage
           || str_includes "ccentrenador002uq" lowerCaseMessage
        then
          enDetalle <- (if str_includes "correo" lowerCaseMessage then Ret true
                        else if truthy (field error "detail")
                        then (detail <- js_toLowerCase (field error "detail");
                              Ret (str_includes "correo" detail))
                        else Ret false);
          let userMessage :=
            if enDetalle then "El correo electrónico ingresado ya está registrado."
            else if str_includes "documento" lowerCaseMessage
            then "Ya existe un entrenador con ese tipo y número de documento."
            else "Ya existe un entrenador con el documento o correo proporcionado." in
          throwClientError (JStr userMessage) 409
        else Ret tt);
  throwClientError (JStr "Ocurrió un error inesperado al registrar al entrenador.") 500.

Definition registrarEntrenador (datosParaRegistrar : JsVal) : M JsVal :=
  try_catch (
    resultadoDB <- await call Service Model "registrar" (EntrenadorModel.registrar datosParaRegistrar);
    if truthy resultadoDB && truthy (get_opt resultadoDB "identrenador") then
      mret (obj [("success", JBool true); ("data", resultadoDB)])
    else throw (new_Error (JStr "La operación en la base de datos no confirmó el registro.")))
  (fun error =>
    if truthy (field error "statusCode") then throw error
    else lift (clasificarErrorRegistro error)).

Definition obtenerListaCompletaEntrenadores (filtrosDeUrl : JsVal) : M JsVal :=
  let filtrosDeUrl := if is_undefined filtrosDeUrl then obj [] else filtrosDeUrl in
  nombreFacultad <- await lift (get_prop filtrosDeUrl "nombreFacultad");
  let filtrosParaModelo :=
    if truthy nombreFacultad then obj [("nombreFacultad", nombreFacultad)] else obj [] in
  try_catch (
    listaEntrenadores <- await call Service Model "obtenerTodos" (EntrenadorModel.obtenerTodos filtrosParaModelo);
    _ <- await lift (get_prop listaEntrenadores "length");
    mret (obj [("success", JBool true); ("data", listaEntrenadores)]))
  (fun error => throw (with_default_status 500 error)).

Definition modificarInformacionEntrenador (entrenadorID datosAActualizar : JsVal) : M JsVal :=
  try_catch (
    resultadoDB <- await call Service Model "actualizar"
      (EntrenadorModel.actualizar entrenadorID datosAActualizar);
    lift (
      _ <- (if negb (truthy resultadoDB) || negb (truthy (get_opt resultadoDB "mensaje"))
            then throwClientError (JStr "La operación en la base de datos no produjo un resultado.") 500
            else Ret tt);
      d <- destructure resultadoDB;
      let mensaje := d "mensaje" in
      lowerCaseMessage <- js_toLowerCase mensaje;
      if str_includes "actualiza" lowerCaseMessage
         || str_includes "no se especificaron cambios" lowerCaseMessage
      then Ret (obj [("success", JBool true); ("data", resultadoDB)])
      else if str_includes "ya está en uso" lowerCaseMessage then throwClientError mensaje 409
      else if str_includes "no encontrado" lowerCaseMessage then throwClientError mensaje 404
      else throwClientError mensaje 400))
  (fun error =>
    if truthy (field error "statusCode") then throw error
    else throw (new_Error (JStr "Ocurrió un error inesperado en el servidor."))).

Definition desactivarEntrenador (entrenadorID : JsVal) : M JsVal :=
  try_catch (
    resultadoDelModelo <- await call Service Model "desactivar" (EntrenadorModel.desactivar entrenadorID);
    lift (
      _ <- (if negb (truthy resultadoDelModelo)
            then Throw (clientError (JStr "No se pudo completar la desactivación, la operación no produjo resultado.") 500)
            else Ret tt);
      _ <- (if negb (truthy (get_opt resultadoDelModelo "exito"))
            then (mensaje <- get_prop resultadoDelModelo "mensaje";
                  lower <- js_toLowerCase mensaje;
                  let statusCode := if str_includes "no encontrado" lower then 404 else 400 in
                  Throw (clientError mensaje statusCode))
            else Ret tt);
      Ret (obj [("success", JBool true);
                ("message", get_opt resultadoDelModelo "mensaje");
                ("data", obj [("entrenadorId", get_opt resultadoDelModelo "entrenadorid")])])))
  (fun error => throw (with_default_status 500 error)).

Definition obtenerFacultadesPorEmailService (correo : JsVal) : M JsVal :=
  if negb (truthy correo) || negb (is_string correo) || negb (str_includes "@" (str_of correo)) then
    throw (new_Error (JStr "Correo electrónico inválido."))
  else
    try_catch (
      call Service Model "obtenerFacultadesPorEmailDB" (EntrenadorModel.obtenerFacultadesPorEmailDB correo))
    (fun error => throw error).

Definition obtenerDatosPorCorreoService (correo : JsVal) : M JsVal :=
  _ <- await lift (
    _ <- (if blank correo
          then throwClientError (JStr "El correo electrónico es requerido y debe ser una cadena de texto no vacía.") 400
          else Ret tt);
    if negb (matches strict_email (trim (str_of correo)))
    then throwClientError (JStr "El correo electrónico debe tener un formato válido.") 400
    else Ret tt);
  try_catch (
    recortado <- await lift (js_trim correo);
    resultado <- await call Service Model "obtenerDatosPorCorreo"
      (EntrenadorModel.obtenerDatosPorCorreo (JStr recortado));
    if negb (truthy resultado) then
      lift (throwClientError (JStr "No se encontró un entrenador con el correo electrónico proporcionado.") 404)
    else
      mret (obj [("success", JBool true); ("data", resultado);
                 ("message", JStr "Datos del entrenador obtenidos exitosamente")]))
  (fun error =>
    if truthy (field error "statusCode") then throw error
    else lift (throwClientError (JStr "Error interno del servidor al obtener los datos del entrenador.") 500)).

(** The [catch] block of [crearEntrenadorEntrenamientoService]. *)
Definition clasificarErrorRelacion (error : ErrObj) : Res JsVal :=
  _ <- (if str_eq (field error "code") "23503" then
          lowerCaseMessage <- js_toLowerCase (js_or (field error "message") (JStr ""));
          if str_includes "entrenador" lowerCaseMessage
          then throwClientError (JStr "El ID del entrenador proporcionado no existe en la base de datos.") 404
          else if str_includes "entrenamientocognitivo" lowerCaseMessage
          then throwClientError (JStr "El ID del entrenamiento cognitivo proporcionado no existe en la base de datos.") 404
          else throwClientError (JStr "Uno de los IDs proporcionados no existe en la base de datos.") 404
        else if str_eq (field error "code") "23505" then
          throwClientError (JStr "Ya existe una relación entre este entrenador y este entrenamiento cognitivo.") 409
        else Ret tt);
  Throw (with_default_status 500 error).

Definition crearEntrenadorEntrenamientoService (entrenadorId entrenamientoCognitivoId : JsVal) : M JsVal :=
  _ <- await lift (
    _ <- (if blank entrenadorId
          then throwClientError (JStr "El ID del entrenador es requerido y debe ser una cadena de texto no vacía.") 400
          else Ret tt);
    _ <- (if blank entrenamientoCognitivoId
          then throwClientError (JStr "El ID del entrenamiento cognitivo es requerido y debe ser una cadena de texto no vacía.") 400
          else Ret tt);
    _ <- (if negb (match_shape uuid_shape (str_of entrenadorId))
          then throwClientError (JStr "El ID del entrenador debe tener formato UUID válido.") 400
          else Ret tt);
    if negb (match_shape uuid_shape (str_of entrenamientoCognitivoId))
    then throwClientError (JStr "El ID del entrenamiento cognitivo debe tener formato UUID válido.") 400
    else Ret tt);
  try_catch (
    id1 <- await lift (js_trim entrenadorId);
    id2 <- await lift (js_trim entrenamientoCognitivoId);
    resultado <- await call Service Model "crearEntrenadorEntrenamiento"
      (EntrenadorModel.crearEntrenadorEntrenamiento (JStr id1) (JStr id2));
    lift (
      id <- get_prop resultado "id";
      Ret (obj [("success", JBool true);
                ("data", obj [("relacionId", id);
                              ("entrenadorId", get_opt resultado "entrenador");
                              ("entrenamientoCognitivoId", get_opt resultado "entrenamientocognitivo")]);
                ("message", get_opt resultado "mensaje");
                ("statusCode", JNum 201)])))
  (fun error => lift (clasificarErrorRelacion error)).

End Defs.
End EntrenadorService.

(** ** Responses and controllers *)

Module Express.
Import Js Db.

(** What a handler reads from the request. *)
Record Request : Type := {
  req_params : gmap string JsVal;
  req_query : gmap string JsVal;
  req_body : JsVal;
  req_user : JsVal
}.

(** How a handler finishes: [res.status(s).json(b)] or [next(error)]. *)
Inductive Outcome : Type :=
| Sent (status : JsVal) (body : JsVal)
| Next (error : ErrObj).

(** The properties [Object.assign] copies from a source. *)
Definition own_props (v : JsVal) : gmap string JsVal :=
  match v with JObj m => m | _ => ∅ end.

(** [Object.assign(target, source)] *)
Definition Object_assign (target : gmap string JsVal) (source : JsVal) : gmap string JsVal :=
  own_props source ∪ target.

Section Defs.
Context {rt : Runtime}.

(** utils/response.util.js *)
Definition sendSuccess (statusCode : JsVal) (message : JsVal) (data : JsVal) : Outcome :=
  let data := if is_undefined data then JNull else data in
  let response : gmap string JsVal :=
    list_to_map [("success", JBool true); ("message", message)] in
  let response :=
    if truthy data then
      if is_object_type data && negb (isArray data) && negb (is_null data)
      then Object_assign response data
      else <[ "data" := data ]> response
    else response in
  Sent statusCode (JObj response).

Definition sendError (statusCode : JsVal) (message : JsVal) (errorDetails : JsVal) : Outcome :=
  let errorDetails := if is_undefined errorDetails then JNull else errorDetails in
  let response : gmap string JsVal :=
    list_to_map [("success", JBool false); ("message", message)] in
  let response :=
    if truthy errorDetails then <[ "error" := errorDetails ]> response else response in
  Sent statusCode (JObj response).

Definition handleControllerError (error : ErrObj) : Outcome := Next error.

(** The error middleware of index.js.  [development] stands for
    [process.env.NODE_ENV === 'development'].  The comparisons with 400
    and 500 are modelled on numbers, the only status values in use. *)
Definition errorHandler (development : bool) (err : ErrObj) : Outcome :=
  let statusCode := js_or (js_or (field err "statusCode") (field err "status")) (JNum 500) in
  let esErrorDeCliente :=
    match statusCode with JNum n => (400 <=? n) && (n <? 500) | _ => false end in
  let body : gmap string JsVal :=
    list_to_map
      [("message",
        js_or (field err "message")
              (JStr (if esErrorDeCliente then "Error en la petición." else "Error interno del servidor.")));
       ("stack", if development && negb esErrorDeCliente then field err "stack" else JUndefined)] in
  let body :=
    if esErrorDeCliente && truthy (field err "errors")
    then <[ "errors" := field err "errors" ]> body else body in
  Sent statusCode (JObj body).

End Defs.
End Express.

(** controllers/estudiante.controller.js *)
Module EstudianteController.
Import Js Db Express.
Section Defs.
Context {rt : Runtime} {db : Database}.

Definition registrarNuevoEstudianteController (req : Request) : M Outcome :=
  try_catch (
    let datosEstudiante := req_body req in
    resultadoServicio <- await call Controller Service "registrarEstudiante"
      (EstudianteService.registrarEstudiante datosEstudiante);
    lift (
      message <- get_prop resultadoServicio "message";
      data <- get_prop resultadoServicio "data";
      id <- get_prop data "id";
      detalles <- get_prop data "message";
      Ret (sendSuccess (JNum 201) (js_or message (JStr "Estudiante registrado exitosamente."))
             (obj [("estudianteId", id); ("detalles", detalles)]))))
  (fun error => mret (handleControllerError error)).

Definition modificarEstudianteController (req : Request) : M Outcome :=
  let siglaTipoDoc := field (req_params req) "siglaTipoDoc" in
  let numeroDoc := field (req_params req) "numeroDoc" in
  let datosParaActualizar := req_body req in
  try_catch (
    resultado <- await call Controller Service "modificarEstudiante"
      (EstudianteService.modificarEstudiante siglaTipoDoc numeroDoc datosParaActualizar);
    lift (
      mensaje <- get_prop resultado "mensaje";
      estudianteid <- get_prop resultado "estudianteid";
      detalles <- get_prop resultado "detalles";
      Ret (sendSuccess (JNum 200) mensaje
             (obj [("estudianteId", estudianteid); ("detalles", detalles)]))))
  (fun error => mret (handleControllerError error)).

Definition obtenerEstudianteController (req : Request) : M Outcome :=
  let siglaTipoDoc := field (req_params req) "siglaTipoDoc" in
  let numeroDoc := field (req_params req) "numeroDoc" in
  try_catch (
    estudiante <- await call Controller Service "obtenerEstudiantePorDocumento"
      (EstudianteService.obtenerEstudiantePorDocumento siglaTipoDoc numeroDoc);
    mret (sendSuccess (JNum 200) (JStr "Estudiante encontrado exitosamente.") estudiante))
  (fun error => mret (handleControllerError error)).

Definition actualizarGeneroEstudiante (req : Request) : M Outcome :=
  try_catch (
    let id := field (req_params req) "id" in
    b <- await lift (destructure (req_body req));
    let nuevoNombreGenero := b "nuevoNombreGenero" in
    resultado <- await call Controller Service "actualizarGenero"
      (EstudianteService.actualizarGenero id nuevoNombreGenero);
    lift (
      mensaje <- get_prop resultado "mensaje";
      estudianteid <- get_prop resultado "estudianteid";
      generoactualizadoid <- get_prop resultado "generoactualizadoid";
      Ret (sendSuccess (JNum 200) mensaje
             (obj [("estudianteId", estudianteid); ("generoId", generoactualizadoid)]))))
  (fun error => mret (handleControllerError error)).

End Defs.
End EstudianteController.

(** controllers/sesion.controller.js *)
Module SesionController.
Import Js Db Express.
Section Defs.
Context {rt : Runtime} {db : Database}.

Definition crearSesion (req : Request) : M Outcome :=
  try_catch (
    let datosSesion := req_body req in
    resultado <- await call Controller Service "crearNuevaSesion"
      (EntrenamientoCognitivoService.crearNuevaSesion datosSesion);
    lift (
      mensaje <- get_prop resultado "mensaje";
      data <- get_prop resultado "data";
      Ret (Sent (JNum 201) (obj [("success", JBool true); ("message", mensaje); ("data", data)]))))
  (fun error => mret (handleControllerError error)).

Definition iniciarSesion (req : Request) : M Outcome :=
  let idSesion := field (req_params req) "idSesion" in
  try_catch (
    resultado <- await call Controller Service "iniciarSesion"
      (EntrenamientoCognitivoService.iniciarSesion idSesion);
    lift (
      mensaje <- get_prop resultado "mensaje";
      data <- get_prop resultado "data";
      Ret (Sent (JNum 200) (obj [("success", JBool true); ("message", mensaje); ("data", data)]))))
  (fun error => mret (handleControllerError error)).

End Defs.
End SesionController.

(** controllers/entrenador.controller.js *)
Module EntrenadorController.
Import Js Db Express.
Section Defs.
Context {rt : Runtime} {db : Database}.

Definition registrarEntrenador (req : Request) : M Outcome :=
  b <- await lift (destructure (req_body req));
  let fechaFin := b "fechaFin" in
  try_catch (
    pFechaFin <- await lift (
      if truthy fechaFin
      then (iso <- js_toISOString fechaFin; Ret (JStr (str_before "T" iso)))
      else Ret JUndefined);
    let entrenadorData :=
      obj [("pSiglaTipoDocumento", b "siglaTipoDocumento");
           ("pNombres", b "nombres");
           ("pApellidos", b "apellidos");
           ("pNumeroDocumento", b "numeroDocumento");
           ("pCorreo", b "correo");
           ("pFacultadNombres", b "facultadNombres");
           ("pFechaFin", pFechaFin)] in
    serviceResult <- await call Controller Service "registrarEntrenador"
      (EntrenadorService.registrarEntrenador entrenadorData);
    lift (
      data <- get_prop serviceResult "data";
      identrenador <- get_prop data "identrenador";
      mensaje <- get_prop data "mensaje";
      detalles <- get_prop data "detalles";
      Ret (Sent (JNum 201)
             (obj [("message", js_or mensaje (JStr "Entrenador registrado exitosamente."));
                   ("entrenadorId", identrenador);
                   ("details", detalles)]))))
  (fun error => mret (Next error)).

Definition listarTodosLosEntrenadores (req : Request) : M Outcome :=
  let nombreFacultad := field (req_query req) "nombreFacultad" in
  try_catch (
    let filtrosAplicar :=
      if truthy nombreFacultad then obj [("nombreFacultad", nombreFacultad)] else obj [] in
    serviceResult <- await call Controller Service "obtenerListaCompletaEntrenadores"
      (EntrenadorService.obtenerListaCompletaEntrenadores filtrosAplicar);
    lift (
      data <- get_prop serviceResult "data";
      total <- get_prop data "length";
      Ret (Sent (JNum 200)
             (obj [("message", JStr "Lista de entrenadores obtenida exitosamente.");
                   ("total", total);
                   ("filtrosAplicados", filtrosAplicar);
                   ("entrenadores", data)]))))
  (fun error => mret (Next error)).

Definition actualizarInformacionEntrenador (req : Request) : M Outcome :=
  let entrenadorID := field (req_params req) "entrenadorID" in
  b <- await lift (destructure (req_body req));
  let datosAActualizar : gmap string JsVal :=
    list_to_map [("pNuevosNombres", b "nuevosNombres");
                 ("pNuevosApellidos", b "nuevosApellidos");
                 ("pNuevoCorreo", b "nuevoCorreo");
                 ("pNuevaFechaFin", b "nuevaFechaFin");
                 ("pNuevosNombresFacultades", b "nuevosNombresFacultades")] in
  let datosAActualizar := filter (fun kv => is_undefined kv.2 = false) datosAActualizar in
  try_catch (
    serviceResult <- await call Controller Service "modificarInformacionEntrenador"
      (EntrenadorService.modificarInformacionEntrenador entrenadorID (JObj datosAActualizar));
    lift (
      data <- get_prop serviceResult "data";
      entrenadorid <- get_prop data "entrenadorid";
      mensaje <- get_prop data "mensaje";
      detalles <- get_prop data "detalles";
      Ret (Sent (JNum 200)
             (obj [("message", js_or mensaje (JStr "Información del entrenador actualizada."));
                   ("entrenadorId", entrenadorid);
                   ("details", detalles)]))))
  (fun error => mret (Next error)).

Definition desactivarEntrenador (req : Request) : M Outcome :=
  let entrenadorID := field (req_params req) "entrenadorID" in
  try_catch (
    serviceResult <- await call Controller Service "desactivarEntrenador"
      (EntrenadorService.desactivarEntrenador entrenadorID);
    lift (
      data <- get_prop serviceResult "data";
      entrenadorId <- get_prop data "entrenadorId";
      message <- get_prop serviceResult "message";
      Ret (Sent (JNum 200) (obj [("message", message); ("entrenadorId", entrenadorId)]))))
  (fun error => mret (Next error)).

Definition obtenerFacultadesPorEmailController (req : Request) : M Outcome :=
  let correo := field (req_params req) "correo" in
  try_catch (
    facultades <- await call Controller Service "obtenerFacultadesPorEmailService"
      (EntrenadorService.obtenerFacultadesPorEmailService correo);
    lift (
      len <- get_prop facultades "length";
      if num_eq len 0 then
        Ret (Sent (JNum 404)
               (obj [("message", JStr "No se encontraron facultades para el entrenador con el correo proporcionado.")]))
      else Ret (Sent (JNum 200) facultades)))
  (fun error =>
    if str_eq (field error "message") "Correo electrónico inválido." then
      mret (Sent (JNum 400) (obj [("message", field error "message")]))
    else
      mret (Sent (JNum 500)
              (obj [("message", JStr "Error interno del servidor al obtener facultades.");
                    ("error", field error "message")]))).

Definition obtenerDatosPorCorreoController (req : Request) : M Outcome :=
  let correo := field (req_params req) "correo" in
  try_catch (
    resultado <- await call Controller Service "obtenerDatosPorCorreoService"
      (EntrenadorService.obtenerDatosPorCorreoService correo);
    lift (
      message <- get_prop resultado "message";
      data <- get_prop resultado "data";
      Ret (Sent (JNum 200) (obj [("success", JBool true); ("message", message); ("data", data)]))))
  (fun error => mret (Next error)).

Definition crearEntrenadorEntrenamientoController (req : Request) : M Outcome :=
  b <- await lift (destructure (req_body req));
  let entrenadorId := b "entrenadorId" in
  let entrenamientoCognitivoId := b "entrenamientoCognitivoId" in
  try_catch (
    resultado <- await call Controller Service "crearEntrenadorEntrenamientoService"
      (EntrenadorService.crearEntrenadorEntrenamientoService entrenadorId entrenamientoCognitivoId);
    lift (
      success <- get_prop resultado "success";
      if negb (truthy success) then
        statusCode <- get_prop resultado "statusCode";
        message <- get_prop resultado "message";
        Ret (Sent (js_or statusCode (JNum 400)) (obj [("success", JBool false); ("message", message)]))
      else
        data <- get_prop resultado "data";
        _ <- get_prop data "relacionId";
        message <- get_prop resultado "message";
        Ret (Sent (JNum 201) (obj [("success", JBool true); ("message", message); ("data", data)]))))
  (fun error => mret (Next error)).

End Defs.
End EntrenadorController.

(** controllers/variablesCognitivas.controller.js *)
Module VariablesCognitivasController.
Import Js Db Express.
Section Defs.
Context {rt : Runtime} {db : Database}.

Definition abandonarVariableCognitiva (req : Request) : M Outcome :=
  try_catch (
    b <- await lift (destructure (req_body req));
    let siglaDocumento := b "siglaDocumento" in
    let numeroDocumento := b "numeroDocumento" in
    let idVariableCognitiva := b "idVariableCognitiva" in
    if negb (truthy siglaDocumento) || negb (truthy numeroDocumento) || negb (truthy idVariableCognitiva) then
      mret (sendError (JNum 400)
              (JStr "Datos incompletos. Se requiere siglaDocumento, numeroDocumento y idVariableCognitiva.")
              JUndefined)
    else
      resultado <- await call Controller Service "abandonarVariableCognitiva"
        (VariablesCognitivasService.abandonarVariableCognitiva
           (obj [("siglaDocumento", siglaDocumento);
                 ("numeroDocumento", numeroDocumento);
                 ("idVariableCognitiva", idVariableCognitiva)]));
      if truthy resultado && truthy (get_opt resultado "exito") then
        mret (sendSuccess (JNum 200) (get_opt resultado "mensaje")
                (obj [("asignacionId", get_opt resultado "asignacionid");
                      ("detalles", get_opt resultado "detalles")]))
      else
        mret (sendError (JNum 400)
                (if truthy resultado then get_opt resultado "mensaje"
                 else JStr "No se pudo completar la operación")
                (if truthy resultado then obj [("detalles", get_opt resultado "detalles")] else JNull)))
  (fun error =>
    mret (sendError (js_or (field error "statusCode") (JNum 500))
            (js_or (field error "message")
                   (JStr "Error interno del servidor al abandonar la variable cognitiva"))
            JUndefined)).

Definition reactivarVariableCognitiva (req : Request) : M Outcome :=
  try_catch (
    b <- await lift (destructure (req_body req));
    let siglaDocumento := b "siglaDocumento" in
    let numeroDocumento := b "numeroDocumento" in
    let idVariableCognitiva := b "idVariableCognitiva" in
    if negb (truthy siglaDocumento) || negb (truthy numeroDocumento) || negb (truthy idVariableCognitiva) then
      mret (sendError (JNum 400)
              (JStr "Datos incompletos. Se requiere siglaDocumento, numeroDocumento y idVariableCognitiva.")
              JUndefined)
    else
      resultado <- await call Controller Service "reactivarVariableCognitiva"
        (VariablesCognitivasService.reactivarVariableCognitiva
           (obj [("siglaDocumento", siglaDocumento);
                 ("numeroDocumento", numeroDocumento);
                 ("idVariableCognitiva", idVariableCognitiva)]));
      if truthy resultado && truthy (get_opt resultado "exito") then
        mret (sendSuccess (JNum 200) (get_opt resultado "mensaje")
                (obj [("asignacionId", get_opt resultado "asignacionid");
                      ("detalles", get_opt resultado "detalles")]))
      else
        mret (sendError (JNum 400)
                (if truthy resultado then get_opt resultado "mensaje"
                 else JStr "No se pudo completar la reactivación")
                (if truthy resultado then obj [("detalles", get_opt resultado "detalles")] else JNull)))
  (fun error =>
    mret (sendError (js_or (field error "statusCode") (JNum 500))
            (js_or (field error "message")
                   (JStr "Error interno del servidor al reactivar la variable cognitiva"))
            JUndefined)).

Definition obtenerIdVariableCognitivaPorNombre (req : Request) : M Outcome :=
  try_catch (
    let nombre := field (req_params req) "nombre" in
    resultado <- await call Controller Service "obtenerIdVariableCognitivaPorNombre"
      (VariablesCognitivasService.obtenerIdVariableCognitivaPorNombre nombre);
    if truthy resultado && truthy (get_opt resultado "id") then
      mret (sendSuccess (JNum 200) (JStr "ID de la variable cognitiva obtenido con éxito.")
              (obj [("id", get_opt resultado "id")]))
    else
      mret (sendError (JNum 404)
              (JStr ("No se encontró una variable cognitiva con el nombre '" +:+ string_form nombre +:+ "'."))
              JUndefined))
  (fun error =>
    mret (sendError (js_or (field error "statusCode") (JNum 500))
            (js_or (field error "message")
                   (JStr "Error interno del servidor al obtener el ID de la variable cognitiva."))
            JUndefined)).

End Defs.
End VariablesCognitivasController.

(** controllers/informe.controller.js *)
Module InformeController.
Import Js Db Express.
Section Defs.
Context {rt : Runtime} {db : Database}.

Definition obtenerListaEntrenamientosAdmin (req : Request) : M Outcome :=
  try_catch (
    serviceResult <- await call Controller Service "listarEntrenamientosParaAdmin"
      InformeService.listarEntrenamientosParaAdmin;
    lift (
      data <- get_prop serviceResult "data";
      total <- get_prop data "length";
      Ret (Sent (JNum 200)
             (obj [("message", JStr "Lista de entrenamientos obtenida exitosamente.");
                   ("total", total);
                   ("entrenamientos", data)]))))
  (fun error => mret (Next error)).

Definition obtenerDetalleInformeAdmin (req : Request) : M Outcome :=
  let entrenamientoId := field (req_params req) "entrenamientoId" in
  try_catch (
    serviceResult <- await call Controller Service "obtenerDetallesDeInformePorId"
      (InformeService.obtenerDetallesDeInformePorId entrenamientoId);
    lift (
      data <- get_prop serviceResult "data";
      Ret (Sent (JNum 200)
             (obj [("message", JStr "Detalle del informe obtenido exitosamente.");
                   ("entrenamientoId", entrenamientoId);
                   ("informe", data)]))))
  (fun error => mret (Next error)).

Definition obtenerListaEntrenamientosEntrenador (req : Request) : M Outcome :=
  entrenadorId <- await lift (get_prop (req_user req) "id");
  try_catch (
    serviceResult <- await call Controller Service "listarEntrenamientosEntrenador"
      (InformeService.listarEntrenamientosEntrenador entrenadorId);
    lift (
      data <- get_prop serviceResult "data";
      total <- get_prop data "length";
      Ret (Sent (JNum 200)
             (obj [("message", JStr "Lista de entrenamientos asignados obtenida exitosamente.");
                   ("total", total);
                   ("entrenamientos", data)]))))
  (fun error => mret (Next error)).

End Defs.
End InformeController.

(** controllers/utilidades.controller.js *)
Module UtilidadesController.
Import Js Db Express.
Section Defs.
Context {rt : Runtime} {db : Database}.

Definition obtenerGenerosController (req : Request) : M Outcome :=
  try_catch (
    resultadoServicio <- await call Controller Service "listarTodosGenerosService"
      UtilidadesService.listarTodosGenerosService;
    mret (Sent (JNum 200) resultadoServicio))
  (fun error => mret (Next error)).

Definition obtenerTiposDocumentoController (req : Request) : M Outcome :=
  try_catch (
    resultadoServicio <- await call Controller Service "listarTodosTiposDocumentoService"
      UtilidadesService.listarTodosTiposDocumentoService;
    mret (Sent (JNum 200) resultadoServicio))
  (fun error => mret (Next error)).

Definition obtenerProgramasController (req : Request) : M Outcome :=
  try_catch (
    resultadoServicio <- await call Controller Service "listarTodosProgramasService"
      UtilidadesService.listarTodosProgramasService;
    mret (Sent (JNum 200) resultadoServicio))
  (fun error => mret (Next error)).

Definition obtenerTiposVariablesCognitivasController (req : Request) : M Outcome :=
  try_catch (
    resultadoServicio <- await call Controller Service "listarTiposVariablesCognitivasService"
      UtilidadesService.listarTiposVariablesCognitivasService;
    mret (Sent (JNum 200) resultadoServicio))
  (fun error => mret (Next error)).

Definition obtenerIdEstudiantePorDocumentoController (req : Request) : M Outcome :=
  let tipoDocumento := field (req_params req) "tipoDocumento" in
  let numeroDocumento := field (req_params req) "numeroDocumento" in
  try_catch (
    resultadoServicio <- await call Controller Service "obtenerIdEstudiantePorDocumentoService"
      (UtilidadesService.obtenerIdEstudiantePorDocumentoService tipoDocumento numeroDocumento);
    lift (
      success <- get_prop resultadoServicio "success";
      if negb (truthy success) then
        statusCode <- get_prop resultadoServicio "statusCode";
        message <- get_prop resultadoServicio "message";
        Ret (Sent (js_or statusCode (JNum 400)) (obj [("success", JBool false); ("message", message)]))
      else
        message <- get_prop resultadoServicio "message";
        data <- get_prop resultadoServicio "data";
        Ret (Sent (JNum 200) (obj [("success", JBool true); ("message", message); ("data", data)]))))
  (fun error => mret (Next error)).

End Defs.
End UtilidadesController.

(** controllers/entrenamientoCognitivo.controller.js *)
Module EntrenamientoCognitivoController.
Import Js Db Express Regex.
Section Defs.
Context {rt : Runtime} {db : Database}.

(** This handler imports [obtenerEstudiantesPorFacultad] from the model
    module and calls it itself. *)
Definition obtenerEstudiantesPorFacultadController (req : Request) : M Outcome :=
  let facultadId := field (req_params req) "facultadId" in
  if negb (truthy facultadId) || negb (match_shape uuid_shape (string_form facultadId)) then
    mret (Sent (JNum 400)
            (obj [("success", JBool false);
                  ("message", JStr "El ID de la facultad proporcionado es inválido o no tiene el formato UUID correcto.")]))
  else
    try_catch (
      datos <- await call Controller Model "obtenerEstudiantesPorFacultad"
        (EntrenamientoModel.obtenerEstudiantesPorFacultad facultadId);
      if negb (truthy datos) || num_eq (get_opt datos "length") 0 then
        mret (Sent (JNum 200)
                (obj [("success", JBool true);
                      ("message", JStr ("No se encontraron estudiantes para la facultad con ID "
                                        +:+ string_form facultadId +:+ "."));
                      ("data", JArr [])]))
      else
        mret (Sent (JNum 200)
                (obj [("success", JBool true);
                      ("message", JStr ("Datos de estudiantes para la facultad ID "
                                        +:+ string_form facultadId +:+ " obtenidos correctamente."));
                      ("data", datos)])))
    (fun error => mret (Next error)).

Definition obtenerEntrenamientoEstudiantePorDocumentoController (req : Request) : M Outcome :=
  b <- await lift (destructure (req_body req));
  let tipoDocumento := b "tipoDocumento" in
  let numeroDocumento := b "numeroDocumento" in
  try_catch (
    resultadoServicio <- await call Controller Service "consultarEntrenamientoPorDocumento"
      (EntrenamientoCognitivoService.consultarEntrenamientoPorDocumento tipoDocumento numeroDocumento);
    lift (
      success <- get_prop resultadoServicio "success";
      if negb (truthy success) then
        statusCode <- get_prop resultadoServicio "statusCode";
        message <- get_prop resultadoServicio "message";
        Ret (Sent (js_or statusCode (JNum 400)) (obj [("success", JBool false); ("message", message)]))
      else
        data <- get_prop resultadoServicio "data";
        if truthy data && num_eq (get_opt data "length") 0 then
          message <- get_prop resultadoServicio "message";
          Ret (Sent (JNum 200)
                 (obj [("success", JBool true);
                       ("message", js_or message (JStr "No se encontró ningún entrenamiento cognitivo para el estudiante especificado."));
                       ("data", JArr [])]))
        else
          Ret (Sent (JNum 200)
                 (obj [("success", JBool true);
                       ("message", JStr "Detalle(s) del entrenamiento cognitivo obtenidos correctamente.");
                       ("data", data)]))))
  (fun error => mret (Next error)).

Definition crearNuevoEntrenamientoCognitivoController (req : Request) : M Outcome :=
  b <- await lift (destructure (req_body req));
  let datosEntrenamiento : gmap string JsVal :=
    list_to_map [("siglaTipoDocEstudiante", b "siglaTipoDocEstudiante");
                 ("numeroDocEstudiante", b "numeroDocEstudiante");
                 ("siglaTipoDocEntrenador", b "siglaTipoDocEntrenador");
                 ("numeroDocEntrenador", b "numeroDocEntrenador");
                 ("fechaFinEntrenamiento", b "fechaFinEntrenamiento");
                 ("variablesCognitivas", b "variablesCognitivas")] in
  try_catch (
    resultadoServicio <- await call Controller Service "crearNuevoEntrenamientoCognitivo"
      (EntrenamientoCognitivoService.crearNuevoEntrenamientoCognitivo (JObj datosEntrenamiento));
    lift (
      success <- get_prop resultadoServicio "success";
      if negb (truthy success) then
        statusCode <- get_prop resultadoServicio "statusCode";
        message <- get_prop resultadoServicio "message";
        Ret (Sent (js_or statusCode (JNum 400)) (obj [("success", JBool false); ("message", message)]))
      else
        message <- get_prop resultadoServicio "message";
        data <- get_prop resultadoServicio "data";
        id <- get_prop data "id";
        mensajeBD <- get_prop data "message";
        Ret (Sent (JNum 201)
               (obj [("success", JBool true);
                     ("message", js_or message (JStr "Entrenamiento cognitivo registrado exitosamente."));
                     ("data", JObj (<[ "mensajeBD" := mensajeBD ]> (<[ "id" := id ]> datosEntrenamiento)))]))))
  (fun error => mret (Next error)).

Definition registrarEntrenamientoAsignacionController (req : Request) : M Outcome :=
  b <- await lift (destructure (req_body req));
  let datosAsignacion :=
    obj [("estudianteId", b "estudianteId");
         ("fechaInicio", b "fechaInicio");
         ("tiposVariablesCognitivasIds", b "tiposVariablesCognitivasIds");
         ("nivelInicial", b "nivelInicial");
         ("metricas", b "metricas")] in
  try_catch (
    resultadoServicio <- await call Controller Service "registrarNuevaAsignacionService"
      (EntrenamientoCognitivoService.registrarNuevaAsignacionService datosAsignacion);
    lift (
      statusCode <- get_prop resultadoServicio "statusCode";
      success <- get_prop resultadoServicio "success";
      message <- get_prop resultadoServicio "message";
      Ret (Sent (js_or statusCode (JNum 500)) (obj [("success", success); ("message", message)]))))
  (fun error => mret (Next error)).

Definition obtenerProgresoVariableController (req : Request) : M Outcome :=
  let asignacionId := field (req_params req) "asignacionId" in
  try_catch (
    resultadoServicio <- await call Controller Service "consultarProgresoVariable"
      (EntrenamientoCognitivoService.consultarProgresoVariable asignacionId);
    lift (
      success <- get_prop resultadoServicio "success";
      if negb (truthy success) then
        statusCode <- get_prop resultadoServicio "statusCode";
        message <- get_prop resultadoServicio "message";
        Ret (Sent (js_or statusCode (JNum 400)) (obj [("success", JBool false); ("message", message)]))
      else
        data <- get_prop resultadoServicio "data";
        Ret (Sent (JNum 200)
               (obj [("success", JBool true);
                     ("message", JStr "Detalles de progreso obtenidos correctamente.");
                     ("data", data)]))))
  (fun error => mret (Next error)).

Definition actualizarObservacionSesionController (req : Request) : M Outcome :=
  let idSesion := field (req_params req) "idSesion" in
  b <- await lift (destructure (req_body req));
  let nuevaObservacion := b "nuevaObservacion" in
  try_catch (
    resultadoServicio <- await call Controller Service "actualizarObservacionSesion"
      (EntrenamientoCognitivoService.actualizarObservacionSesion idSesion nuevaObservacion);
    lift (
      message <- get_prop resultadoServicio "message";
      data <- get_prop resultadoServicio "data";
      Ret (Sent (JNum 200) (obj [("success", JBool true); ("message", message); ("data", data)]))))
  (fun error => mret (Next error)).

Definition modificarEntrenamientoCognitivoController (req : Request) : M Outcome :=
  let siglaTipoDocEstudiante := field (req_params req) "siglaTipoDocEstudiante" in
  let numeroDocEstudiante := field (req_params req) "numeroDocEstudiante" in
  let datosModificacion := req_body req in
  try_catch (
    resultado <- await call Controller Service "modificarEntrenamientoCognitivo"
      (EntrenamientoCognitivoService.modificarEntrenamientoCognitivo
         siglaTipoDocEstudiante numeroDocEstudiante datosModificacion);
    lift (
      mensaje <- get_prop resultado "mensaje";
      entrenamientocognitivoid <- get_prop resultado "entrenamientocognitivoid";
      detalles <- get_prop resultado "detalles";
      Ret (sendSuccess (JNum 200) mensaje
             (obj [("entrenamientoId", entrenamientocognitivoid); ("detalles", detalles)]))))
  (fun error => mret (handleControllerError error)).

Definition finalizarSesionController (req : Request) : M Outcome :=
  let idSesion := field (req_params req) "idSesion" in
  b <- await lift (destructure (req_body req));
  let nuevasMetricas := b "nuevasMetricas" in
  let nuevoNivelInicial := b "nuevoNivelInicial" in
  try_catch (
    resultadoServicio <- await call Controller Service "finalizarSesion"
      (EntrenamientoCognitivoService.finalizarSesion idSesion nuevasMetricas nuevoNivelInicial);
    lift (
      mensaje <- get_prop resultadoServicio "mensaje";
      data <- get_prop resultadoServicio "data";
      Ret (Sent (JNum 200) (obj [("success", JBool true); ("message", mensaje); ("data", data)]))))
  (fun error => mret (Next error)).

Definition finalizarAsignacionVariableController (req : Request) : M Outcome :=
  let idAsignacion := field (req_params req) "idAsignacion" in
  try_catch (
    resultadoServicio <- await call Controller Service "finalizarAsignacionVariable"
      (EntrenamientoCognitivoService.finalizarAsignacionVariable idAsignacion);
    lift (
      mensaje <- get_prop resultadoServicio "mensaje";
      data <- get_prop resultadoServicio "data";
      Ret (Sent (JNum 200) (obj [("success", JBool true); ("message", mensaje); ("data", data)]))))
  (fun error => mret (Next error)).

End Defs.
End EntrenamientoCognitivoController.

(** ** The three layers as tables *)

Module Layers.
Import Js Db Express.

(** What a data-access function hands back from the result of its
    statement. *)
Inductive Shape : Type :=
| RawRows      (* the [rows] array itself *)
| FirstRow     (* [rows[0]] as the driver delivered it *)
| Derived.     (* one column, or a re-keyed object *)


Section Tables.
Context {rt : Runtime} {db : Database}.

(** An exported function, called with a list of actual arguments. *)
Record ModelFn : Type := {
  mf_file : string;
  mf_name : string;
  mf_run : list JsVal -> M JsVal;
  (** the statement texts written in the function *)
  mf_sql : list string;
  mf_shape : Shape;
  (** the function exists to change data *)
  mf_mutating : bool
}.

Definition model_functions : list ModelFn :=
  [ {| mf_file := "entrenador.model.js"; mf_name := "registrar";
       mf_run := fun a => EntrenadorModel.registrar (arg 0 a);
       mf_sql := ["SELECT * FROM CC.RegistrarEntrenadorUFT($1, $2, $3, $4, $5, $6, $7);"];
       mf_shape := FirstRow; mf_mutating := true |};
    {| mf_file := "entrenador.model.js"; mf_name := "obtenerTodos";
       mf_run := fun a => EntrenadorModel.obtenerTodos (arg 0 a);
       mf_sql := ["SELECT * FROM CC.DetalleEntrenadoresFacultadesUV ORDER BY apellidosEntrenador, nombresEntrenador;";
                  "SELECT * FROM CC.DetalleEntrenadoresFacultadesUV WHERE $1 = ANY(facultadesAsignadas) ORDER BY apellidosEntrenador, nombresEntrenador;"];
       mf_shape := RawRows; mf_mutating := false |};
    {| mf_file := "entrenador.model.js"; mf_name := "actualizar";
       mf_run := fun a => EntrenadorModel.actualizar (arg 0 a) (arg 1 a);
       mf_sql := ["SELECT * FROM CC.ModificarInformacionEntrenadorUFT($1, $2, $3, $4, $5, $6);"];
       mf_shape := FirstRow; mf_mutating := true |};
    {| mf_file := "entrenador.model.js"; mf_name := "desactivar";
       mf_run := fun a => EntrenadorModel.desactivar (arg 0 a);
       mf_sql := ["SELECT * FROM CC.DesactivarEntrenadorUFT($1);"];
       mf_shape := FirstRow; mf_mutating := true |};
    {| mf_file := "entrenador.model.js"; mf_name := "obtenerFacultadesPorEmailDB";
       mf_run := fun a => EntrenadorModel.obtenerFacultadesPorEmailDB (arg 0 a);
       mf_sql := [nl +:+ "    SELECT * FROM CC.ObtenerEntrenadorPorEmailUFT($1);" +:+ nl +:+ "  "];
       mf_shape := RawRows; mf_mutating := false |};
    {| mf_file := "entrenador.model.js"; mf_name := "obtenerDatosPorCorreo";
       mf_run := fun a => EntrenadorModel.obtenerDatosPorCorreo (arg 0 a);
       mf_sql := [nl +:+ "    SELECT " +:+ nl
                  +:+ "      e.numerodocumento," +:+ nl
                  +:+ "      td.sigla as siglaTipoDocumento," +:+ nl
                  +:+ "      e.nombres," +:+ nl
                  +:+ "      e.apellidos" +:+ nl
                  +:+ "    FROM CC.entrenador e" +:+ nl
                  +:+ "    INNER JOIN CC.tipodocumento td ON e.tipodocumento = td.id" +:+ nl
                  +:+ "    WHERE e.correo = $1;" +:+ nl +:+ "  "];
       mf_shape := Derived; mf_mutating := false |};
    {| mf_file := "entrenador.model.js"; mf_name := "crearEntrenadorEntrenamiento";
       mf_run := fun a => EntrenadorModel.crearEntrenadorEntrenamiento (arg 0 a) (arg 1 a);
       mf_sql := [nl +:+ "    INSERT INTO CC.entrenadorentrenamiento (id, entrenador, entrenamientocognitivo)" +:+ nl
                  +:+ "    VALUES (gen_random_uuid(), $1, $2)" +:+ nl
                  +:+ "    RETURNING id, entrenador, entrenamientocognitivo;" +:+ nl +:+ "  "];
       mf_shape := Derived; mf_mutating := true |};
    {| mf_file := "informe.model.js"; mf_name := "obtenerListaEntrenamientosAdmin";
       mf_run := fun _ => InformeModel.obtenerListaEntrenamientosAdmin;
       mf_sql := ["SELECT * FROM CC.AdminListaEntrenamientosUV ORDER BY fechainicioentrenamiento DESC, estudianteapellidos, estudiantenombres;"];
       mf_shape := RawRows; mf_mutating := false |};
    {| mf_file := "informe.model.js"; mf_name := "obtenerDetalleInformeEntrenamiento";
       mf_run := fun a => InformeModel.obtenerDetalleInformeEntrenamiento (arg 0 a);
       mf_sql := ["SELECT * FROM CC.InformeVariablesFinalizadasPorEntrenamientoUV WHERE entrenamientoId = $1 ORDER BY variablecognitivanombre;"];
       mf_shape := RawRows; mf_mutating := false |};
    {| mf_file := "informe.model.js"; mf_name := "obtenerListaEntrenamientosEntrenador";
       mf_run := fun a => InformeModel.obtenerListaEntrenamientosEntrenador (arg 0 a);
       mf_sql := ["SELECT * FROM CC.EntrenadorInformesPorFacultadUV WHERE entrenadorId = $1;"];
       mf_shape := RawRows; mf_mutating := false |};
    {| mf_file := "utilidades.model.js"; mf_name := "obtenerIdTipoDocumentoPorSigla";
       mf_run := fun a => UtilidadesModel.obtenerIdTipoDocumentoPorSigla (arg 0 a);
       mf_sql := ["SELECT id FROM CC.obteneridtipodocumentoporsiglaufs($1);"];
       mf_shape := Derived; mf_mutating := false |};
    {| mf_file := "utilidades.model.js"; mf_name := "obtenerIdGeneroPorNombre";
       mf_run := fun a => UtilidadesModel.obtenerIdGeneroPorNombre (arg 0 a);
       mf_sql := ["SELECT id FROM CC.obtenergeneropornombreuft($1);"];
       mf_shape := Derived; mf_mutating := false |};
    {| mf_file := "utilidades.model.js"; mf_name := "obtenerTodosLosGeneros";
       mf_run := fun _ => UtilidadesModel.obtenerTodosLosGeneros;
       mf_sql := ["SELECT * FROM CC.VistaGenerosUV;"];
       mf_shape := RawRows; mf_mutating := false |};
    {| mf_file := "utilidades.model.js"; mf_name := "obtenerTodosLosTiposDocumento";
       mf_run := fun _ => UtilidadesModel.obtenerTodosLosTiposDocumento;
       mf_sql := ["SELECT * FROM CC.VistaSiglasTipoDocumentoUV;"];
       mf_shape := RawRows; mf_mutating := false |};
    {| mf_file := "utilidades.model.js"; mf_name := "obtenerTodosLosProgramas";
       mf_run := fun _ => UtilidadesModel.obtenerTodosLosProgramas;
       mf_sql := ["SELECT * FROM CC.VistaNombresProgramaUV;"];
       mf_shape := RawRows; mf_mutating := false |};
    {| mf_file := "utilidades.model.js"; mf_name := "obtenerTiposVariablesCognitivasDB";
       mf_run := fun _ => UtilidadesModel.obtenerTiposVariablesCognitivasDB;
       mf_sql := ["SELECT * FROM CC.ObtenerEntrenamientoCognitivosUV;"];
       mf_shape := RawRows; mf_mutating := false |};
    {| mf_file := "utilidades.model.js"; mf_name := "obtenerIdEstudiantePorDocumentoDB";
       mf_run := fun a => UtilidadesModel.obtenerIdEstudiantePorDocumentoDB (arg 0 a) (arg 1 a);
       mf_sql := ["SELECT CC.obteneridestudiantepordocumentoufs($1, $2) AS estudiante_id;"];
       mf_shape := Derived; mf_mutating := false |};
    {| mf_file := "estudiantesEntrenamientos.model.js"; mf_name := "obtenerEstudiantesPorFacultad";
       mf_run := fun a => EntrenamientoModel.obtenerEstudiantesPorFacultad (arg 0 a);
       mf_sql := ["SELECT * FROM CC.obtenerestudiantesporfacultaduft($1);"];
       mf_shape := RawRows; mf_mutating := false |};
    {| mf_file := "estudiantesEntrenamientos.model.js"; mf_name := "obtenerEntrenamientoCognitivoPorDocumento";
       mf_run := fun a => EntrenamientoModel.obtenerEntrenamientoCognitivoPorDocumento (arg 0 a) (arg 1 a);
       mf_sql := ["SELECT * FROM CC.DetalleEntrenamientoEstudianteUV WHERE " +:+ dq +:+ "estudianteTipoDocumento" +:+ dq
                  +:+ " = $1 AND " +:+ dq +:+ "estudianteNumeroDocumento" +:+ dq +:+ " = $2;"];
       mf_shape := RawRows; mf_mutating := false |};
    {| mf_file := "estudiantesEntrenamientos.model.js"; mf_name := "crearEntrenamientoCognitivoDB";
       mf_run := fun a => EntrenamientoModel.crearEntrenamientoCognitivoDB (arg 0 a);
       mf_sql := [nl +:+ "    SELECT * FROM CC.CrearEntrenamientoCognitivoUFT($1, $2, $3, $4, $5, $6);" +:+ nl +:+ "  "];
       mf_shape := Derived; mf_mutating := true |};
    {| mf_file := "estudiantesEntrenamientos.model.js"; mf_name := "registrarEntrenamientoAsignacionDB";
       mf_run := fun a => EntrenamientoModel.registrarEntrenamientoAsignacionDB (arg 0 a);
       mf_sql := [nl +:+ "    SELECT CC.RegistrarEntrenamientoAsignacionUFS($1::UUID, $2::TIMESTAMP, $3::UUID[], $4::JSONB, $5::JSONB) as mensaje;"
                  +:+ nl +:+ "  "];
       mf_shape := Derived; mf_mutating := true |};
    {| mf_file := "estudiantesEntrenamientos.model.js"; mf_name := "obtenerProgresoVariablePorId";
       mf_run := fun a => EntrenamientoModel.obtenerProgresoVariablePorId (arg 0 a);
       mf_sql := ["SELECT * FROM CC.ProgresoVariableUV WHERE " +:+ dq +:+ "asignacionVariableId" +:+ dq +:+ " = $1;"];
       mf_shape := FirstRow; mf_mutating := false |};
    {| mf_file := "estudiantesEntrenamientos.model.js"; mf_name := "actualizarObservacionSesionDB";
       mf_run := fun a => EntrenamientoModel.actualizarObservacionSesionDB (arg 0 a) (arg 1 a);
       mf_sql := ["SELECT * FROM CC.ActualizarObservacionSesionUFT($1, $2);"];
       mf_shape := FirstRow; mf_mutating := true |};
    {| mf_file := "estudiantesEntrenamientos.model.js"; mf_name := "modificarEntrenamientoCognitivoDB";
       mf_run := fun a => EntrenamientoModel.modificarEntrenamientoCognitivoDB (arg 0 a);
       mf_sql := [nl +:+ "    SELECT * FROM cc.modificarentrenamientocognitivouft($1, $2, $3, $4, $5, $6, $7);" +:+ nl +:+ "  "];
       mf_shape := FirstRow; mf_mutating := true |};
    {| mf_file := "estudiantesEntrenamientos.model.js"; mf_name := "crearSesionDB";
       mf_run := fun a => EntrenamientoModel.crearSesionDB (arg 0 a);
       mf_sql := ["SELECT * FROM CC.CrearSesionEntrenamientoUFT($1, $2, $3, $4, $5);"];
       mf_shape := FirstRow; mf_mutating := true |};
    {| mf_file := "estudiantesEntrenamientos.model.js"; mf_name := "iniciarSesionDB";
       mf_run := fun a => EntrenamientoModel.iniciarSesionDB (arg 0 a);
       mf_sql := ["SELECT * FROM CC.IniciarSesionEntrenamientoUFT($1);"];
       mf_shape := FirstRow; mf_mutating := true |};
    {| mf_file := "estudiantesEntrenamientos.model.js"; mf_name := "finalizarSesionDB";
       mf_run := fun a => EntrenamientoModel.finalizarSesionDB (arg 0 a) (arg 1 a) (arg 2 a);
       mf_sql := ["SELECT * FROM CC.FinalizarSesionEntrenamientoUFT($1, $2, $3);"];
       mf_shape := FirstRow; mf_mutating := true |};
    {| mf_file := "estudiantesEntrenamientos.model.js"; mf_name := "finalizarAsignacionVariableDB";
       mf_run := fun a => EntrenamientoModel.finalizarAsignacionVariableDB (arg 0 a);
       mf_sql := ["SELECT * FROM CC.FinalizarAsignacionVariableUFT($1);"];
       mf_shape := FirstRow; mf_mutating := true |};
    {| mf_file := "variablesCognitivas.model.js"; mf_name := "abandonarVariableCognitiva";
       mf_run := fun a => VariablesCognitivasModel.abandonarVariableCognitiva (arg 0 a) (arg 1 a) (arg 2 a);
       mf_sql := ["SELECT * FROM cc.abandonarvariablecognitivauft($1, $2, $3)"];
       mf_shape := FirstRow; mf_mutating := true |};
    {| mf_file := "variablesCognitivas.model.js"; mf_name := "reactivarVariableCognitiva";
       mf_run := fun a => VariablesCognitivasModel.reactivarVariableCognitiva (arg 0 a) (arg 1 a) (arg 2 a);
       mf_sql := ["SELECT * FROM cc.reactivarvariablecognitivauft($1, $2, $3)"];
       mf_shape := FirstRow; mf_mutating := true |};
    {| mf_file := "variablesCognitivas.model.js"; mf_name := "obtenerIdVariableCognitivaPorNombre";
       mf_run := fun a => VariablesCognitivasModel.obtenerIdVariableCognitivaPorNombre (arg 0 a);
       mf_sql := ["SELECT id FROM CC.variablecognitiva WHERE nombre = $1"];
       mf_shape := FirstRow; mf_mutating := false |};
    {| mf_file := "estudiante.model.js"; mf_name := "registrarEstudianteDB";
       mf_run := fun a => EstudianteModel.registrarEstudianteDB (arg 0 a);
       mf_sql := [nl +:+ "    SELECT * FROM CC.registrarestudianteuft($1, $2, $3, $4, $5, $6, $7, $8);" +:+ nl +:+ "  "];
       mf_shape := Derived; mf_mutating := true |};
    {| mf_file := "estudiante.model.js"; mf_name := "modificarInformacionEstudiante";
       mf_run := fun a => EstudianteModel.modificarInformacionEstudiante (arg 0 a);
       mf_sql := [nl +:+ "    SELECT * FROM CC.modificarinformacionestudianteuft($1, $2, $3, $4, $5, $6, $7, $8);" +:+ nl +:+ "  "];
       mf_shape := RawRows; mf_mutating := true |};
    {| mf_file := "estudiante.model.js"; mf_name := "obtenerInformacionCompleta";
       mf_run := fun a => EstudianteModel.obtenerInformacionCompleta (arg 0 a) (arg 1 a);
       mf_sql := [nl +:+ "    SELECT * FROM cc.obtenerinformacioncompletaestudianteufs($1, $2);" +:+ nl +:+ "  "];
       mf_shape := RawRows; mf_mutating := false |};
    {| mf_file := "estudiante.model.js"; mf_name := "actualizarGenero";
       mf_run := fun a => EstudianteModel.actualizarGenero (arg 0 a) (arg 1 a);
       mf_sql := ["SELECT * FROM CC.ActualizarGeneroEstudianteUFT($1, $2);"];
       mf_shape := FirstRow; mf_mutating := true |} ].


(** An exported service.  [sv_pre] says which actual arguments the service
    reads properties from, and which values it converts to a string,
    before entering its [try] block; [sv_status] whether every error it
    throws carries a [statusCode]. *)
Record ServiceFn : Type := {
  sv_file : string;
  sv_name : string;
  sv_run : list JsVal -> M JsVal;
  sv_pre : list JsVal -> bool;
  sv_status : bool
}.

Definition services : list ServiceFn :=
  [ {| sv_file := "entrenamientoCognitivo.service.js"; sv_name := "consultarEntrenamientoPorDocumento";
       sv_run := fun a => EntrenamientoCognitivoService.consultarEntrenamientoPorDocumento (arg 0 a) (arg 1 a);
       sv_pre := fun a => has_string_form (arg 0 a) && has_string_form (arg 1 a); sv_status := true |};
    {| sv_file := "entrenamientoCognitivo.service.js"; sv_name := "crearNuevoEntrenamientoCognitivo";
       sv_run := fun a => EntrenamientoCognitivoService.crearNuevoEntrenamientoCognitivo (arg 0 a);
       sv_pre := fun _ => true; sv_status := true |};
    {| sv_file := "entrenamientoCognitivo.service.js"; sv_name := "registrarNuevaAsignacionService";
       sv_run := fun a => EntrenamientoCognitivoService.registrarNuevaAsignacionService (arg 0 a);
       sv_pre := fun _ => true; sv_status := false |};
    {| sv_file := "entrenamientoCognitivo.service.js"; sv_name := "consultarProgresoVariable";
       sv_run := fun a => EntrenamientoCognitivoService.consultarProgresoVariable (arg 0 a);
       sv_pre := fun _ => true; sv_status := true |};
    {| sv_file := "entrenamientoCognitivo.service.js"; sv_name := "actualizarObservacionSesion";
       sv_run := fun a => EntrenamientoCognitivoService.actualizarObservacionSesion (arg 0 a) (arg 1 a);
       sv_pre := fun _ => true; sv_status := true |};
    {| sv_file := "entrenamientoCognitivo.service.js"; sv_name := "modificarEntrenamientoCognitivo";
       sv_run := fun a => EntrenamientoCognitivoService.modificarEntrenamientoCognitivo (arg 0 a) (arg 1 a) (arg 2 a);
       sv_pre := fun _ => true; sv_status := true |};
    {| sv_file := "entrenamientoCognitivo.service.js"; sv_name := "crearNuevaSesion";
       sv_run := fun a => EntrenamientoCognitivoService.crearNuevaSesion (arg 0 a);
       sv_pre := fun a => negb (is_nullish (arg 0 a)); sv_status := true |};
    {| sv_file := "entrenamientoCognitivo.service.js"; sv_name := "iniciarSesion";
       sv_run := fun a => EntrenamientoCognitivoService.iniciarSesion (arg 0 a);
       sv_pre := fun _ => true; sv_status := true |};
    {| sv_file := "entrenamientoCognitivo.service.js"; sv_name := "finalizarSesion";
       sv_run := fun a => EntrenamientoCognitivoService.finalizarSesion (arg 0 a) (arg 1 a) (arg 2 a);
       sv_pre := fun _ => true; sv_status := true |};
    {| sv_file := "entrenamientoCognitivo.service.js"; sv_name := "finalizarAsignacionVariable";
       sv_run := fun a => EntrenamientoCognitivoService.finalizarAsignacionVariable (arg 0 a);
       sv_pre := fun _ => true; sv_status := true |};
    {| sv_file := "informe.service.js"; sv_name := "listarEntrenamientosParaAdmin";
       sv_run := fun _ => InformeService.listarEntrenamientosParaAdmin;
       sv_pre := fun _ => true; sv_status := true |};
    {| sv_file := "informe.service.js"; sv_name := "obtenerDetallesDeInformePorId";
       sv_run := fun a => InformeService.obtenerDetallesDeInformePorId (arg 0 a);
       sv_pre := fun _ => true; sv_status := true |};
    {| sv_file := "informe.service.js"; sv_name := "listarEntrenamientosEntrenador";
       sv_run := fun a => InformeService.listarEntrenamientosEntrenador (arg 0 a);
       sv_pre := fun _ => true; sv_status := true |};
    {| sv_file := "variablesCognitivas.service.js"; sv_name := "abandonarVariableCognitiva";
       sv_run := fun a => VariablesCognitivasService.abandonarVariableCognitiva (arg 0 a);
       sv_pre := fun a => negb (is_nullish (arg 0 a)); sv_status := true |};
    {| sv_file := "variablesCognitivas.service.js"; sv_name := "reactivarVariableCognitiva";
       sv_run := fun a => VariablesCognitivasService.reactivarVariableCognitiva (arg 0 a);
       sv_pre := fun a => negb (is_nullish (arg 0 a)); sv_status := true |};
    {| sv_file := "variablesCognitivas.service.js"; sv_name := "obtenerIdVariableCognitivaPorNombre";
       sv_run := fun a => VariablesCognitivasService.obtenerIdVariableCognitivaPorNombre (arg 0 a);
       sv_pre := fun _ => true; sv_status := true |};
    {| sv_file := "estudiante.service.js"; sv_name := "registrarEstudiante";
       sv_run := fun a => EstudianteService.registrarEstudiante (arg 0 a);
       sv_pre := fun a => negb (is_nullish (arg 0 a))
                          && has_string_form (get_opt (arg 0 a) "fechaNacimiento");
       sv_status := true |};
    {| sv_file := "estudiante.service.js"; sv_name := "modificarEstudiante";
       sv_run := fun a => EstudianteService.modificarEstudiante (arg 0 a) (arg 1 a) (arg 2 a);
       sv_pre := fun a => negb (is_nullish (arg 2 a)); sv_status := true |};
    {| sv_file := "estudiante.service.js"; sv_name := "obtenerEstudiantePorDocumento";
       sv_run := fun a => EstudianteService.obtenerEstudiantePorDocumento (arg 0 a) (arg 1 a);
       sv_pre := fun _ => true; sv_status := true |};
    {| sv_file := "estudiante.service.js"; sv_name := "actualizarGenero";
       sv_run := fun a => EstudianteService.actualizarGenero (arg 0 a) (arg 1 a);
       sv_pre := fun _ => true; sv_status := false |};
    {| sv_file := "utilidades.service.js"; sv_name := "listarTodosGenerosService";
       sv_run := fun _ => UtilidadesService.listarTodosGenerosService;
       sv_pre := fun _ => true; sv_status := true |};
    {| sv_file := "utilidades.service.js"; sv_name := "listarTodosTiposDocumentoService";
       sv_run := fun _ => UtilidadesService.listarTodosTiposDocumentoService;
       sv_pre := fun _ => true; sv_status := true |};
    {| sv_file := "utilidades.service.js"; sv_name := "listarTodosProgramasService";
       sv_run := fun _ => UtilidadesService.listarTodosProgramasService;
       sv_pre := fun _ => true; sv_status := true |};
    {| sv_file := "utilidades.service.js"; sv_name := "obtenerIdEstudiantePorDocumentoService";
       sv_run := fun a => UtilidadesService.obtenerIdEstudiantePorDocumentoService (arg 0 a) (arg 1 a);
       sv_pre := fun _ => true; sv_status := true |};
    {| sv_file := "utilidades.service.js"; sv_name := "listarTiposVariablesCognitivasService";
       sv_run := fun _ => UtilidadesService.listarTiposVariablesCognitivasService;
       sv_pre := fun _ => true; sv_status := true |};
    {| sv_file := "entrenador.service.js"; sv_name := "registrarEntrenador";
       sv_run := fun a => EntrenadorService.registrarEntrenador (arg 0 a);
       sv_pre := fun _ => true; sv_status := true |};
    {| sv_file := "entrenador.service.js"; sv_name := "obtenerListaCompletaEntrenadores";
       sv_run := fun a => EntrenadorService.obtenerListaCompletaEntrenadores (arg 0 a);
       sv_pre := fun a => negb (is_null (arg 0 a)); sv_status := true |};
    {| sv_file := "entrenador.service.js"; sv_name := "modificarInformacionEntrenador";
       sv_run := fun a => EntrenadorService.modificarInformacionEntrenador (arg 0 a) (arg 1 a);
       sv_pre := fun _ => true; sv_status := false |};
    {| sv_file := "entrenador.service.js"; sv_name := "desactivarEntrenador";
       sv_run := fun a => EntrenadorService.desactivarEntrenador (arg 0 a);
       sv_pre := fun _ => true; sv_status := true |};
    {| sv_file := "entrenador.service.js"; sv_name := "obtenerFacultadesPorEmailService";
       sv_run := fun a => EntrenadorService.obtenerFacultadesPorEmailService (arg 0 a);
       sv_pre := fun _ => true; sv_status := false |};
    {| sv_file := "entrenador.service.js"; sv_name := "obtenerDatosPorCorreoService";
       sv_run := fun a => EntrenadorService.obtenerDatosPorCorreoService (arg 0 a);
       sv_pre := fun _ => true; sv_status := true |};
    {| sv_file := "entrenador.service.js"; sv_name := "crearEntrenadorEntrenamientoService";
       sv_run := fun a => EntrenadorService.crearEntrenadorEntrenamientoService (arg 0 a) (arg 1 a);
       sv_pre := fun _ => true; sv_status := true |} ].

(** A route handler.  [h_service] is false for the one handler that does
    not go through the service layer. *)
Record Handler : Type := {
  h_file : string;
  h_name : string;
  h_run : Request -> M Outcome;
  h_service : bool
}.

Definition controllers : list Handler :=
  [ {| h_file := "estudiante.controller.js"; h_name := "registrarNuevoEstudianteController";
       h_run := EstudianteController.registrarNuevoEstudianteController; h_service := true |};
    {| h_file := "estudiante.controller.js"; h_name := "modificarEstudianteController";
       h_run := EstudianteController.modificarEstudianteController; h_service := true |};
    {| h_file := "estudiante.controller.js"; h_name := "obtenerEstudianteController";
       h_run := EstudianteController.obtenerEstudianteController; h_service := true |};
    {| h_file := "estudiante.controller.js"; h_name := "actualizarGeneroEstudiante";
       h_run := EstudianteController.actualizarGeneroEstudiante; h_service := true |};
    {| h_file := "sesion.controller.js"; h_name := "crearSesion";
       h_run := SesionController.crearSesion; h_service := true |};
    {| h_file := "sesion.controller.js"; h_name := "iniciarSesion";
       h_run := SesionController.iniciarSesion; h_service := true |};
    {| h_file := "entrenador.controller.js"; h_name := "registrarEntrenador";
       h_run := EntrenadorController.registrarEntrenador; h_service := true |};
    {| h_file := "entrenador.controller.js"; h_name := "listarTodosLosEntrenadores";
       h_run := EntrenadorController.listarTodosLosEntrenadores; h_service := true |};
    {| h_file := "entrenador.controller.js"; h_name := "actualizarInformacionEntrenador";
       h_run := EntrenadorController.actualizarInformacionEntrenador; h_service := true |};
    {| h_file := "entrenador.controller.js"; h_name := "desactivarEntrenador";
       h_run := EntrenadorController.desactivarEntrenador; h_service := true |};
    {| h_file := "entrenador.controller.js"; h_name := "obtenerFacultadesPorEmailController";
       h_run := EntrenadorController.obtenerFacultadesPorEmailController; h_service := true |};
    {| h_file := "entrenador.controller.js"; h_name := "obtenerDatosPorCorreoController";
       h_run := EntrenadorController.obtenerDatosPorCorreoController; h_service := true |};
    {| h_file := "entrenador.controller.js"; h_name := "crearEntrenadorEntrenamientoController";
       h_run := EntrenadorController.crearEntrenadorEntrenamientoController; h_service := true |};
    {| h_file := "variablesCognitivas.controller.js"; h_name := "abandonarVariableCognitiva";
       h_run := VariablesCognitivasController.abandonarVariableCognitiva; h_service := true |};
    {| h_file := "variablesCognitivas.controller.js"; h_name := "reactivarVariableCognitiva";
       h_run := VariablesCognitivasController.reactivarVariableCognitiva; h_service := true |};
    {| h_file := "variablesCognitivas.controller.js"; h_name := "obtenerIdVariableCognitivaPorNombre";
       h_run := VariablesCognitivasController.obtenerIdVariableCognitivaPorNombre; h_service := true |};
    {| h_file := "entrenamientoCognitivo.controller.js"; h_name := "obtenerEstudiantesPorFacultadController";
       h_run := EntrenamientoCognitivoController.obtenerEstudiantesPorFacultadController; h_service := false |};
    {| h_file := "entrenamientoCognitivo.controller.js"; h_name := "obtenerEntrenamientoEstudiantePorDocumentoController";
       h_run := EntrenamientoCognitivoController.obtenerEntrenamientoEstudiantePorDocumentoController; h_service := true |};
    {| h_file := "entrenamientoCognitivo.controller.js"; h_name := "crearNuevoEntrenamientoCognitivoController";
       h_run := EntrenamientoCognitivoController.crearNuevoEntrenamientoCognitivoController; h_service := true |};
    {| h_file := "entrenamientoCognitivo.controller.js"; h_name := "registrarEntrenamientoAsignacionController";
       h_run := EntrenamientoCognitivoController.registrarEntrenamientoAsignacionController; h_service := true |};
    {| h_file := "entrenamientoCognitivo.controller.js"; h_name := "obtenerProgresoVariableController";
       h_run := EntrenamientoCognitivoController.obtenerProgresoVariableController; h_service := true |};
    {| h_file := "entrenamientoCognitivo.controller.js"; h_name := "actualizarObservacionSesionController";
       h_run := EntrenamientoCognitivoController.actualizarObservacionSesionController; h_service := true |};
    {| h_file := "entrenamientoCognitivo.controller.js"; h_name := "modificarEntrenamientoCognitivoController";
       h_run := EntrenamientoCognitivoController.modificarEntrenamientoCognitivoController; h_service := true |};
    {| h_file := "entrenamientoCognitivo.controller.js"; h_name := "finalizarSesionController";
       h_run := EntrenamientoCognitivoController.finalizarSesionController; h_service := true |};
    {| h_file := "entrenamientoCognitivo.controller.js"; h_name := "finalizarAsignacionVariableController";
       h_run := EntrenamientoCognitivoController.finalizarAsignacionVariableController; h_service := true |};
    {| h_file := "informe.controller.js"; h_name := "obtenerListaEntrenamientosAdmin";
       h_run := InformeController.obtenerListaEntrenamientosAdmin; h_service := true |};
    {| h_file := "informe.controller.js"; h_name := "obtenerDetalleInformeAdmin";
       h_run := InformeController.obtenerDetalleInformeAdmin; h_service := true |};
    {| h_file := "informe.controller.js"; h_name := "obtenerListaEntrenamientosEntrenador";
       h_run := InformeController.obtenerListaEntrenamientosEntrenador; h_service := true |};
    {| h_file := "utilidades.controller.js"; h_name := "obtenerGenerosController";
       h_run := UtilidadesController.obtenerGenerosController; h_service := true |};
    {| h_file := "utilidades.controller.js"; h_name := "obtenerTiposDocumentoController";
       h_run := UtilidadesController.obtenerTiposDocumentoController; h_service := true |};
    {| h_file := "utilidades.controller.js"; h_name := "obtenerProgramasController";
       h_run := UtilidadesController.obtenerProgramasController; h_service := true |};
    {| h_file := "utilidades.controller.js"; h_name := "obtenerTiposVariablesCognitivasController";
       h_run := UtilidadesController.obtenerTiposVariablesCognitivasController; h_service := true |};
    {| h_file := "utilidades.controller.js"; h_name := "obtenerIdEstudiantePorDocumentoController";
       h_run := UtilidadesController.obtenerIdEstudiantePorDocumentoController; h_service := true |} ].

End Tables.
End Layers.

(** ** A runtime and a database to run the embedding on *)

Module Node.
Import Js Regex.

Definition chars (s : string) : list ascii := String.list_ascii_of_string s.
Definition text (l : list ascii) : string := String.string_of_list_ascii l.

(** *** [String.prototype.toLowerCase]

    On UTF-8 text: the ASCII letters, and the accented capitals of the
    Latin-1 block (U+00C0 to U+00DE, except the multiplication sign).
    Other code points are left as they are. *)
Fixpoint lower_chars (l : list ascii) : list ascii :=
  match l with
  | [] => []
  | c :: rest =>
      let n := code c in
      if ((65 <=? n) && (n <=? 90))%N then ascii_of_N (n + 32) :: lower_chars rest
      else if (n =? 195)%N then
        match rest with
        | c2 :: rest2 =>
            let n2 := code c2 in
            if ((128 <=? n2) && (n2 <=? 158) && negb (n2 =? 151))%N
            then c :: ascii_of_N (n2 + 32) :: lower_chars rest2
            else c :: c2 :: lower_chars rest2
        | [] => [c]
        end
      else c :: lower_chars rest
  end.

Definition node_toLowerCase (s : string) : string := text (lower_chars (chars s)).

(** *** [String.prototype.trim]

    White space and line terminators of ECMAScript, as UTF-8 byte
    sequences. *)
Definition white_space : list (list N) :=
  [ [9]; [10]; [11]; [12]; [13]; [32];
    [194; 160];
    [225; 154; 128];
    [226; 128; 128]; [226; 128; 129]; [226; 128; 130]; [226; 128; 131]; [226; 128; 132];
    [226; 128; 133]; [226; 128; 134]; [226; 128; 135]; [226; 128; 136]; [226; 128; 137];
    [226; 128; 138];
    [226; 128; 168]; [226; 128; 169]; [226; 128; 175];
    [226; 129; 159];
    [227; 128; 128];
    [239; 187; 191] ]%N.

Fixpoint starts_with (p l : list N) : bool :=
  match p, l with
  | [], _ => true
  | x :: p', y :: l' => (x =? y)%N && starts_with p' l'
  | _ :: _, [] => false
  end.

(** Number of bytes of the white space character at the head, if any. *)
Definition leading_space (ws : list (list N)) (l : list N) : option nat :=
  length <$> List.find (fun p => starts_with p l) ws.

Fixpoint strip (ws : list (list N)) (fuel : nat) (l : list N) : list N :=
  match fuel with
  | O => l
  | S fuel' =>
      match leading_space ws l with
      | Some n => strip ws fuel' (drop n l)
      | None => l
      end
  end.

Definition node_trim (s : string) : string :=
  let l := code <$> chars s in
  let l := strip white_space (length l) l in
  let r := strip (reverse <$> white_space) (length l) (reverse l) in
  text (ascii_of_N <$> reverse r).

(** *** [Number.prototype.toString]

    A number of the model is an integer.  The engine holds it as the
    nearest double and prints the shortest decimal that reads back as that
    double: in full up to 21 digits (padded with zeros where the double
    has fewer significant digits), as a mantissa and an exponent beyond. *)

(** The double nearest to an integer, ties to the even mantissa. *)
Definition to_double (n : Z) : Z :=
  let a := Z.abs n in
  if a <? 2 ^ 53 then n
  else
    let ulp := 2 ^ (Z.log2 a - 52) in
    let q := a / ulp in
    let r := a mod ulp in
    let q := if 2 * r <? ulp then q
             else if ulp <? 2 * r then q + 1
             else if Z.even q then q else q + 1 in
    Z.sgn n * (q * ulp).

Definition digits (x : Z) : string := pretty x.

(** The decimals [s * 10 ^ e] with [k] digits in [s] that read back as the
    double [x], where [s * 10 ^ e] has [n] digits. *)
Definition decimals (x k n : Z) : list (Z * Z) :=
  let e := n - k in
  (fun s => (s, e))
    <$> List.filter (fun s => (10 ^ (k - 1) <=? s) && (s <? 10 ^ k) && (to_double (s * 10 ^ e) =? x))
          [x / 10 ^ e; x / 10 ^ e + 1].

Fixpoint first_found {A} (ls : list (list A)) : list A :=
  match ls with
  | [] => []
  | [] :: rest => first_found rest
  | l :: _ => l
  end.

(** Of two decimals the one nearer to [x], and the even one when they are
    equally near. *)
Definition nearer (x : Z) (c1 c2 : Z * Z) : Z * Z :=
  let dist (c : Z * Z) := Z.abs (c.1 * 10 ^ c.2 - x) in
  if dist c1 <? dist c2 then c1
  else if dist c2 <? dist c1 then c2
  else if Z.even c1.1 then c1 else c2.

(** The shortest decimal of a positive double. *)
Definition shortest (x : Z) : Z * Z :=
  let len := Z.of_nat (String.length (digits x)) in
  let found :=
    first_found ((fun k => (decimals x k len ++ decimals x k (len + 1))%list)
                   <$> seqZ 1 (Z.min len 17)) in
  match found with
  | c :: rest => fold_left (nearer x) rest c
  | [] => (x, 0)
  end.

Definition print_double (x : Z) : string :=
  if 2 ^ 1024 <=? x then "Infinity"
  else
    let '(s, e) := shortest x in
    let k := Z.of_nat (String.length (digits s)) in
    let n := e + k in
    if n <=? 21 then digits s +:+ text (replicate (Z.to_nat e) "0"%char)
    else
      match digits s with
      | String d rest =>
          String d (if String.eqb rest "" then "" else "." +:+ rest) +:+ "e+" +:+ digits (n - 1)
      | EmptyString => ""
      end.

Definition node_Number_toString (n : Z) : string :=
  if Z.abs n <? 2 ^ 53 then pretty n
  else (if n <? 0 then "-" else "") +:+ print_double (to_double (Z.abs n)).

(** *** [Date]

    Days since 1970-01-01 of a civil date, and back (proleptic Gregorian
    calendar).  A day number beyond the end of the month runs into the
    following month, as [MakeDay] does. *)
Definition days_from_civil (y m d : Z) : Z :=
  let y' := if m <=? 2 then y - 1 else y in
  let era := y' / 400 in
  let yoe := y' - era * 400 in
  let mp := (m + 9) mod 12 in
  let doy := (153 * mp + 2) / 5 + d - 1 in
  let doe := yoe * 365 + yoe / 4 - yoe / 100 + doy in
  era * 146097 + doe - 719468.

Definition civil_from_days (z : Z) : Z * Z * Z :=
  let z := z + 719468 in
  let era := z / 146097 in
  let doe := z - era * 146097 in
  let yoe := (doe - doe / 1460 + doe / 36524 - doe / 146096) / 365 in
  let doy := doe - (365 * yoe + yoe / 4 - yoe / 100) in
  let mp := (5 * doy + 2) / 153 in
  let d := doy - (153 * mp + 2) / 5 + 1 in
  let m := if mp <? 10 then mp + 3 else mp - 9 in
  (if m <=? 2 then yoe + era * 400 + 1 else yoe + era * 400, m, d).

Definition ms_per_day : Z := 86400000.

Definition digit (c : ascii) : Z := Z.of_N (code c) - 48.

(** The value of a run of decimal digits. *)
Definition number (l : list ascii) : Z := fold_left (fun acc c => acc * 10 + digit c) l 0.

Definition field_of (from len : nat) (s : string) : Z := number (take len (drop from (chars s))).

(** Three numbers separated by hyphens as the permissive parser of the
    engine reads them: a first number from 1 to 31 is not the year but the
    month, followed by the day and the year; a year below 100 is a year of
    the current or of the last century; the month must be 1 to 12 and the
    day 1 to 31, whatever the month. *)
Definition legacy_date (a b c : Z) : option (Z * Z * Z) :=
  let '(y, m, d) := if (1 <=? a) && (a <=? 31) then (c, a, b) else (a, b, c) in
  let y := if (0 <=? y) && (y <=? 49) then y + 2000
           else if (50 <=? y) && (y <=? 99) then y + 1900 else y in
  if (1 <=? m) && (m <=? 12) && (1 <=? d) && (d <=? 31) then Some (y, m, d) else None.

(** [new Date(s).getTime()] for the two shapes the validators let through.

    A date-only string with a month from 1 to 12 and a day from 1 to 31 is
    in the ISO format and is read as UTC midnight of that year.  Any other
    date-only string, and every string with a space before the time, goes
    to the permissive parser ([legacy_date]) and is read as local time
    (the server clock is taken to be UTC), with hours 0 to 23 (or
    24:00:00), minutes and seconds 0 to 59.  Any other string is an
    invalid date. *)
Definition node_Date_parse (s : string) : option Z :=
  if match_shape date_shape s then
    let y := field_of 0 4 s in
    let m := field_of 5 2 s in
    let d := field_of 8 2 s in
    if (1 <=? m) && (m <=? 12) && (1 <=? d) && (d <=? 31)
    then Some (days_from_civil y m d * ms_per_day)
    else
      match legacy_date y m d with
      | Some (y, m, d) => Some (days_from_civil y m d * ms_per_day)
      | None => None
      end
  else if match_shape datetime_shape s then
    let hh := field_of 11 2 s in
    let mm := field_of 14 2 s in
    let ss := field_of 17 2 s in
    let time_ok :=
      ((hh <=? 23) && (mm <=? 59) && (ss <=? 59))
      || ((hh =? 24) && (mm =? 0) && (ss =? 0)) in
    match legacy_date (field_of 0 4 s) (field_of 5 2 s) (field_of 8 2 s) with
    | Some (y, m, d) =>
        if time_ok
        then Some (days_from_civil y m d * ms_per_day + ((hh * 60 + mm) * 60 + ss) * 1000)
        else None
    | None => None
    end
  else None.

(** Decimal form, padded with zeros to [width] digits. *)
Definition pad (width : nat) (n : Z) : string :=
  let s := pretty (Z.abs n) in
  text (replicate (width - String.length s) "0"%char) +:+ s.

Definition node_Date_toISOString (t : Z) : string :=
  let '(y, m, d) := civil_from_days (t / ms_per_day) in
  let r := t mod ms_per_day in
  let year :=
    if (0 <=? y) && (y <=? 9999) then pad 4 y
    else (if y <? 0 then "-" else "+") +:+ pad 6 y in
  year +:+ "-" +:+ pad 2 m +:+ "-" +:+ pad 2 d +:+ "T"
  +:+ pad 2 (r / 3600000) +:+ ":" +:+ pad 2 (r / 60000 mod 60) +:+ ":" +:+ pad 2 (r / 1000 mod 60)
  +:+ "." +:+ pad 3 (r mod 1000) +:+ "Z".

Definition day_names : list string := ["Thu"; "Fri"; "Sat"; "Sun"; "Mon"; "Tue"; "Wed"].
Definition month_names : list string :=
  ["Jan"; "Feb"; "Mar"; "Apr"; "May"; "Jun"; "Jul"; "Aug"; "Sep"; "Oct"; "Nov"; "Dec"].

(** [String(date)], for a server clock in UTC. *)
Definition node_Date_toString (t : Z) : string :=
  let days := t / ms_per_day in
  let '(y, m, d) := civil_from_days days in
  let r := t mod ms_per_day in
  nth (Z.to_nat (days mod 7)) day_names "" +:+ " "
  +:+ nth (Z.to_nat (m - 1)) month_names "" +:+ " " +:+ pad 2 d +:+ " "
  +:+ (if y <? 0 then "-" +:+ pad 6 y else pad 4 y) +:+ " "
  +:+ pad 2 (r / 3600000) +:+ ":" +:+ pad 2 (r / 60000 mod 60) +:+ ":" +:+ pad 2 (r / 1000 mod 60)
  +:+ " GMT+0000 (Coordinated Universal Time)".

Definition runtime : Runtime := {|
  toLowerCase := node_toLowerCase;
  trim := node_trim;
  Number_toString := node_Number_toString;
  Date_parse := node_Date_parse;
  Date_toISOString := node_Date_toISOString;
  Date_toString := node_Date_toString
|}.

End Node.

(** A database that answers the statements it receives from a prepared
    list of results, in order, and with no rows once the list is used up. *)
Module Scripted.
Import Js Db.

Definition answer (q : Query) (script : list (PgError + list Row))
    : (PgError + list Row) * list (PgError + list Row) :=
  match script with
  | r :: rest => (r, rest)
  | [] => (inr [], [])
  end.

Definition database : Database := {|
  World := list (PgError + list Row);
  pool_query := answer;
  clock := fun _ => 0
|}.

(** The initial state for a run against a script. *)
Definition start (script : list (PgError + list Row)) : @St database :=
  {| world := (script : @World database); trace := [] |}.

End Scripted.

(** ** The route tables

    Every [router.METHOD(path, ...middleware, handler)] of the route files
    and the [app.get] of index.js, with the prefix under which index.js
    mounts the router.  The middleware and the handlers are listed by
    name, in the order they run. *)

Module Routes.

Inductive Verb : Type := GET | POST | PUT | PATCH.

Inductive Middleware : Type :=
| verificarToken
| isAdmin
| isEntrenador
| validator (name : string)           (* an express-validator chain *)
| manejarResultadosValidacion.

#[global] Instance Verb_eq_dec : EqDecision Verb.
Proof. solve_decision. Defined.
#[global] Instance Middleware_eq_dec : EqDecision Middleware.
Proof. solve_decision. Defined.

Record Route : Type := {
  mount : string;
  verb : Verb;
  path : string;
  chain : list Middleware;
  handler : string
}.

Definition route (m : string) (v : Verb) (p : string) (c : list Middleware) (h : string) : Route :=
  {| mount := m; verb := v; path := p; chain := c; handler := h |}.

Definition app_routes : list Route :=
  [ route "" GET "/test" [] "(req, res) => res.status(200).send(...)" ].

Definition authRoutes : list Route :=
  [ route "/api" POST "/login/admin" [] "loginAdmin";
    route "/api" POST "/login/entrenador" [] "loginEntrenador" ].

Definition adminRoutes : list Route :=
  let m := "/api/admin" in
  [ route m POST "/entrenadores"
      [verificarToken; isAdmin; validator "validacionesRegistroEntrenador"; manejarResultadosValidacion]
      "registrarEntrenador";
    route m GET "/entrenadores" [verificarToken; isAdmin] "listarTodosLosEntrenadores";
    route m PUT "/entrenadores/:entrenadorID"
      [verificarToken; isAdmin; validator "validacionesCompletasActualizarEntrenador";
       manejarResultadosValidacion]
      "actualizarInformacionEntrenador";
    route m PUT "/entrenadores/:entrenadorID/desactivar"
      [verificarToken; isAdmin; validator "validacionesDesactivarEntrenador"; manejarResultadosValidacion]
      "desactivarEntrenador";
    route m GET "/informes/entrenamientos" [verificarToken; isAdmin] "obtenerListaEntrenamientosAdmin";
    route m GET "/informes/entrenamientos/:entrenamientoId"
      [verificarToken; isAdmin; validator "validarParametroUUID('entrenamientoId')";
       manejarResultadosValidacion]
      "obtenerDetalleInformeAdmin" ].

Definition tipoDocumentoRoutes : list Route :=
  [ route "/api/tipos-documento" GET "/" [verificarToken] "obtenerTiposDocumento" ].

Definition facultadRoutes : list Route :=
  [ route "/api/facultades" GET "/" [verificarToken] "obtenerFacultades" ].

Definition entrenamientoCognitivoRoutes : list Route :=
  let m := "/api/entrenamientos-cognitivos" in
  [ route m GET "/facultad/:facultadId/estudiantes" [verificarToken]
      "obtenerEstudiantesPorFacultadController";
    route m POST "/estudiante/detalle-entrenamiento" [verificarToken]
      "obtenerEntrenamientoEstudiantePorDocumentoController";
    route m POST "/crear" [verificarToken] "crearNuevoEntrenamientoCognitivoController";
    route m POST "/asignacion" [verificarToken] "registrarEntrenamientoAsignacionController";
    route m GET "/progreso/:asignacionId"
      [verificarToken; isEntrenador; validator "validarParametroUUID('asignacionId')";
       manejarResultadosValidacion]
      "obtenerProgresoVariableController";
    route m PATCH "/estudiante/:siglaTipoDocEstudiante/:numeroDocEstudiante"
      [verificarToken; isEntrenador] "modificarEntrenamientoCognitivoController";
    route m PUT "/sesiones/:idSesion/observacion"
      [verificarToken; isEntrenador; validator "validarParametroUUID('idSesion')";
       validator "validacionesActualizarObservacion"; manejarResultadosValidacion]
      "actualizarObservacionSesionController";
    route m PUT "/sesiones/:idSesion/finalizar"
      [verificarToken; isEntrenador; validator "validarParametroUUID('idSesion')";
       validator "validacionesFinalizarSesion"; manejarResultadosValidacion]
      "finalizarSesionController";
    route m PUT "/asignaciones/:idAsignacion/finalizar"
      [verificarToken; isEntrenador; validator "validarParametroUUID('idAsignacion')";
       manejarResultadosValidacion]
      "finalizarAsignacionVariableController" ].

Definition estudianteRoutes : list Route :=
  let m := "/api/estudiantes" in
  [ route m POST "/" [verificarToken] "registrarNuevoEstudianteController";
    route m GET "/:siglaTipoDoc/:numeroDoc" [verificarToken] "obtenerEstudianteController";
    route m PUT "/:siglaTipoDoc/:numeroDoc" [verificarToken] "modificarEstudianteController";
    route m PATCH "/:id/genero"
      [verificarToken; isEntrenador; validator "validarParametroUUID('id')";
       validator "body('nuevoNombreGenero')"; manejarResultadosValidacion]
      "actualizarGeneroEstudiante" ].

Definition utilidadesRoutes : list Route :=
  let m := "/api/utilidades" in
  [ route m GET "/generos" [verificarToken] "obtenerGenerosController";
    route m GET "/tipos-documento" [verificarToken] "obtenerTiposDocumentoController";
    route m GET "/programas" [verificarToken] "obtenerProgramasController";
    route m GET "/tipos-variables-cognitivas" [verificarToken]
      "obtenerTiposVariablesCognitivasController";
    route m GET "/estudiantes/documento/:tipoDocumento/:numeroDocumento" [verificarToken]
      "obtenerIdEstudiantePorDocumentoController" ].

Definition entrenadorRoutes : list Route :=
  let m := "/api/entrenadores" in
  [ route m GET "/facultad-entrenador/:correo" [verificarToken] "obtenerFacultadesPorEmailController";
    route m GET "/datosporcorreo/:correo" [verificarToken] "obtenerDatosPorCorreoController";
    route m GET "/informes" [verificarToken; isEntrenador] "obtenerListaEntrenamientosEntrenador";
    route m GET "/informes/:entrenamientoId"
      [verificarToken; isEntrenador; validator "validarParametroUUID('entrenamientoId')";
       manejarResultadosValidacion]
      "obtenerDetalleInformeAdmin";
    route m POST "/asignar-entrenamiento" [verificarToken] "crearEntrenadorEntrenamientoController" ].

Definition variablesCognitivasRoutes : list Route :=
  let m := "/api/variables-cognitivas" in
  [ route m PATCH "/abandonar" [verificarToken] "abandonarVariableCognitiva";
    route m PATCH "/reactivar" [verificarToken] "reactivarVariableCognitiva";
    route m GET "/nombre/:nombre" [verificarToken] "obtenerIdVariableCognitivaPorNombre" ].

Definition sesionRoutes : list Route :=
  let m := "/api/sesiones" in
  [ route m POST "/crear" [verificarToken; isEntrenador] "crearSesion";
    route m POST "/:idSesion/iniciar"
      [verificarToken; isEntrenador; validator "validarParametroUUID('idSesion')";
       manejarResultadosValidacion]
      "iniciarSesion" ].

(** In the order index.js registers them. *)
Definition routes : list Route :=
  app_routes ++ authRoutes ++ adminRoutes ++ tipoDocumentoRoutes ++ facultadRoutes
  ++ entrenamientoCognitivoRoutes ++ estudianteRoutes ++ utilidadesRoutes
  ++ entrenadorRoutes ++ variablesCognitivasRoutes ++ sesionRoutes.

Definition url (r : Route) : string := mount r +:+ path r.

Definition find_route (v : Verb) (u : string) : option Route :=
  List.find (fun r => bool_decide (verb r = v) && String.eqb (url r) u) routes.

(** The chain runs the token check. *)
Definition checks_token (r : Route) : bool := bool_decide (verificarToken ∈ chain r).

(** The chain runs a role gate. *)
Definition role_gated (r : Route) : bool :=
  bool_decide (isAdmin ∈ chain r) || bool_decide (isEntrenador ∈ chain r).

(** The role gate of a chain: the first of [isAdmin] and [isEntrenador]. *)
Definition role_of (r : Route) : option Middleware :=
  List.find (fun m => bool_decide (m = isAdmin) || bool_decide (m = isEntrenador)) (chain r).

(** Routes that are reachable without a token. *)
Definition open_routes : list (Verb * string) :=
  [ (GET, "/test"); (POST, "/api/login/admin"); (POST, "/api/login/entrenador") ].

Definition is_open (r : Route) : bool :=
  existsb (fun '(v, u) => bool_decide (verb r = v) && String.eqb (url r) u) open_routes.

(** Routes whose chain is the token check alone. *)
Definition token_only : list (Verb * string) :=
  (fun r => (verb r, url r)) <$> List.filter (fun r => bool_decide (chain r = [verificarToken])) routes.

End Routes.

(** ** Vocabulary of the properties *)

Import Js Regex Db Express Layers.

Section Vocabulary.
Context {rt : Runtime} {db : Database}.

(** *** What a run adds to the trace *)

(** The events a run from [st] appends to the trace. *)
Definition new_events {A} (m : M A) (st : St) : list Event :=
  drop (length (trace st)) (trace (m st).2).

Definition is_call (caller callee : Layer) (ev : Event) : bool :=
  match ev with
  | EvCall a b _ => Layer_eqb a caller && Layer_eqb b callee
  | EvQuery _ => false
  end.

(** Number of calls from one layer into another. *)
Definition calls (caller callee : Layer) (evs : list Event) : nat :=
  length (List.filter (is_call caller callee) evs).

(** The statements sent to the pool. *)
Definition statements (evs : list Event) : list Query :=
  omap (fun ev => match ev with EvQuery q => Some q | EvCall _ _ _ => None end) evs.

(** A computation that adds nothing to the trace. *)
Definition silent {A} (m : M A) : Prop := forall st, trace (m st).2 = trace st.

Fixpoint weight (w : Event -> nat) (evs : list Event) : nat :=
  match evs with
  | [] => 0%nat
  | ev :: rest => (w ev + weight w rest)%nat
  end.

(** Every event a run adds satisfies [phi], and their total weight is at
    most [n]. *)
Definition emits {A} (phi : Event -> Prop) (w : Event -> nat) (n : nat) (m : M A) : Prop :=
  forall st, exists evs,
    trace (m st).2 = (trace st ++ evs)%list /\ Forall phi evs /\ (weight w evs <= n)%nat.





(** The event is a statement whose text is one of [texts]. *)
Definition is_listed (texts : list string) (ev : Event) : Prop :=
  match ev with
  | EvQuery q => existsb (String.eqb (sql q)) texts = true
  | EvCall _ _ _ => False
  end.

Definition one (ev : Event) : nat := 1%nat.

(** *** What is thrown *)

Definition str_or_absent (v : JsVal) : Prop :=
  match v with JUndefined | JStr _ => True | _ => False end.

Definition num_or_absent (v : JsVal) : Prop :=
  match v with JUndefined | JNum _ => True | _ => False end.

(** Error objects as the driver, the engine and the application make them:
    [message], [code] and [detail] are strings when present, [statusCode]
    a number when present. *)
Definition wf_err (e : ErrObj) : Prop :=
  str_or_absent (field e "message") /\ str_or_absent (field e "code")
  /\ str_or_absent (field e "detail") /\ num_or_absent (field e "statusCode").

(** The error carries a numeric [statusCode]. *)
Definition statused (e : ErrObj) : Prop :=
  wf_err e /\ exists n, field e "statusCode" = JNum n.

Definition Rthrows {A} (Q : ErrObj -> Prop) (r : Res A) : Prop :=
  forall e, r = Throw e -> Q e.

(** Whatever [m] throws satisfies [Q]. *)
Definition throws {A} (Q : ErrObj -> Prop) (m : M A) : Prop :=
  forall st e st', m st = (Throw e, st') -> Q e.

Definition admits_TypeError (Q : ErrObj -> Prop) : Prop := forall msg, Q (TypeError msg).

Definition status_guaranteed (s : ServiceFn) : Prop :=
  forall args, sv_pre s args = true -> throws statused (sv_run s args).

(** *** What a data-access function returns *)

(** The answer of the database to [q] in state [st]. *)
Definition answer_to (q : Query) (st : St) : PgError + list Row := (pool_query q (world st)).1.


(** *** The validation block of [registrarNuevaAsignacionService]

    The six checks that precede the [try], as a function: the object the
    service returns when one of them fails, [None] when all pass.  The
    message about an identifier that is no UUID and the check of the date
    convert a value of the body to a string, which can throw. *)
Definition validaciones_asignacion (datosAsignacion : JsVal) : Res (option JsVal) :=
  let d := get_opt datosAsignacion in
  let ids := d "tiposVariablesCognitivasIds" in
  if negb (EntrenamientoCognitivoService.isValidUUID (d "estudianteId")) then
    Ret (Some (EntrenamientoCognitivoService.failure
                 (JStr "El ID del estudiante es requerido y debe ser un UUID válido.") 400))
  else if negb (isArray ids) || (Z.of_nat (length (elements ids)) =? 0) then
    Ret (Some (EntrenamientoCognitivoService.failure
                 (JStr "Se debe proporcionar al menos un ID de tipo de variable cognitiva en un arreglo.") 400))
  else
    match EntrenamientoCognitivoService.primer_id_invalido (elements ids) with
    | Some id =>
        texto <- js_to_string id;
        Ret (Some (EntrenamientoCognitivoService.failure
                     (JStr ("El ID de tipo de variable cognitiva '" +:+ texto
                            +:+ "' no es un UUID válido.")) 400))
    | None =>
        fechaInvalida <- (if truthy (d "fechaInicio")
                          then (valida <- EntrenamientoCognitivoService.isValidDateTimeString (d "fechaInicio");
                                Ret (negb valida))
                          else Ret true);
        if fechaInvalida then
          Ret (Some (EntrenamientoCognitivoService.failure
                       (JStr "La fecha de inicio es requerida y debe estar en formato YYYY-MM-DD HH:MM:SS.") 400))
        else if is_null (d "nivelInicial") || negb (is_object_type (d "nivelInicial"))
                || isArray (d "nivelInicial") then
          Ret (Some (EntrenamientoCognitivoService.failure
                       (JStr "El nivel inicial es requerido y debe ser un objeto JSON.") 400))
        else if is_null (d "metricas") || negb (is_object_type (d "metricas"))
                || isArray (d "metricas") then
          Ret (Some (EntrenamientoCognitivoService.failure
                       (JStr "Las métricas son requeridas y deben ser un objeto JSON.") 400))
        else Ret None
    end.

(** The two operations that validate their input before any statement,
    and what each answers when the validation fails. *)
Inductive Validated : Type := CrearEntrenamiento | RegistrarAsignacion.

Definition run_validated (op : Validated) : JsVal -> M JsVal :=
  match op with
  | CrearEntrenamiento => EntrenamientoCognitivoService.crearNuevoEntrenamientoCognitivo
  | RegistrarAsignacion => EntrenamientoCognitivoService.registrarNuevaAsignacionService
  end.

Definition validation_error (op : Validated) (datos : JsVal) : option JsVal :=
  match op with
  | CrearEntrenamiento =>
      match EntrenamientoCognitivoService.validarDatosCrearEntrenamiento datos with
      | Ret errorValidacion => if truthy errorValidacion then Some errorValidacion else None
      | Throw _ => None
      end
  | RegistrarAsignacion =>
      if is_nullish datos then None
      else match validaciones_asignacion datos with
           | Ret errorValidacion => errorValidacion
           | Throw _ => None
           end
  end.

(** The exception with which the validation itself ends, when it does
    not come to a verdict: the input cannot be taken apart, or one of its
    values cannot be converted to a string. *)
Definition validation_exception (op : Validated) (datos : JsVal) : option ErrObj :=
  match op with
  | CrearEntrenamiento =>
      match EntrenamientoCognitivoService.validarDatosCrearEntrenamiento datos with
      | Ret _ => None
      | Throw e => Some e
      end
  | RegistrarAsignacion =>
      match destructure datos with
      | Throw e => Some e
      | Ret _ =>
          match validaciones_asignacion datos with
          | Ret _ => None
          | Throw e => Some e
          end
      end
  end.

(** *** Results of runs *)

(** The error a result rejects with. *)
Definition thrown {A} (r : Res A) : ErrObj :=
  match r with
  | Throw e => e
  | Ret _ => ∅
  end.



(** *** The answer to a modification, by the message of the row

    What [modificarEntrenamientoCognitivo] is to do with the first row the
    database function returns: hand it back when its [mensaje] is missing,
    empty, or says [exitosamente] in any letter case; otherwise reject with
    the message as a client error, 404 when it says
    [no tiene un entrenamiento] and 400 if not.  A [mensaje] that is not a
    string cannot be lower-cased and ends in the generic error 500. *)
Definition outcome_for (row : Row) : Res JsVal :=
  match field row "mensaje" with
  | JStr s =>
      if String.eqb s "" || str_includes "exitosamente" (toLowerCase s)
      then Ret (JObj row)
      else Throw (clientError (JStr s)
                    (if str_includes "no tiene un entrenamiento" (toLowerCase s)
                     then 404 else 400))
  | mensaje =>
      if truthy mensaje
      then Throw (<[ "statusCode" := JNum 500 ]>
                    (new_Error (JStr "Ocurrió un error inesperado en el servidor al intentar modificar el entrenamiento.")))
      else Ret (JObj row)
  end.

End Vocabulary.

(** *** Shapes of strings, spelled out *)

(** Four digits, a hyphen, two digits, a hyphen, two digits. *)
Definition is_iso_date (s : string) : bool :=
  match String.list_ascii_of_string s with
  | [y1; y2; y3; y4; h1; m1; m2; h2; d1; d2] =>
      forallb is_digit [y1; y2; y3; y4; m1; m2; d1; d2]
      && Ascii.eqb h1 "-" && Ascii.eqb h2 "-"
  | _ => false
  end.

(** An ISO date, a space, and a time [hh:mm:ss] of six digits. *)
Definition is_date_time (s : string) : bool :=
  match String.list_ascii_of_string s with
  | [y1; y2; y3; y4; h1; m1; m2; h2; d1; d2; sp; a1; a2; c1; b1; b2; c2; s1; s2] =>
      forallb is_digit [y1; y2; y3; y4; m1; m2; d1; d2; a1; a2; b1; b2; s1; s2]
      && Ascii.eqb h1 "-" && Ascii.eqb h2 "-" && Ascii.eqb sp " "
      && Ascii.eqb c1 ":" && Ascii.eqb c2 ":"
  | _ => false
  end.

(** *** Statement texts *)

(** ASCII lower case, for key words and identifiers of SQL. *)
Definition sql_lower (text : string) : string := Node.node_toLowerCase text.

Fixpoint skip_space (s : string) : string :=
  match s with
  | String c rest => if is_space c then skip_space rest else s
  | EmptyString => EmptyString
  end.

(** The statement is a [SELECT]. *)
Definition is_select (text : string) : bool :=
  String.prefix "select " (skip_space (sql_lower text))
  || String.prefix ("select" +:+ nl) (skip_space (sql_lower text)).

(** The text names a data-manipulation command. *)
Definition is_dml (text : string) : bool :=
  existsb (fun k => str_includes k (sql_lower text)) ["insert"; "update"; "delete"].

(** The statement calls a stored function of the CC schema, named with the
    UFT or UFS suffix. *)
Definition calls_stored_function (text : string) : bool :=
  str_includes "cc." (sql_lower text)
  && (str_includes "uft(" (sql_lower text) || str_includes "ufs(" (sql_lower text)).

(** The statement reads a view of the CC schema, named with the UV suffix. *)
Definition reads_view (text : string) : bool :=
  str_includes " from cc." (sql_lower text)
  && (str_includes "uv " (sql_lower text) || str_includes "uv;" (sql_lower text)).

(** ** Sample inputs *)

Definition un_uuid : string := "123e4567-e89b-12d3-a456-426614174000".
Definition otro_uuid : string := "223e4567-e89b-12d3-a456-426614174000".

(** The driver's error when the server cannot be reached. *)
Definition sin_conexion : PgError :=
  {| pg_message := "connect ECONNREFUSED 127.0.0.1:5432";
     pg_code := Some "ECONNREFUSED";
     pg_detail := None |}.

(** GET /api/entrenamientos-cognitivos/facultad/:facultadId/estudiantes *)
Definition una_facultad : Request :=
  {| req_params := {[ "facultadId" := JStr un_uuid ]};
     req_query := ∅; req_body := JUndefined; req_user := JUndefined |}.

(** GET /api/estudiantes/:siglaTipoDoc/:numeroDoc *)
Definition un_estudiante : Request :=
  {| req_params := list_to_map [("siglaTipoDoc", JStr "CC"); ("numeroDoc", JStr "1020304050")];
     req_query := ∅; req_body := JUndefined; req_user := JUndefined |}.


(** Rows of cc.modificarentrenamientocognitivouft. *)
Definition fila_sin_mensaje : Row := {[ "mensaje" := JNull ]}.
Definition fila_mensaje_vacio : Row := {[ "mensaje" := JStr "" ]}.
Definition fila_sin_entrenamiento : Row :=
  {[ "mensaje" := JStr "El estudiante no tiene un entrenamiento cognitivo activo." ]}.

(** ** Vocabulary of the end-to-end properties *)

(** A statement counts one, a call none. *)
Definition statement_count (ev : Event) : nat :=
  match ev with EvQuery _ => 1%nat | EvCall _ _ _ => 0%nat end.

(** What a service may add to the trace: statements and calls into the
    data-access layer. *)
Definition service_event (ev : Event) : Prop :=
  match ev with
  | EvQuery _ | EvCall Service Model _ => True
  | EvCall _ _ _ => False
  end.

Definition data_access_call (ev : Event) : nat :=
  if is_call Service Model ev then 1%nat else 0%nat.

Definition any_event (ev : Event) : Prop := True.

(** No error at all. *)
Definition never (e : ErrObj) : Prop := False.

Section DriverVocabulary.
Context {rt : Runtime} {db : Database}.

(** Whenever [m] has sent one statement and the driver rejected it, [m]
    rejects with the driver's error as it is. *)
Definition rethrows_driver {A} (m : M A) : Prop :=
  forall st q pe,
    new_events m st = [EvQuery q] -> answer_to q st = inl pe ->
    (m st).1 = Throw (pg_error_obj pe).

End DriverVocabulary.

(** Where the hyphens of a UUID stand. *)
Definition uuid_hyphens : list nat := [8; 13; 18; 23]%nat.

Section StudentVocabulary.
Context {rt : Runtime}.

(** The nine checks with which [registrarEstudiante] begins, as one
    condition: some required field is missing or malformed.  The check of
    the date of birth converts it to a string, which can throw; the checks
    before it are then passed. *)
Definition estudiante_rechazado (datosEntrada : JsVal) : Res bool :=
  let d := get_opt datosEntrada in
  if blank (d "siglaTipoDocumento") || blank (d "nombreGenero") || blank (d "nombres")
     || blank (d "apellidos") || blank (d "numeroDocumento")
  then Ret true
  else
    fechaInvalida <- (if truthy (d "fechaNacimiento")
                      then (valida <- EstudianteService.isValidDateString (d "fechaNacimiento");
                            Ret (negb valida))
                      else Ret true);
    Ret (fechaInvalida
         || (negb (truthy (d "correo")) || negb (is_string (d "correo"))
             || negb (matches loose_email (trim (str_of (d "correo")))))
         || (negb (isArray (d "programaNombres"))
             || (Z.of_nat (length (elements (d "programaNombres"))) =? 0))
         || existsb (fun p => negb (is_string p) || String.eqb (trim (str_of p)) "")
              (elements (d "programaNombres"))).

End StudentVocabulary.

(** ** More sample inputs *)

(** A unique-constraint violation on the e-mail of CC.entrenador. *)
Definition correo_repetido : PgError :=
  {| pg_message := "llave duplicada viola restricción de unicidad ccentrenador002uq";
     pg_code := Some "23505";
     pg_detail := Some "Ya existe la llave (correo)=(ana@universidad.edu.co)." |}.

(** A foreign-key violation on CC.entrenadorentrenamiento. *)
Definition entrenador_desconocido : PgError :=
  {| pg_message := "inserción en la tabla entrenadorentrenamiento viola la llave foránea del entrenador";
     pg_code := Some "23503";
     pg_detail := None |}.

(** A [RAISE EXCEPTION] of a stored function. *)
Definition excepcion_de_funcion : PgError :=
  {| pg_message := "La asignación ya fue finalizada.";
     pg_code := Some "P0001";
     pg_detail := None |}.

(** The body of POST /api/estudiantes. *)
Definition datos_estudiante : JsVal :=
  obj [("siglaTipoDocumento", JStr "CC"); ("nombreGenero", JStr "Femenino");
       ("nombres", JStr " Ana "); ("apellidos", JStr "Paz");
       ("numeroDocumento", JStr "1020304050"); ("fechaNacimiento", JStr "2001-02-03");
       ("correo", JStr "ana@universidad.edu.co");
       ("programaNombres", JArr [JStr "Ingeniería de Sistemas "])].

(** The JSON object [{"toString": 1}], which no conversion to a string
    accepts. *)
Definition sin_texto : JsVal := obj [("toString", JNum 1)].

(** U+2028, the line separator, in UTF-8. *)
Definition separador_de_linea : string :=
  String (Ascii.ascii_of_nat 226) (String (Ascii.ascii_of_nat 128)
    (String (Ascii.ascii_of_nat 168) EmptyString)).

(** Bodies of POST /api/estudiantes: one whose date of birth is an
    object, one whose e-mail address has a line separator after the at
    sign. *)
Definition estudiante_fecha_objeto : JsVal :=
  obj [("siglaTipoDocumento", JStr "CC"); ("nombreGenero", JStr "Femenino");
       ("nombres", JStr "Ana"); ("apellidos", JStr "Paz");
       ("numeroDocumento", JStr "1020304050"); ("fechaNacimiento", sin_texto);
       ("correo", JStr "ana@universidad.edu.co");
       ("programaNombres", JArr [JStr "Ingeniería de Sistemas"])].

Definition estudiante_correo_partido : JsVal :=
  obj [("siglaTipoDocumento", JStr "CC"); ("nombreGenero", JStr "Femenino");
       ("nombres", JStr "Ana"); ("apellidos", JStr "Paz");
       ("numeroDocumento", JStr "1020304050"); ("fechaNacimiento", JStr "2001-02-03");
       ("correo", JStr ("a@" +:+ separador_de_linea +:+ ".b"));
       ("programaNombres", JArr [JStr "Ingeniería de Sistemas"])].

(** A body of PATCH /api/variables-cognitivas/abandonar whose identifier
    is an object. *)
Definition abandono_id_objeto : JsVal :=
  obj [("siglaDocumento", JStr "CC"); ("numeroDocumento", JStr "1020304050");
       ("idVariableCognitiva", sin_texto)].

(** The body of POST /api/entrenamientos-cognitivos/crear. *)
Definition datos_entrenamiento : JsVal :=
  obj [("siglaTipoDocEstudiante", JStr "CC"); ("numeroDocEstudiante", JStr " 1020304050");
       ("siglaTipoDocEntrenador", JStr "CC"); ("numeroDocEntrenador", JStr "79000111");
       ("variablesCognitivas", JArr [JStr " Memoria "; JStr "Atención"])].

(** The body of POST /api/entrenamientos-cognitivos/asignacion. *)
Definition datos_asignacion : JsVal :=
  obj [("estudianteId", JStr un_uuid); ("fechaInicio", JStr "2025-01-15 08:00:00");
       ("tiposVariablesCognitivasIds", JArr [JStr otro_uuid]);
       ("nivelInicial", obj []); ("metricas", obj [])].

(** A body of the same request whose start date is the JSON object
    [{"toString": 1}], which cannot be converted to a string. *)
Definition fecha_sin_texto : JsVal :=
  obj [("estudianteId", JStr un_uuid); ("fechaInicio", sin_texto);
       ("tiposVariablesCognitivasIds", JArr [JStr otro_uuid]);
       ("nivelInicial", obj []); ("metricas", obj [])].

(** A body of the same request whose second identifier is a number. *)
Definition id_numerico : JsVal :=
  obj [("estudianteId", JStr un_uuid); ("fechaInicio", JStr "2025-01-15 08:00:00");
       ("tiposVariablesCognitivasIds", JArr [JStr otro_uuid; JNum 7]);
       ("nivelInicial", obj []); ("metricas", obj [])].

(** A body of the same request whose only identifier is the object
    [{"toString": 1}]. *)
Definition id_sin_texto : JsVal :=
  obj [("estudianteId", JStr un_uuid); ("fechaInicio", JStr "2025-01-15 08:00:00");
       ("tiposVariablesCognitivasIds", JArr [sin_texto]);
       ("nivelInicial", obj []); ("metricas", obj [])].

(** The body of POST /api/sesiones/crear, without a date. *)
Definition datos_sesion : JsVal :=
  obj [("siglaTipoDocEstudiante", JStr "CC"); ("numeroDocEstudiante", JStr "1020304050");
       ("nombreVariableCognitiva", JStr "Memoria")].

(** The body of PATCH /api/variables-cognitivas/abandonar. *)
Definition datos_abandono : JsVal :=
  obj [("siglaDocumento", JStr "CC"); ("numeroDocumento", JStr "1020304050");
       ("idVariableCognitiva", JStr un_uuid)].

Definition una_variable : Request :=
  {| req_params := ∅; req_query := ∅; req_body := datos_abandono; req_user := JUndefined |}.

(** GET /api/entrenadores/facultad-entrenador/:correo *)
Definition un_correo : Request :=
  {| req_params := {[ "correo" := JStr "ana@universidad.edu.co" ]};
     req_query := ∅; req_body := JUndefined; req_user := JUndefined |}.

(** GET /api/admin/entrenadores?nombreFacultad=Ingeniería *)
Definition entrenadores_de_facultad : Request :=
  {| req_params := ∅; req_query := {[ "nombreFacultad" := JStr "Ingeniería" ]};
     req_body := JUndefined; req_user := JUndefined |}.

(** POST /api/sesiones/crear, as the token check leaves the request. *)
Definition una_sesion : Request :=
  {| req_params := ∅; req_query := ∅; req_body := datos_sesion;
     req_user := obj [("id", JStr un_uuid); ("rol", JStr "entrenador")] |}.

(** Rows of the stored functions. *)
Definition fila_con_exito : Row :=
  list_to_map [("exito", JBool true); ("mensaje", JStr "Operación realizada.")].
Definition fila_sin_exito : Row :=
  list_to_map [("exito", JBool false); ("mensaje", JStr "La variable ya fue abandonada.")].
Definition fila_no_encontrado : Row :=
  list_to_map [("exito", JBool false); ("mensaje", JStr "Entrenador No Encontrado.")].
Definition fila_registro : Row :=
  list_to_map [("estudianteId", JStr un_uuid); ("mensaje", JStr "Estudiante registrado exitosamente.")].
Definition fila_asignacion : Row :=
  {[ "mensaje" := JStr "Asignación registrada con éxito." ]}.
Definition fila_sesion_con_error : Row :=
  {[ "mensaje" := JStr "Error: la sesión no está en curso." ]}.
Definition fila_estudiante : Row :=
  list_to_map [("nombres", JStr "Ana"); ("apellidos", JStr "Paz"); ("success", JBool false)].

(** ** Vocabulary of the status codes *)

(** The status codes the application sets on an error, and all the codes
    it answers with. *)
Definition error_codes : list Z := [400; 404; 409; 500].
Definition codes : list Z := 200 :: 201 :: error_codes.

(** A status field as the application fills it: left out (or otherwise
    falsy), or one of the codes [l]. *)
Definition code_in (l : list Z) (v : JsVal) : Prop :=
  truthy v = false \/ exists n, v = JNum n /\ n ∈ l.

(** An error object whose [statusCode], if any, is one of [error_codes]
    and that has no [status]. *)
Definition tame (e : ErrObj) : Prop :=
  code_in error_codes (field e "statusCode") /\ field e "status" = JUndefined.

(** The handler answers with one of [codes], or hands a tame error to
    [next]. *)
Definition outcome_ok (o : Outcome) : Prop :=
  match o with
  | Sent s _ => exists n, s = JNum n /\ n ∈ codes
  | Next e => tame e
  end.

(** A result that satisfies [P] when it is a value and [Q] when it is an
    exception. *)
Definition Rpost {A} (P : A -> Prop) (Q : ErrObj -> Prop) (r : Res A) : Prop :=
  match r with
  | Ret a => P a
  | Throw e => Q e
  end.

Section PostVocabulary.
Context {rt : Runtime} {db : Database}.

(** The [statusCode] of a result object is one of [codes] when present. *)
Definition status_field_ok (v : JsVal) : Prop := code_in codes (get_opt v "statusCode").

(** What [m] returns satisfies [P] and what it throws satisfies [Q]. *)
Definition post {A} (P : A -> Prop) (Q : ErrObj -> Prop) (m : M A) : Prop :=
  forall st, Rpost P Q (m st).1.

End PostVocabulary.

(** * Properties *)

(** ** Reasoning about runs *)

Ltac head_of t := match t with ?f _ => head_of f | _ => t end.

Section Logic.
Context {rt : Runtime} {db : Database}.

Lemma new_events_app {A} (m : M A) st evs :
  trace (m st).2 = (trace st ++ evs)%list -> new_events m st = evs.
Proof. intros H. unfold new_events. rewrite H. apply drop_app_length. Qed.

Lemma weight_calls c1 c2 evs :
  weight (fun ev => if is_call c1 c2 ev then 1%nat else 0%nat) evs = calls c1 c2 evs.
Proof.
  unfold calls. induction evs as [|ev evs IH]; simpl; [done|].
  destruct (is_call c1 c2 ev); simpl; lia.
Qed.



Lemma silent_ret {A} (a : A) : silent (mret a : M A).
Proof. intros st. reflexivity. Qed.
Lemma silent_lift {A} (r : Res A) : silent (lift r).
Proof. intros st. reflexivity. Qed.
Lemma silent_throw {A} e : silent (throw e : M A).
Proof. intros st. reflexivity. Qed.
Lemma silent_new_Date : silent new_Date.
Proof. intros st. reflexivity. Qed.
Lemma silent_bind {A B} (m : M A) (f : A -> M B) :
  silent m -> (forall a, silent (f a)) -> silent (M_bind m f).
Proof.
  intros Hm Hf st. unfold M_bind. specialize (Hm st).
  destruct (m st) as [[a|e] st1]; simpl in *; [rewrite Hf|]; done.
Qed.
Lemma silent_try {A} (m : M A) h :
  silent m -> (forall e, silent (h e)) -> silent (try_catch m h).
Proof.
  intros Hm Hf st. unfold try_catch. specialize (Hm st).
  destruct (m st) as [[a|e] st1]; simpl in *; [|rewrite Hf]; done.
Qed.

Lemma emits_silent {A} phi w n (m : M A) : silent m -> emits phi w n m.
Proof. intros H st. exists []. rewrite H, app_nil_r. split; [done|]. split; [apply List.Forall_nil | simpl; lia]. Qed.

Lemma emits_bind_silent {A B} phi w n (m : M A) (f : A -> M B) :
  silent m -> (forall a, emits phi w n (f a)) -> emits phi w n (M_bind m f).
Proof.
  intros Hm Hf st. unfold M_bind. specialize (Hm st).
  destruct (m st) as [[a|e] st1]; simpl in *.
  - destruct (Hf a st1) as (evs & H1 & H2). exists evs. by rewrite H1, Hm.
  - exists []. rewrite Hm, app_nil_r. split; [done|]. split; [apply List.Forall_nil | simpl; lia].
Qed.

Lemma emits_bind_last {A B} phi w n (m : M A) (f : A -> M B) :
  emits phi w n m -> (forall a, silent (f a)) -> emits phi w n (M_bind m f).
Proof.
  intros Hm Hf st. unfold M_bind. destruct (Hm st) as (evs & H1 & H2).
  destruct (m st) as [[a|e] st1]; simpl in *; exists evs; [rewrite Hf|]; done.
Qed.

Lemma emits_try {A} phi w n (m : M A) h :
  emits phi w n m -> (forall e, silent (h e)) -> emits phi w n (try_catch m h).
Proof.
  intros Hm Hf st. unfold try_catch. destruct (Hm st) as (evs & H1 & H2).
  destruct (m st) as [[a|e] st1]; simpl in *; exists evs; [|rewrite Hf]; done.
Qed.

Lemma emits_query phi w n text values :
  phi (EvQuery {| sql := text; params := values |}) ->
  (w (EvQuery {| sql := text; params := values |}) <= n)%nat ->
  emits phi w n (query text values).
Proof.
  intros Hphi Hw st. unfold query.
  destruct (pool_query _ _) as [r w']. simpl.
  eexists [_]. split; [reflexivity|]. split; [by constructor|]. simpl. lia.
Qed.

Lemma emits_call {A} phi w n c1 c2 name (m : M A) :
  phi (EvCall c1 c2 name) ->
  (w (EvCall c1 c2 name) <= n)%nat ->
  emits phi w (n - w (EvCall c1 c2 name)) m -> emits phi w n (call c1 c2 name m).
Proof.
  intros Hphi Hw Hm st. unfold call.
  destruct (Hm {| world := world st; trace := (trace st ++ [EvCall c1 c2 name])%list |}) as (evs & H1 & H2 & H3).
  exists (EvCall c1 c2 name :: evs). simpl in *. rewrite H1, <- app_assoc. split; [done|].
  split; [by constructor|]. lia.
Qed.
Lemma field_insert_eq (e : ErrObj) k v : field (<[k := v]> e) k = v.
Proof. unfold field. by rewrite lookup_insert_eq. Qed.
Lemma field_insert_ne (e : ErrObj) k k' v : k <> k' -> field (<[k := v]> e) k' = field e k'.
Proof. intros. unfold field. by rewrite lookup_insert_ne. Qed.
Lemma field_singleton_eq k v : field ({[k := v]} : ErrObj) k = v.
Proof. unfold field. by rewrite lookup_singleton_eq. Qed.
Lemma field_singleton_ne k k' v : k <> k' -> field ({[k := v]} : ErrObj) k' = JUndefined.
Proof. intros. unfold field. by rewrite lookup_singleton_ne. Qed.

Lemma wf_new_Error v : wf_err (new_Error v).
Proof.
  unfold wf_err, new_Error.
  rewrite field_singleton_eq, !field_singleton_ne by done. done.
Qed.

Lemma wf_set_status n e : wf_err e -> wf_err (<["statusCode" := JNum n]> e).
Proof.
  intros (?&?&?&?). unfold wf_err.
  rewrite field_insert_eq, !field_insert_ne by done. done.
Qed.

Lemma statused_set_status n e : wf_err e -> statused (<["statusCode" := JNum n]> e).
Proof.
  intros H. split; [by apply wf_set_status|]. exists n. apply field_insert_eq.
Qed.

Lemma wf_TypeError msg : wf_err (TypeError msg).
Proof.
  unfold TypeError. pose proof (wf_new_Error (JStr msg)) as (?&?&?&?).
  unfold wf_err. rewrite !field_insert_ne by done. done.
Qed.

Lemma wf_not_a_function msg : wf_err (not_a_function msg).
Proof. apply wf_TypeError. Qed.

Lemma statused_clientError v n : statused (clientError v n).
Proof. apply statused_set_status, wf_new_Error. Qed.

Lemma wf_clientError v n : wf_err (clientError v n).
Proof. apply statused_clientError. Qed.

Lemma wf_pg_error_obj pe : wf_err (pg_error_obj pe).
Proof.
  destruct pe as [m [c|] [d|]]; unfold pg_error_obj, set_opt, wf_err; simpl;
    repeat first [ rewrite field_insert_eq | rewrite field_insert_ne by done
                 | rewrite field_singleton_eq | rewrite field_singleton_ne by done ]; done.
Qed.

Lemma statused_truthy e : wf_err e -> truthy (field e "statusCode") = true -> statused e.
Proof.
  intros Hwf Ht. split; [done|]. destruct Hwf as (_&_&_&H).
  destruct (field e "statusCode"); try done. by eexists.
Qed.

Lemma statused_with_default n e : wf_err e -> statused (with_default_status n e).
Proof.
  intros Hwf. unfold with_default_status.
  destruct (truthy (field e "statusCode")) eqn:Ht.
  - by apply statused_truthy.
  - by apply statused_set_status.
Qed.

Lemma wf_with_default n e : wf_err e -> wf_err (with_default_status n e).
Proof. intros. by apply statused_with_default. Qed.

Lemma statused_wf e : statused e -> wf_err e.
Proof. by intros []. Qed.
Lemma Rthrows_Ret {A} Q (a : A) : Rthrows Q (Ret a).
Proof. by intros e. Qed.
Lemma Rthrows_Throw {A} (Q : ErrObj -> Prop) e : Q e -> Rthrows Q (Throw e : Res A).
Proof. intros H e' [= <-]. done. Qed.
Lemma Rthrows_bind {A B} Q (r : Res A) (f : A -> Res B) :
  Rthrows Q r -> (forall a, Rthrows Q (f a)) -> Rthrows Q (Res_bind r f).
Proof. intros Hr Hf e. destruct r; simpl; [apply Hf|]. intros [= <-]. by apply Hr. Qed.
Lemma Rthrows_throwClientError {A} (Q : ErrObj -> Prop) v n :
  Q (clientError v n) -> Rthrows Q (throwClientError v n : Res A).
Proof. apply Rthrows_Throw. Qed.
Lemma Rthrows_get_prop Q v k : admits_TypeError Q -> Rthrows Q (get_prop v k).
Proof. intros H e. destruct v; simpl; try done; intros [= <-]; apply H. Qed.
Lemma Rthrows_get_index0 Q v : admits_TypeError Q -> Rthrows Q (get_index0 v).
Proof. intros H e. destruct v; simpl; try done; intros [= <-]; apply H. Qed.
Lemma Rthrows_destructure Q v : admits_TypeError Q -> Rthrows Q (destructure v).
Proof. intros H e. unfold destructure. destruct (is_nullish v); try done. intros [= <-]; apply H. Qed.
Lemma Rthrows_destructure_ok Q v : is_nullish v = false -> Rthrows Q (destructure v).
Proof. intros H e. unfold destructure. by rewrite H. Qed.
Lemma Rthrows_get_prop_ok Q v k : is_nullish v = false -> Rthrows Q (get_prop v k).
Proof. intros H e. by destruct v. Qed.
Lemma Rthrows_js_trim Q v : admits_TypeError Q -> Rthrows Q (js_trim v).
Proof. intros H e. destruct v; simpl; try done; intros [= <-]; apply H. Qed.
Lemma Rthrows_js_toLowerCase Q v : admits_TypeError Q -> Rthrows Q (js_toLowerCase v).
Proof. intros H e. destruct v; simpl; try done; intros [= <-]; apply H. Qed.
Lemma Rthrows_js_includes Q v s : admits_TypeError Q -> Rthrows Q (js_includes v s).
Proof. intros H e. destruct v; simpl; try done; intros [= <-]; apply H. Qed.
Lemma Rthrows_js_toISOString Q v : admits_TypeError Q -> Rthrows Q (js_toISOString v).
Proof. intros H e. destruct v; simpl; try done; intros [= <-]; apply H. Qed.
Lemma Rthrows_js_to_string Q v : admits_TypeError Q -> Rthrows Q (js_to_string v).
Proof. intros H e. unfold js_to_string. destruct (has_string_form v); [done|]. intros [= <-]. apply H. Qed.
Lemma Rthrows_js_to_string_ok Q v : has_string_form v = true -> Rthrows Q (js_to_string v).
Proof. intros H e. unfold js_to_string. by rewrite H. Qed.
Lemma Rthrows_Date_of Q v : admits_TypeError Q -> Rthrows Q (Date_of v).
Proof.
  intros H. destruct v; try (by intros e); simpl;
    (apply Rthrows_bind; [by apply Rthrows_js_to_string | by intros s e]).
Qed.
Lemma Rthrows_Date_of_ok Q v : has_string_form v = true -> Rthrows Q (Date_of v).
Proof.
  intros H. destruct v; try (by intros e); cbn [Date_of];
    (apply Rthrows_bind; [by apply Rthrows_js_to_string_ok | by intros s e]).
Qed.
Lemma Rthrows_mapM {A B} Q (f : A -> Res B) l :
  (forall a, Rthrows Q (f a)) -> Rthrows Q (mapM f l).
Proof.
  intros Hf. induction l as [|a l IH]; simpl; [by intros e|].
  apply Rthrows_bind; [apply Hf|]. intros b.
  apply Rthrows_bind; [apply IH|]. intros bs. by intros e.
Qed.

Lemma admits_wf : admits_TypeError wf_err.
Proof. intros msg. apply wf_TypeError. Qed.

Lemma throws_ret {A} Q (a : A) : throws Q (mret a : M A).
Proof. by intros st e st'. Qed.
Lemma throws_lift {A} Q (r : Res A) : Rthrows Q r -> throws Q (lift r).
Proof. intros H st e st' [= -> _]. by apply H. Qed.
Lemma throws_throw {A} (Q : ErrObj -> Prop) e : Q e -> throws Q (throw e : M A).
Proof. intros H st e' st' [= <- _]. done. Qed.
Lemma throws_new_Date Q : throws Q new_Date.
Proof. by intros st e st'. Qed.
Lemma throws_bind {A B} Q (m : M A) (f : A -> M B) :
  throws Q m -> (forall a, throws Q (f a)) -> throws Q (M_bind m f).
Proof.
  intros Hm Hf st e st'. unfold M_bind. destruct (m st) as [[a|e1] st1] eqn:E.
  - apply Hf.
  - intros [= <- _]. by eapply Hm.
Qed.
Lemma throws_try {A} Q (m : M A) h :
  throws wf_err m -> (forall e, wf_err e -> throws Q (h e)) -> throws Q (try_catch m h).
Proof.
  intros Hm Hh st e st'. unfold try_catch. destruct (m st) as [[a|e1] st1] eqn:E; [done|].
  eapply Hh. by eapply Hm.
Qed.
Lemma throws_query (Q : ErrObj -> Prop) text values :
  (forall pe, Q (pg_error_obj pe)) -> throws Q (query text values).
Proof.
  intros H st e st'. unfold query. destruct (pool_query _ _) as [[pe|rows] w]; [|done].
  intros [= <- _]. apply H.
Qed.
Lemma throws_call {A} Q c1 c2 name (m : M A) : throws Q m -> throws Q (call c1 c2 name m).
Proof. intros H st e st'. unfold call. apply H. Qed.
Lemma throws_bind_destructure {B} Q v (f : (string -> JsVal) -> M B) :
  is_nullish v = false -> throws Q (f (get_opt v)) -> throws Q (M_bind (lift (destructure v)) f).
Proof. intros Hv Hf. unfold destructure. rewrite Hv. exact Hf. Qed.


Lemma Rthrows_js_toLowerCase_str Q s : Rthrows Q (js_toLowerCase (JStr s)).
Proof. by intros e. Qed.

Lemma default_obj_not_nullish f :
  is_null f = false -> is_nullish (if is_undefined f then obj [] else f) = false.
Proof. by destruct f. Qed.

Lemma js_or_str v : str_or_absent v -> exists s, js_or v (JStr "") = JStr s.
Proof. destruct v; try done; unfold js_or; simpl; [by eexists|]. destruct (negb _); by eexists. Qed.

End Logic.

Create HintDb errs.
#[export] Hint Resolve wf_new_Error wf_set_status statused_set_status wf_TypeError wf_not_a_function
  statused_clientError wf_clientError wf_pg_error_obj statused_truthy statused_with_default
  wf_with_default admits_wf : errs.

Ltac unfold_head m :=
  let h := head_of m in
  is_const h;
  lazymatch h with
  | @M_bind => fail
  | @try_catch => fail
  | @query => fail
  | @call => fail
  | @Res_bind => fail
  | _ => progress unfold h
  end.

Ltac err_side := solve [ eauto with errs ].

Ltac rthrows_go :=
  intros; cbv beta zeta;
  lazymatch goal with
  | |- Rthrows _ (Ret _) => apply Rthrows_Ret
  | |- Rthrows _ (Throw _) => apply Rthrows_Throw; err_side
  | |- Rthrows _ (throwClientError _ _) => apply Rthrows_throwClientError; err_side
  | |- Rthrows _ (Res_bind _ _) => apply Rthrows_bind; rthrows_go
  | |- Rthrows _ (get_prop _ _) =>
      first [ apply Rthrows_get_prop_ok; first [assumption | apply default_obj_not_nullish; assumption] | apply Rthrows_get_prop; err_side ]
  | |- Rthrows _ (get_index0 _) => apply Rthrows_get_index0; err_side
  | |- Rthrows _ (destructure _) =>
      first [ apply Rthrows_destructure_ok; assumption | apply Rthrows_destructure; err_side ]
  | |- Rthrows _ (js_trim _) => apply Rthrows_js_trim; err_side
  | |- Rthrows _ (js_toLowerCase _) =>
      first [ apply Rthrows_js_toLowerCase_str | apply Rthrows_js_toLowerCase; err_side ]
  | |- Rthrows _ (js_includes _ _) => apply Rthrows_js_includes; err_side
  | |- Rthrows _ (js_toISOString _) => apply Rthrows_js_toISOString; err_side
  | |- Rthrows _ (js_to_string _) =>
      first [ apply Rthrows_js_to_string_ok; assumption | apply Rthrows_js_to_string; err_side ]
  | |- Rthrows _ (Date_of _) =>
      first [ apply Rthrows_Date_of_ok; assumption | apply Rthrows_Date_of; err_side ]
  | |- Rthrows _ (interpolated _) => cbn [interpolated]; rthrows_go
  | |- Rthrows _ (mapM _ _) => apply Rthrows_mapM; rthrows_go
  | |- Rthrows _ (if ?b then _ else _) =>
      let E := fresh "E" in destruct b eqn:E; try (cbn in E; discriminate E); rthrows_go
  | |- Rthrows _ (match ?x with _ => _ end) => destruct x eqn:?; rthrows_go
  | |- Rthrows _ ?m => first [ err_side | unfold_head m; rthrows_go ]
  end.

Ltac throws_go :=
  intros; cbv beta zeta;
  lazymatch goal with
  | |- throws _ (mret _) => apply throws_ret
  | |- throws _ (lift _) => apply throws_lift; rthrows_go
  | |- throws _ (throw _) => apply throws_throw; err_side
  | |- throws _ new_Date => apply throws_new_Date
  | |- throws _ (query _ _) => apply throws_query; err_side
  | |- throws _ (call _ _ _ _) => apply throws_call; throws_go
  | |- throws _ (M_bind (lift (destructure _)) _) =>
      first [ apply throws_bind_destructure; [assumption | throws_go] | apply throws_bind; throws_go ]
  | |- throws _ (M_bind _ _) => apply throws_bind; throws_go
  | |- throws _ (try_catch _ _) => apply throws_try; throws_go
  | |- throws _ (if ?b then _ else _) =>
      let E := fresh "E" in destruct b eqn:E; try (cbn in E; discriminate E); throws_go
  | |- throws _ (match ?x with _ => _ end) => destruct x eqn:?; throws_go
  | |- throws _ ?m => unfold_head m; throws_go
  end.

Ltac silent_go :=
  intros; cbv beta zeta;
  lazymatch goal with
  | |- silent (mret _) => apply silent_ret
  | |- silent (lift _) => apply silent_lift
  | |- silent (throw _) => apply silent_throw
  | |- silent new_Date => apply silent_new_Date
  | |- silent (M_bind _ _) => apply silent_bind; silent_go
  | |- silent (try_catch _ _) => apply silent_try; silent_go
  | |- silent (if ?b then _ else _) => destruct b; silent_go
  | |- silent (match ?x with _ => _ end) => destruct x; silent_go
  | |- silent ?m => unfold_head m; silent_go
  end.

Ltac emits_go side :=
  intros; cbv beta zeta;
  lazymatch goal with
  | |- emits _ _ _ (mret _) => apply emits_silent, silent_ret
  | |- emits _ _ _ (lift _) => apply emits_silent, silent_lift
  | |- emits _ _ _ (throw _) => apply emits_silent, silent_throw
  | |- emits _ _ _ (query _ _) => apply emits_query; side
  | |- emits _ _ _ (call _ _ _ _) => apply emits_call; [side | side | emits_go side]
  | |- emits _ _ _ (M_bind _ _) =>
      first [ apply emits_bind_silent; [solve [silent_go] | emits_go side]
            | apply emits_bind_last; [emits_go side | solve [silent_go]] ]
  | |- emits _ _ _ (try_catch _ _) => apply emits_try; [emits_go side | solve [silent_go]]
  | |- emits _ _ _ (if ?b then _ else _) => destruct b; emits_go side
  | |- emits _ _ _ (match ?x with _ => _ end) => destruct x; emits_go side
  | |- emits _ _ _ ?m => unfold_head m; emits_go side
  end.
Section Facts.
Context {rt : Runtime} {db : Database}.

Lemma clasificarErrorRegistro_statused e :
  wf_err e -> Rthrows statused (EntrenadorService.clasificarErrorRegistro e).
Proof.
  intros (Hm & Hc & Hd & Hs). unfold EntrenadorService.clasificarErrorRegistro.
  destruct (js_or_str _ Hm) as [s ->].
  destruct (field e "detail") eqn:Ed; try done; rthrows_go.
Qed.

Lemma clasificarErrorRelacion_statused e :
  wf_err e -> Rthrows statused (EntrenadorService.clasificarErrorRelacion e).
Proof.
  intros Hwf. pose proof Hwf as (Hm & Hc & Hd & Hs). unfold EntrenadorService.clasificarErrorRelacion.
  destruct (js_or_str _ Hm) as [s ->]. rthrows_go.
Qed.
End Facts.
#[export] Hint Resolve clasificarErrorRegistro_statused clasificarErrorRelacion_statused : errs.

(** ** The three layers, function by function *)

Ltac sql_side :=
  repeat match goal with |- context [truthy ?x] => destruct (truthy x) end;
  first [ vm_compute; reflexivity | cbv; lia ].

Ltac each_entry :=
  repeat first [ apply List.Forall_cons | apply List.Forall_nil ].

Section LayerFacts.
Context {rt : Runtime} {db : Database}.

(** Services marked [sv_status] throw nothing but errors with a numeric
    [statusCode]. *)
Lemma services_statused :
  Forall (fun s => if sv_status s then status_guaranteed s else True) services.
Proof.
  unfold services. each_entry;
    cbn [sv_status]; try exact I; unfold status_guaranteed; cbn [sv_run sv_pre];
    intros args Hpre;
    repeat match goal with
           | H : _ && _ = true |- _ => apply andb_true_iff in H as [? ?]
           | H : negb _ = true |- _ => apply negb_true_iff in H
           end;
    throws_go.
Qed.


(** A data-access function sends at most one statement, whose text is one
    of those written in it, and makes no call. *)
Lemma models_traces :
  Forall (fun f => forall args, emits (is_listed (mf_sql f)) one 1 (mf_run f args))
         model_functions.
Proof.
  unfold model_functions. each_entry; cbn [mf_sql mf_run]; emits_go sql_side.
Qed.

End LayerFacts.

(** ** Responses *)

Section Responses.
Context {rt : Runtime}.

(** C8.  [sendSuccess] answers with the given status and a body that
    starts from [{success: true, message}].  A falsy [data] (absent,
    [null], [false], [0], the empty string) adds nothing.  An array or a
    truthy primitive is stored under the key [data].  The properties of any
    other object are copied to the top level of the body, where they
    replace [success] and [message] when they carry these names. *)
Theorem sendSuccess_body (statusCode message data : JsVal) :
  let base : gmap string JsVal :=
    list_to_map [("success", JBool true); ("message", message)] in
  sendSuccess statusCode message data
  = Sent statusCode
      (JObj match data with
            | JUndefined | JNull => base
            | JBool b => if b then <[ "data" := data ]> base else base
            | JNum n => if n =? 0 then base else <[ "data" := data ]> base
            | JStr s => if String.eqb s "" then base else <[ "data" := data ]> base
            | JArr _ => <[ "data" := data ]> base
            | JObj props => props ∪ base
            | JDate _ => base
            end)
  /\ base !! "data" = None
  /\ forall (props : gmap string JsVal) (k : string),
       (props ∪ base) !! k = match props !! k with
                             | Some v => Some v
                             | None => base !! k
                             end.
Proof.
  intros base. split; [|split].
  - unfold sendSuccess.
    destruct data as [| |[]|n|s|l|props|t]; simpl; try reflexivity.
    + by destruct (n =? 0).
    + by destruct (String.eqb s "").
  - reflexivity.
  - intros props k. rewrite lookup_union. by destruct (props !! k), (base !! k).
Qed.

End Responses.

(** ** Dates *)

Section Dates.
Context {rt : Runtime}.

Ltac shape_case := cbn -[is_digit]; unfold is_char; btauto.

Lemma date_shape_spelled s : match_shape date_shape s = is_iso_date s.
Proof.
  unfold is_iso_date.
  do 10 (destruct s as [|? s]; [shape_case|]).
  destruct s; shape_case.
Qed.

Lemma datetime_shape_spelled s : match_shape datetime_shape s = is_date_time s.
Proof.
  unfold is_date_time.
  do 19 (destruct s as [|? s]; [shape_case|]).
  destruct s; shape_case.
Qed.

(** C10.  [isValidDateString] accepts a string exactly when it has the
    shape of four digits, hyphen, two digits, hyphen, two digits, it parses
    to a date, and the first ten characters of the ISO form of that date
    are the string again.  [isValidDateTimeString] accepts a string
    exactly when it has the date-and-time shape and parses to a date; it
    compares nothing afterwards.  On a string both return, they do not
    throw.  On the engine [Node.runtime] the string
    2024-02-31 parses (to the second of March) and [isValidDateString]
    rejects it, while [isValidDateTimeString] accepts
    2024-02-31 10:00:00. *)
Theorem isValidDateString_round_trip (s : string) :
  (EstudianteService.isValidDateString (JStr s) = Ret true
   <-> is_iso_date s = true
       /\ exists t, Date_parse s = Some t /\ str_slice0 10 (Date_toISOString t) = s)
  /\ (EntrenamientoCognitivoService.isValidDateTimeString (JStr s) = Ret true
      <-> is_date_time s = true /\ exists t, Date_parse s = Some t)
  /\ (Node.node_Date_toISOString <$> Node.node_Date_parse "2024-02-31"
        = Some "2024-03-02T00:00:00.000Z"
      /\ @EstudianteService.isValidDateString Node.runtime (JStr "2024-02-31") = Ret false
      /\ @EntrenamientoCognitivoService.isValidDateTimeString Node.runtime
           (JStr "2024-02-31 10:00:00") = Ret true)
  /\ (exists b, EstudianteService.isValidDateString (JStr s) = Ret b)
  /\ (exists b, EntrenamientoCognitivoService.isValidDateTimeString (JStr s) = Ret b).
Proof.
  split; [|split; [|split; [|split]]].
  - unfold EstudianteService.isValidDateString, js_to_string.
    cbn [has_string_form string_form Date_of Res_bind].
    rewrite date_shape_spelled.
    destruct (is_iso_date s); simpl; [|by split; [|intros []]].
    destruct (Date_parse s) as [t|]; simpl.
    + split.
      * intros [= H%String.eqb_eq]. split; [done|]. by exists t.
      * intros (_ & t' & [= <-] & H). f_equal. by apply String.eqb_eq.
    + split; [done|]. by intros (_ & t' & [=] & _).
  - unfold EntrenamientoCognitivoService.isValidDateTimeString, js_to_string.
    cbn [has_string_form string_form Date_of Res_bind].
    rewrite datetime_shape_spelled.
    destruct (is_date_time s); simpl; [|by split; [|intros []]].
    destruct (Date_parse s) as [t|]; simpl.
    + split; [|done].
      intros _. split; [done|]. by exists t.
    + split; [done|].
      by intros (_ & t' & [=]).
  - by vm_compute.
  - unfold EstudianteService.isValidDateString, js_to_string.
    cbn [has_string_form string_form Date_of Res_bind].
    destruct (negb _); by eexists.
  - unfold EntrenamientoCognitivoService.isValidDateTimeString, js_to_string.
    cbn [has_string_form string_form Date_of Res_bind].
    destruct (negb _); by eexists.
Qed.

End Dates.

(** ** Routes *)

Section RouteFacts.
Import Routes.

(** C2, as stated, fails on the route that creates a training: its chain
    is the token check alone. *)
Lemma crear_route_has_no_role_gate :
  chain <$> find_route POST "/api/entrenamientos-cognitivos/crear" = Some [verificarToken]
  /\ role_gated <$> find_route POST "/api/entrenamientos-cognitivos/crear" = Some false.
Proof. split; reflexivity. Qed.

(** C2, amended.  Of the 39 registered routes, the test route and the two
    login routes run no middleware.  Every other route runs
    [verificarToken] first; on 16 of them a role gate follows
    immediately, [isAdmin] on the routes under /api/admin and only there,
    [isEntrenador] elsewhere; the chain of each of the remaining 20 is
    [verificarToken] alone. *)
Theorem routes_token_then_role :
  Forall (fun r =>
            if is_open r then chain r = []
            else match role_of r with
                 | Some gate =>
                     take 2 (chain r) = [verificarToken; gate]
                     /\ bool_decide (gate = isAdmin) = String.prefix "/api/admin/" (url r)
                 | None => chain r = [verificarToken]
                 end)
         routes
  /\ length routes = 39%nat
  /\ length (List.filter is_open routes) = 3%nat
  /\ length (List.filter role_gated routes) = 16%nat
  /\ length (List.filter (fun r => bool_decide (role_of r = Some isAdmin)) routes) = 6%nat
  /\ length (List.filter (fun r => bool_decide (role_of r = Some isEntrenador)) routes) = 10%nat
  /\ length token_only = 20%nat.
Proof.
  split; [|by vm_compute].
  cbv [routes app_routes authRoutes adminRoutes tipoDocumentoRoutes facultadRoutes
       entrenamientoCognitivoRoutes estudianteRoutes utilidadesRoutes entrenadorRoutes
       variablesCognitivasRoutes sesionRoutes app].
  each_entry; by vm_compute.
Qed.

End RouteFacts.

(** ** Controllers *)

Section ControllerFacts.
Context {rt : Runtime} {db : Database}.





End ControllerFacts.

Section ControllerRuns.
#[local] Existing Instance Node.runtime.
#[local] Existing Instance Scripted.database.



End ControllerRuns.


(** ** Services *)

Section ServiceFacts.
Context {rt : Runtime} {db : Database}.

Lemma unmarked_services :
  Forall (fun s => if sv_status s then True
                   else existsb (String.eqb (sv_name s))
                          ["registrarNuevaAsignacionService"; "actualizarGenero";
                           "modificarInformacionEntrenador"; "obtenerFacultadesPorEmailService"]
                        = true)
         services.
Proof. unfold services. each_entry; cbn [sv_status sv_name]; done. Qed.

(** C5, amended.  Let a service of the service files be called with the
    arguments it takes apart before its [try] present, and with the values
    it converts to a string before its [try] such that they can be
    converted ([sv_pre]).  Whatever
    it throws carries a numeric [statusCode], unless the service is one of
    [registrarNuevaAsignacionService], [actualizarGenero],
    [modificarInformacionEntrenador] and
    [obtenerFacultadesPorEmailService], which can throw an error without
    one. *)
Theorem services_throw_with_status
    (i : nat) (s : ServiceFn) (args : list JsVal) (st st' : St) (e : ErrObj) :
  services !! i = Some s ->
  sv_pre s args = true ->
  sv_run s args st = (Throw e, st') ->
  (exists n, field e "statusCode" = JNum n)
  \/ existsb (String.eqb (sv_name s))
       ["registrarNuevaAsignacionService"; "actualizarGenero";
        "modificarInformacionEntrenador"; "obtenerFacultadesPorEmailService"] = true.
Proof.
  intros Hi Hpre Hrun.
  pose proof (Forall_lookup_1 _ _ _ _ services_statused Hi) as Hs.
  pose proof (Forall_lookup_1 _ _ _ _ unmarked_services Hi) as Hn.
  cbv beta in Hs, Hn. destruct (sv_status s); [left|by right].
  by destruct (Hs args Hpre st e st' Hrun) as [_ Hstatus].
Qed.

End ServiceFacts.

Section ServiceRuns.
#[local] Existing Instance Node.runtime.
#[local] Existing Instance Scripted.database.

(** C5, as stated, fails on [modificarInformacionEntrenador]: when the
    database rejects the statement, the service throws a new [Error] that has
    a message and no [statusCode]. *)
Lemma modificar_entrenador_throws_plain_error :
  let r :=
    (@EntrenadorService.modificarInformacionEntrenador Node.runtime Scripted.database
       (JStr un_uuid) (obj [("pNuevosNombres", JStr "Ana")])
       (Scripted.start [inl sin_conexion])).1 in
  r = Throw {[ "message" := JStr "Ocurrió un error inesperado en el servidor." ]}
  /\ field (thrown r) "statusCode" = JUndefined.
Proof. by vm_compute. Qed.

Lemma services_throw_with_status_witness :
  let r :=
    (@EntrenamientoCognitivoService.iniciarSesion Node.runtime Scripted.database
       (JStr un_uuid) (Scripted.start [inl sin_conexion])).1 in
  (exists n, field (thrown r) "statusCode" = JNum n)
  \/ existsb (String.eqb "iniciarSesion")
       ["registrarNuevaAsignacionService"; "actualizarGenero";
        "modificarInformacionEntrenador"; "obtenerFacultadesPorEmailService"] = true.
Proof.
  intros r.
  refine (@services_throw_with_status Node.runtime Scripted.database 7%nat _
            [JStr un_uuid]
            (Scripted.start [inl sin_conexion])
            (@EntrenamientoCognitivoService.iniciarSesion Node.runtime Scripted.database
               (JStr un_uuid)
               (Scripted.start [inl sin_conexion])).2
            (thrown r) eq_refl _ _).
  - reflexivity.
  - vm_compute. reflexivity.
Defined.

End ServiceRuns.


(** ** Data access *)

Section ModelLogic.
Context {rt : Runtime} {db : Database}.






End ModelLogic.




Section ModelFacts.
Context {rt : Runtime} {db : Database}.




End ModelFacts.

Section ModelRuns.
#[local] Existing Instance Node.runtime.
#[local] Existing Instance Scripted.database.



End ModelRuns.


Section StatementFacts.
Context {rt : Runtime} {db : Database}.

Lemma listed_statement texts evs j q :
  Forall (is_listed texts) evs ->
  statements evs !! j = Some q ->
  existsb (String.eqb (sql q)) texts = true.
Proof.
  intros Hall Hj. apply list_elem_of_lookup_2 in Hj.
  unfold statements in Hj. apply list_elem_of_omap in Hj as (ev & Hev & Heq).
  rewrite Forall_forall in Hall. specialize (Hall ev Hev).
  destruct ev as [q'|]; [|done]. by injection Heq as ->.
Qed.

Lemma texts_classified :
  Forall (fun f =>
            if String.eqb (mf_name f) "crearEntrenadorEntrenamiento" then True
            else Forall (fun text =>
                           is_select text = true /\ is_dml text = false
                           /\ if mf_mutating f then calls_stored_function text = true else True)
                        (mf_sql f))
         model_functions.
Proof.
  unfold model_functions. each_entry; cbn [mf_name mf_sql mf_mutating]; by vm_compute.
Qed.

(** C6, amended.  Leaving aside [crearEntrenadorEntrenamiento], every
    statement a function of the data-access files sends is a [SELECT] whose
    text names no [INSERT], [UPDATE] or [DELETE]; and when the function is
    one that changes data ([mf_mutating]), the statement calls a stored
    function of the CC schema with the UFT or UFS suffix. *)
Theorem statements_call_stored_functions
    (i : nat) (f : ModelFn) (args : list JsVal) (st : St) (j : nat) (q : Query) :
  model_functions !! i = Some f ->
  String.eqb (mf_name f) "crearEntrenadorEntrenamiento" = false ->
  statements (new_events (mf_run f args) st) !! j = Some q ->
  is_select (sql q) = true /\ is_dml (sql q) = false
  /\ if mf_mutating f then calls_stored_function (sql q) = true else True.
Proof.
  intros Hi Hname Hj.
  pose proof (Forall_lookup_1 _ _ _ _ models_traces Hi args st) as (evs' & Hevs & Hphi & Hw).
  pose proof (Forall_lookup_1 _ _ _ _ texts_classified Hi) as Hc.
  cbv beta in Hc. rewrite Hname in Hc.
  rewrite (new_events_app _ _ _ Hevs) in Hj.
  pose proof (listed_statement _ _ _ _ Hphi Hj) as Hin.
  apply existsb_exists in Hin as (text & Hin & Heq).
  apply String.eqb_eq in Heq. rewrite Heq.
  rewrite List.Forall_forall in Hc. by apply Hc.
Qed.

End StatementFacts.

Section StatementRuns.
#[local] Existing Instance Node.runtime.
#[local] Existing Instance Scripted.database.

(** C6, as stated, fails on [crearEntrenadorEntrenamiento]: the one
    statement it sends is an [INSERT] into the table
    CC.entrenadorentrenamiento, not a call of a stored function. *)
Lemma crearEntrenadorEntrenamiento_inserts :
  (fun q => (str_includes "INSERT INTO CC.entrenadorentrenamiento" (sql q),
             is_dml (sql q), is_select (sql q), calls_stored_function (sql q)))
  <$> statements
        (new_events
           (@EntrenadorModel.crearEntrenadorEntrenamiento Node.runtime Scripted.database
              (JStr un_uuid)
              (JStr otro_uuid))
           (Scripted.start [inr []]))
  = [(true, true, false, false)].
Proof. by vm_compute. Qed.

Lemma statements_call_stored_functions_witness :
  let q := {| sql := "SELECT * FROM CC.IniciarSesionEntrenamientoUFT($1);";
              params := [JStr un_uuid] |} in
  is_select (sql q) = true /\ is_dml (sql q) = false
  /\ calls_stored_function (sql q) = true.
Proof.
  intros q.
  refine (@statements_call_stored_functions Node.runtime Scripted.database 25%nat _
            [JStr un_uuid] (Scripted.start [inr []])
            0%nat q eq_refl _ _).
  - reflexivity.
  - vm_compute. reflexivity.
Defined.

End StatementRuns.


(** ** Validation before the database *)

(** The cases of [validaciones_asignacion], side by side with those of
    the service. *)
Ltac head_case V tac :=
  lazymatch V with
  | if ?b then _ else _ => destruct b; [tac|]
  | match EntrenamientoCognitivoService.primer_id_invalido ?l with _ => _ end =>
      destruct (EntrenamientoCognitivoService.primer_id_invalido l)
  | Res_bind ?r _ =>
      lazymatch type of r with
      | Js.Res bool => destruct r as [[]|?]; cbv beta iota delta [Res_bind]; [tac| |tac]
      | _ => destruct r as [?|?]; cbv beta iota delta [Res_bind]; [tac|tac]
      end
  end.

Ltac asignacion_case tac :=
  match goal with
  | |- ?V = _ -> _ => head_case V tac
  | |- match ?V with _ => _ end => head_case V tac
  end.

Section ValidationFacts.
Context {rt : Runtime} {db : Database}.

Import EntrenamientoCognitivoService.

Lemma failure_fields message :
  get_opt (failure message 400) "success" = JBool false
  /\ get_opt (failure message 400) "statusCode" = JNum 400.
Proof. by vm_compute. Qed.

Lemma validarDatosCrearEntrenamiento_error datos v :
  validarDatosCrearEntrenamiento datos = Ret v -> truthy v = true ->
  exists message, v = failure message 400.
Proof.
  unfold validarDatosCrearEntrenamiento, destructure.
  destruct (is_nullish datos); [done|]. cbn [Res_bind].
  repeat (match goal with |- context [if blank ?x then _ else _] => destruct (blank x) end;
          [intros [= <-] _; by eexists|]).
  match goal with |- context [Res_bind ?r _] => destruct r as [[]|e] end; cbn [Res_bind];
    [intros [= <-] _; by eexists| |done].
  repeat (match goal with |- context [if ?b then _ else _] => destruct b end;
          [intros [= <-] _; by eexists|]).
  by intros [= <-].
Qed.

(** On an object whose end date can be converted to a string,
    [validarDatosCrearEntrenamiento] does not throw: it returns an error
    object or [null]. *)
Lemma validarDatosCrearEntrenamiento_total datos :
  is_nullish datos = false ->
  has_string_form (get_opt datos "fechaFinEntrenamiento") = true ->
  exists v, validarDatosCrearEntrenamiento datos = Ret v
            /\ (v = JNull \/ exists message, v = failure message 400).
Proof.
  intros Hd Hf. unfold validarDatosCrearEntrenamiento, destructure. rewrite Hd. cbn [Res_bind].
  repeat (match goal with |- context [if blank ?x then _ else _] => destruct (blank x) end;
          [eexists; split; [reflexivity|]; right; by eexists|]).
  assert (exists b, (if truthy (get_opt datos "fechaFinEntrenamiento")
                     then Res_bind (isValidDateTimeString (get_opt datos "fechaFinEntrenamiento"))
                            (fun valida => Ret (negb valida))
                     else Ret false) = Ret b) as [b ->].
  { destruct (truthy _); [|by eexists].
    unfold isValidDateTimeString, js_to_string. rewrite Hf. cbn [Res_bind].
    destruct (negb _); cbn [Res_bind]; [by eexists|].
    assert (exists o, Date_of (get_opt datos "fechaFinEntrenamiento") = Ret o) as [o ->].
    { destruct (get_opt datos "fechaFinEntrenamiento"); cbn [Date_of]; try (by eexists);
        unfold js_to_string; rewrite Hf; by eexists. }
    by eexists. }
  cbn [Res_bind].
  repeat (match goal with |- context [if ?b then _ else _] => destruct b end;
          [eexists; split; [reflexivity|]; right; by eexists|]).
  eexists; split; [reflexivity|]. by left.
Qed.

Lemma validaciones_asignacion_error datos v :
  validaciones_asignacion datos = Ret (Some v) -> exists message, v = failure message 400.
Proof.
  unfold validaciones_asignacion.
  repeat asignacion_case ltac:(try discriminate; try (intros [= <-]; by eexists)).
  done.
Qed.

(** What [registrarNuevaAsignacionService] does when its validation comes
    to no pass: it returns the error object, or throws the exception of
    the validation, and leaves the state as it was. *)
Lemma registrarNuevaAsignacionService_stops datos st :
  is_nullish datos = false ->
  match validaciones_asignacion datos with
  | Ret (Some v) => registrarNuevaAsignacionService datos st = (Ret v, st)
  | Ret None => True
  | Throw e => registrarNuevaAsignacionService datos st = (Throw e, st)
  end.
Proof.
  intros Hd. unfold registrarNuevaAsignacionService, validaciones_asignacion, destructure.
  rewrite Hd. unfold M_bind, lift, mret, M_ret.
  repeat asignacion_case ltac:(reflexivity).
  done.
Qed.

Lemma registrarNuevaAsignacionService_rejects datos v st :
  is_nullish datos = false -> validaciones_asignacion datos = Ret (Some v) ->
  registrarNuevaAsignacionService datos st = (Ret v, st).
Proof.
  intros Hd Hv. pose proof (registrarNuevaAsignacionService_stops datos st Hd) as H.
  by rewrite Hv in H.
Qed.

(** X29.  When the validation of [crearNuevoEntrenamientoCognitivo]
    ([validarDatosCrearEntrenamiento]) or the checks at the head of
    [registrarNuevaAsignacionService] come to an error object, the
    service returns that object, which has [success: false] and
    [statusCode: 400], and the state after the call is the state before
    it: no statement was sent and the database is unchanged.  (A
    validation that throws before it has an error object is the subject
    of [asignacion_id_objeto_throws] and of
    [validation_exception_leaves_database] below.) *)
Theorem validation_failure_leaves_database
    (op : Validated) (datos : JsVal) (v : JsVal) (st : St) :
  validation_error op datos = Some v ->
  run_validated op datos st = (Ret v, st)
  /\ get_opt v "success" = JBool false
  /\ get_opt v "statusCode" = JNum 400.
Proof.
  destruct op; simpl.
  - destruct (validarDatosCrearEntrenamiento datos) as [v'|e] eqn:Hv; [|done].
    destruct (truthy v') eqn:Ht; [|done]. intros [= <-].
    destruct (validarDatosCrearEntrenamiento_error _ _ Hv Ht) as [message ->].
    split; [|apply failure_fields].
    unfold crearNuevoEntrenamientoCognitivo, try_catch, M_bind, lift.
    by rewrite Hv, Ht.
  - destruct (is_nullish datos) eqn:Hd; [done|].
    destruct (validaciones_asignacion datos) as [[v'|]|e] eqn:Hv; try done. intros [= ->].
    destruct (validaciones_asignacion_error _ _ Hv) as [message ->].
    split; [|apply failure_fields].
    by apply registrarNuevaAsignacionService_rejects.
Qed.

Lemma call_then_silent {A B} c1 c2 name (m : M A) (k : A -> M B) h st :
  emits (fun _ => True) (fun _ => 0%nat) 0 m ->
  (forall a, silent (k a)) -> (forall e, silent (h e)) ->
  head (new_events (try_catch (M_bind (call c1 c2 name m) k) h) st) = Some (EvCall c1 c2 name).
Proof.
  intros Hm Hk Hh.
  assert (silent_after : forall st1 : St,
            trace (try_catch (M_bind m k) h st1).2 = trace (m st1).2).
  { intros st1. unfold try_catch, M_bind.
    destruct (m st1) as [[a|e] st2]; simpl.
    - pose proof (Hk a st2) as Hka. destruct (k a st2) as [[b|e] st3]; simpl in *; [done|].
      by rewrite Hh.
    - by rewrite Hh. }
  unfold new_events.
  change (try_catch (M_bind (call c1 c2 name m) k) h st)
    with (try_catch (M_bind m k) h
            {| world := world st; trace := (trace st ++ [EvCall c1 c2 name])%list |}).
  rewrite silent_after.
  destruct (Hm {| world := world st; trace := (trace st ++ [EvCall c1 c2 name])%list |})
    as (evs & -> & _). simpl.
  by rewrite <- app_assoc, drop_app_length.
Qed.

(** When none of its checks fails, [registrarNuevaAsignacionService] does
    go to the data-access layer. *)
Lemma registrarNuevaAsignacionService_proceeds datos st :
  is_nullish datos = false -> validaciones_asignacion datos = Ret None ->
  head (new_events (registrarNuevaAsignacionService datos) st)
  = Some (EvCall Service Model "registrarEntrenamientoAsignacionDB").
Proof.
  intros Hd. unfold registrarNuevaAsignacionService, validaciones_asignacion, destructure.
  rewrite Hd.
  change (M_bind (lift (Ret (get_opt datos))) ?f) with (f (get_opt datos)).
  cbv beta zeta.
  repeat asignacion_case ltac:(done).
  change (M_bind (lift (Ret false)) ?f) with (f false). cbv beta iota.
  repeat match goal with
         | |- context [if ?b then _ else _] => destruct b; [done|]
         end.
  intros _. apply call_then_silent.
  - emits_go ltac:(first [ exact I | cbv; lia ]).
  - silent_go.
  - silent_go.
Qed.

End ValidationFacts.

Section ValidationRuns.
#[local] Existing Instance Node.runtime.
#[local] Existing Instance Scripted.database.

Lemma validation_failure_leaves_database_witness :
  let v :=
    EntrenamientoCognitivoService.failure
      (JStr "El ID de tipo de variable cognitiva '7' no es un UUID válido.") 400 in
  @run_validated Node.runtime Scripted.database RegistrarAsignacion id_numerico (Scripted.start [])
  = (Ret v, Scripted.start [])
  /\ get_opt v "success" = JBool false
  /\ get_opt v "statusCode" = JNum 400.
Proof.
  intros v.
  apply (@validation_failure_leaves_database Node.runtime Scripted.database
           RegistrarAsignacion id_numerico v (Scripted.start [])).
  vm_compute. reflexivity.
Defined.

(** C9, at the input where it fails.  In the body [id_sin_texto] the only
    identifier of [tiposVariablesCognitivasIds] is the object
    [{"toString": 1}].  [isValidUUID] rejects it, so the validation of
    [registrarNuevaAsignacionService] fails; but the message of the error
    object interpolates the identifier, which cannot be converted to a
    string.  The service returns no object with [statusCode] 400: it
    throws a TypeError that has no [statusCode].  No statement is sent
    and the state is unchanged. *)
Theorem asignacion_id_objeto_throws :
  let ids := elements (get_opt id_sin_texto "tiposVariablesCognitivasIds") in
  let r := @run_validated Node.runtime Scripted.database RegistrarAsignacion id_sin_texto
             (Scripted.start []) in
  EntrenamientoCognitivoService.isValidUUID (get_opt id_sin_texto "estudianteId") = true
  /\ EntrenamientoCognitivoService.primer_id_invalido ids = Some sin_texto
  /\ (exists msg, r.1 = Throw (TypeError msg))
  /\ field (thrown r.1) "statusCode" = JUndefined
  /\ validation_error RegistrarAsignacion id_sin_texto = None
  /\ r.2 = Scripted.start [].
Proof.
  cbv zeta. repeat split; try (vm_compute; reflexivity).
  eexists. vm_compute. reflexivity.
Qed.

End ValidationRuns.


(** ** Messages of the database and status codes *)

Section MessageFacts.
Context {rt : Runtime} {db : Database}.

Import EntrenamientoCognitivoService.

Lemma validarDatosModificarEntrenamiento_ok datos :
  validarDatosModificarEntrenamiento datos = Ret tt -> is_nullish datos = false.
Proof. unfold validarDatosModificarEntrenamiento, destructure. by destruct (is_nullish datos). Qed.

(** C1, amended.  Let the input pass [validarDatosModificarEntrenamiento]
    and the database answer the statement with rows.
    [modificarEntrenamientoCognitivo] decides by the [mensaje] of the first
    row: it returns the row when the message is missing, empty, or
    contains [exitosamente] once lower-cased; otherwise it throws a client
    error with that message, with [statusCode] 404 when the lower-cased
    message contains [no tiene un entrenamiento] and 400 if not.  And
    [manejarRespuestaCrearEntrenamiento], for a message that is a string,
    returns [statusCode] 201 when it contains [exitosamente], else 409 when
    it contains [ya tiene un entrenamiento], else 400. *)
Theorem message_decides_status
    (sigla numero datos : JsVal) (st : St) (row : Row) (rest : list Row) :
  validarDatosModificarEntrenamiento datos = Ret tt ->
  (forall q, answer_to q st = inr (row :: rest)) ->
  (modificarEntrenamientoCognitivo sigla numero datos st).1 = outcome_for row
  /\ forall (resultado : gmap string JsVal) (s : string),
       field resultado "mensaje" = JStr s ->
       exists v,
         manejarRespuestaCrearEntrenamiento (JObj resultado) = Ret v
         /\ get_opt v "statusCode"
            = JNum (if str_includes "exitosamente" s then 201
                    else if str_includes "ya tiene un entrenamiento" s then 409
                    else 400).
Proof.
  intros Hv Hq. split.
  - pose proof (validarDatosModificarEntrenamiento_ok _ Hv) as Hd.
    unfold modificarEntrenamientoCognitivo, try_catch, M_bind, lift.
    rewrite Hv. unfold prepararDatosModificacionParaDB, destructure. rewrite Hd.
    cbn [Res_bind]. unfold call.
    unfold EntrenamientoModel.modificarEntrenamientoCognitivoDB, destructure.
    cbn [is_nullish obj]. unfold M_bind, lift, rethrowing, try_catch, query.
    cbn [world trace].
    match goal with |- context [pool_query ?q ?w] =>
      pose proof (Hq q) as Hq'; unfold answer_to in Hq'; cbn [world] in Hq';
      destruct (pool_query q w) as [r w'] end.
    simpl in Hq'. subst r. unfold mret, M_ret. cbn [fst snd].
    unfold manejarRespuestaModificarEntrenamiento, outcome_for, get_prop, field.
    generalize (default JUndefined (row !! "mensaje")). intros mensaje.
    destruct mensaje as [| |[]|n|s|l|m|t]; try reflexivity.
    + cbn. by destruct (n =? 0).
    + cbn [truthy js_toLowerCase Res_bind].
      destruct (String.eqb s ""); cbn [negb orb Res_bind]; [reflexivity|].
      destruct (str_includes "exitosamente" (toLowerCase s)); [reflexivity|].
      by destruct (str_includes "no tiene un entrenamiento" (toLowerCase s)).
  - intros resultado s Hs.
    unfold manejarRespuestaCrearEntrenamiento, destructure. cbn [is_nullish Res_bind get_opt].
    rewrite Hs. unfold and_includes. cbn [truthy js_includes].
    destruct (String.eqb s "") eqn:Hempty; cbn [negb Res_bind].
    + apply String.eqb_eq in Hempty as ->. eexists. split; [reflexivity|]. reflexivity.
    + destruct (str_includes "exitosamente" s); [eexists; split; reflexivity|].
      destruct (str_includes "ya tiene un entrenamiento" s); cbn [Res_bind].
      * eexists; split; reflexivity.
      * destruct (str_includes "Error" s); eexists; split; reflexivity.
Qed.

End MessageFacts.

Section MessageRuns.
#[local] Existing Instance Node.runtime.
#[local] Existing Instance Scripted.database.

(** C1, as stated, fails on a row whose message is empty or [NULL]:
    nothing in it contains [exitosamente], and the service returns the row
    as a success. *)
Lemma empty_message_is_success :
  str_includes "exitosamente" (Node.node_toLowerCase "") = false
  /\ (@EntrenamientoCognitivoService.modificarEntrenamientoCognitivo
        Node.runtime Scripted.database (JStr "CC") (JStr "1020304050") (obj [])
        (Scripted.start [inr [fila_mensaje_vacio]])).1 = Ret (JObj fila_mensaje_vacio)
  /\ (@EntrenamientoCognitivoService.modificarEntrenamientoCognitivo
        Node.runtime Scripted.database (JStr "CC") (JStr "1020304050") (obj [])
        (Scripted.start [inr [fila_sin_mensaje]])).1 = Ret (JObj fila_sin_mensaje).
Proof. by vm_compute. Qed.

Lemma message_decides_status_witness :
  (@EntrenamientoCognitivoService.modificarEntrenamientoCognitivo
     Node.runtime Scripted.database (JStr "CC") (JStr "1020304050") (obj [])
     (Scripted.start [inr [fila_sin_entrenamiento]])).1
  = @outcome_for Node.runtime fila_sin_entrenamiento.
Proof.
  refine (proj1 (@message_decides_status Node.runtime Scripted.database
                   (JStr "CC") (JStr "1020304050") (obj [])
                   (Scripted.start [inr [fila_sin_entrenamiento]])
                   fila_sin_entrenamiento [] _ _)).
  - reflexivity.
  - intros q. reflexivity.
Defined.

End MessageRuns.


(** * End-to-end properties *)

(** ** Reading the trace of a composed run *)

Section TraceToolkit.
Context {rt : Runtime} {db : Database}.

Lemma weight_statements evs : weight statement_count evs = length (statements evs).
Proof.
  unfold statements. induction evs as [|[q|c1 c2 name] evs IH]; simpl; [done| |done].
  by rewrite IH.
Qed.

Lemma new_events_try {A} (m : M A) h st :
  (forall e, silent (h e)) -> new_events (try_catch m h) st = new_events m st.
Proof.
  intros Hh. unfold new_events, try_catch.
  destruct (m st) as [[a|e] st1]; simpl; [done|]. by rewrite Hh.
Qed.

Lemma new_events_bind {A B} (m : M A) (f : A -> M B) st :
  (forall a, silent (f a)) -> new_events (M_bind m f) st = new_events m st.
Proof.
  intros Hf. unfold new_events, M_bind.
  destruct (m st) as [[a|e] st1]; simpl; [|done]. by rewrite Hf.
Qed.

Lemma new_events_call {A} c1 c2 name (m : M A) st :
  emits any_event statement_count 1 m ->
  new_events (call c1 c2 name m) st
  = EvCall c1 c2 name
    :: new_events m {| world := world st; trace := (trace st ++ [EvCall c1 c2 name])%list |}.
Proof.
  intros Hm. unfold new_events, call.
  destruct (Hm {| world := world st; trace := (trace st ++ [EvCall c1 c2 name])%list |})
    as (evs & -> & _). simpl.
  rewrite drop_app_length, <- app_assoc. by rewrite drop_app_length.
Qed.

Lemma new_events_query {A} text values (k : list Row -> M A) st :
  (forall rows, silent (k rows)) ->
  new_events (rethrowing (M_bind (query text values) k)) st
  = [EvQuery {| sql := text; params := values |}].
Proof.
  intros Hk. unfold new_events, rethrowing, try_catch, M_bind, query, throw, lift.
  destruct (pool_query _ (world st)) as [[pe|rows] w]; simpl.
  - by rewrite drop_app_length.
  - pose proof (Hk rows {| world := w; trace := (trace st ++ [EvQuery {| sql := text; params := values |}])%list |}) as Hs.
    destruct (k rows _) as [[a|e] st1]; simpl in *; by rewrite Hs, drop_app_length.
Qed.

(** [fecha || new Date()] in front of a continuation. *)
Lemma new_events_now {A} (b : bool) (a : JsVal) (k : JsVal -> M A) st :
  new_events (M_bind (if b then mret a else new_Date) k) st
  = new_events (k (if b then a else JDate (clock (world st)))) st.
Proof. by destruct b. Qed.

End TraceToolkit.

(** The side conditions of the lemmas above. *)
Ltac trace_side := first [ silent_go | emits_go ltac:(first [ exact I | cbv; lia ]) ].

Ltac step_lift :=
  repeat (progress (change (M_bind (lift (Ret ?a)) ?f) with (f a); cbv beta zeta)).

(** ** One request, one statement *)

Section TraceFacts.
Context {rt : Runtime} {db : Database}.

Lemma services_statements :
  Forall (fun s => forall args, emits service_event statement_count 1 (sv_run s args)) services.
Proof.
  unfold services. each_entry; cbn [sv_run]; emits_go ltac:(first [ exact I | cbv; lia ]).
Qed.

Lemma services_calls :
  Forall (fun s => forall args, emits service_event data_access_call 1 (sv_run s args)) services.
Proof.
  unfold services. each_entry; cbn [sv_run]; emits_go ltac:(first [ exact I | cbv; lia ]).
Qed.

Lemma controllers_statements :
  Forall (fun h => forall req, emits any_event statement_count 1 (h_run h req)) controllers.
Proof.
  unfold controllers. each_entry; cbn [h_run]; emits_go ltac:(first [ exact I | cbv; lia ]).
Qed.

(** X1.  A function of the service files reaches the database at most once:
    whatever its arguments and however it ends, it makes at most one call
    into the data-access layer and at most one statement is sent; and it
    calls nothing but the data-access layer (no other service, no
    handler). *)
Theorem services_reach_database_once (i : nat) (s : ServiceFn) (args : list JsVal) (st : St) :
  services !! i = Some s ->
  let evs := new_events (sv_run s args) st in
  (calls Service Model evs <= 1)%nat
  /\ (length (statements evs) <= 1)%nat
  /\ Forall service_event evs.
Proof.
  intros Hi evs.
  pose proof (Forall_lookup_1 _ _ _ _ services_statements Hi args st) as (evs1 & H1 & Hphi & Hw1).
  pose proof (Forall_lookup_1 _ _ _ _ services_calls Hi args st) as (evs2 & H2 & _ & Hw2).
  subst evs. rewrite (new_events_app _ _ _ H1).
  split; [|split; [by rewrite <- weight_statements | done]].
  rewrite <- (new_events_app _ _ _ H1), (new_events_app _ _ _ H2).
  by rewrite <- weight_calls.
Qed.

(** X2.  Serving a request sends at most one statement to the database,
    whichever handler serves it and whatever the request holds: through
    handler, service and data-access function together there is no second
    statement (no retry, no follow-up query). *)
Theorem handlers_one_statement (i : nat) (h : Handler) (req : Request) (st : St) :
  controllers !! i = Some h ->
  (length (statements (new_events (h_run h req) st)) <= 1)%nat.
Proof.
  intros Hi.
  pose proof (Forall_lookup_1 _ _ _ _ controllers_statements Hi req st) as (evs & H & _ & Hw).
  rewrite (new_events_app _ _ _ H). by rewrite <- weight_statements.
Qed.

End TraceFacts.

Section TraceRuns.
#[local] Existing Instance Node.runtime.
#[local] Existing Instance Scripted.database.

Lemma services_reach_database_once_witness :
  let evs :=
    new_events (@EntrenamientoCognitivoService.iniciarSesion Node.runtime Scripted.database
                  (JStr un_uuid))
               (Scripted.start [inr [fila_con_exito]]) in
  (calls Service Model evs <= 1)%nat
  /\ (length (statements evs) <= 1)%nat
  /\ Forall service_event evs.
Proof.
  exact (@services_reach_database_once Node.runtime Scripted.database 7%nat _ [JStr un_uuid]
           (Scripted.start [inr [fila_con_exito]]) eq_refl).
Defined.

Lemma handlers_one_statement_witness :
  (length (statements
             (new_events (@SesionController.crearSesion Node.runtime Scripted.database una_sesion)
                (Scripted.start [inr []]))) <= 1)%nat.
Proof.
  exact (@handlers_one_statement Node.runtime Scripted.database 4%nat _ una_sesion
           (Scripted.start [inr []]) eq_refl).
Defined.

End TraceRuns.

(** ** Exceptions that leave a handler *)

Section EscapeLogic.
Context {rt : Runtime} {db : Database}.

Lemma throws_try_any {A} Q (m : M A) h :
  (forall e, throws Q (h e)) -> throws Q (try_catch m h).
Proof.
  intros Hh st e st'. unfold try_catch. destruct (m st) as [[a|e1] st1]; [done|]. apply Hh.
Qed.

End EscapeLogic.

Ltac escapes_go :=
  intros; cbv beta zeta;
  lazymatch goal with
  | |- throws _ (mret _) => apply throws_ret
  | |- throws _ (try_catch _ _) => apply throws_try_any; escapes_go
  | |- throws _ (M_bind _ _) => apply throws_bind; escapes_go
  | |- throws _ (lift _) => apply throws_lift; rthrows_go
  | |- throws _ (if ?b then _ else _) => destruct b; escapes_go
  | |- throws _ (match ?x with _ => _ end) => destruct x; escapes_go
  | |- throws _ ?m => unfold_head m; escapes_go
  end.

Section EscapeFacts.
Context {rt : Runtime} {db : Database}.

Lemma controllers_catch_everything :
  Forall (fun h => forall req,
            is_nullish (req_body req) = false -> is_nullish (req_user req) = false ->
            throws never (h_run h req))
         controllers.
Proof.
  unfold controllers. each_entry; cbn [h_run]; intros req Hbody Huser; escapes_go.
Qed.

(** X3.  No handler lets an exception escape.  For a request with a body
    (the handlers that destructure [req.body] do so before their [try])
    and with the [req.user] the token check attaches, every handler ends
    by sending a response or by handing the error to [next]; whatever the
    service or the database throws is caught. *)
Theorem handlers_answer (i : nat) (h : Handler) (req : Request) (st : St) :
  controllers !! i = Some h ->
  is_nullish (req_body req) = false ->
  is_nullish (req_user req) = false ->
  exists outcome st', h_run h req st = (Ret outcome, st').
Proof.
  intros Hi Hbody Huser.
  pose proof (Forall_lookup_1 _ _ _ _ controllers_catch_everything Hi req Hbody Huser) as Hnever.
  destruct (h_run h req st) as [[outcome|e] st'] eqn:Hrun; [by eexists _, _|].
  destruct (Hnever st e st' Hrun).
Qed.

End EscapeFacts.

Section EscapeRuns.
#[local] Existing Instance Node.runtime.
#[local] Existing Instance Scripted.database.

Lemma handlers_answer_witness :
  exists outcome st',
    @SesionController.crearSesion Node.runtime Scripted.database una_sesion
      (Scripted.start [inl sin_conexion])
    = (Ret outcome, st').
Proof.
  exact (@handlers_answer Node.runtime Scripted.database 4%nat _ una_sesion
           (Scripted.start [inl sin_conexion]) eq_refl eq_refl eq_refl).
Defined.

End EscapeRuns.

(** ** Errors of the driver *)

Section DriverLogic.
Context {rt : Runtime} {db : Database}.

Lemma pg_error_no_status pe : field (pg_error_obj pe) "statusCode" = JUndefined.
Proof.
  destruct pe as [m [c|] [d|]]; unfold pg_error_obj, set_opt; simpl;
    repeat first [ rewrite field_insert_ne by done | rewrite field_singleton_ne by done ]; done.
Qed.

Lemma pg_error_code pe :
  field (pg_error_obj pe) "code" = match pg_code pe with Some c => JStr c | None => JUndefined end.
Proof.
  destruct pe as [m [c|] [d|]]; unfold pg_error_obj, set_opt; simpl;
    repeat first [ rewrite field_insert_eq | rewrite field_insert_ne by done
                 | rewrite field_singleton_ne by done ]; done.
Qed.

Lemma pg_error_message pe : field (pg_error_obj pe) "message" = JStr (pg_message pe).
Proof.
  destruct pe as [m [c|] [d|]]; unfold pg_error_obj, set_opt; simpl;
    repeat first [ rewrite field_insert_ne by done | rewrite field_singleton_eq ]; done.
Qed.

Lemma pg_error_detail pe :
  field (pg_error_obj pe) "detail" = match pg_detail pe with Some c => JStr c | None => JUndefined end.
Proof.
  destruct pe as [m [c|] [d|]]; unfold pg_error_obj, set_opt; simpl;
    repeat first [ rewrite field_insert_eq | rewrite field_insert_ne by done
                 | rewrite field_singleton_ne by done ]; done.
Qed.

Lemma rethrows_throw {A} e : rethrows_driver (throw e : M A).
Proof. intros st q pe Hev. unfold new_events in Hev. simpl in Hev. by rewrite drop_all in Hev. Qed.

Lemma rethrows_lift {A B} (r : Res A) (f : A -> M B) :
  (forall a, rethrows_driver (f a)) -> rethrows_driver (M_bind (lift r) f).
Proof.
  intros Hf st q pe Hev Hans. destruct r as [a|e].
  - exact (Hf a st q pe Hev Hans).
  - unfold new_events in Hev. simpl in Hev. by rewrite drop_all in Hev.
Qed.

Lemma rethrows_query {A} text values (k : list Row -> M A) :
  (forall rows, silent (k rows)) ->
  rethrows_driver (rethrowing (M_bind (query text values) k)).
Proof.
  intros Hk st q pe.
  unfold new_events, answer_to, rethrowing, try_catch, M_bind, query, throw, lift.
  destruct (pool_query _ (world st)) as [[pe'|rows] w] eqn:Hq; simpl.
  - rewrite drop_app_length. intros [= <-]. rewrite Hq. simpl. by intros [= ->].
  - pose proof (Hk rows {| world := w; trace := (trace st ++ [EvQuery {| sql := text; params := values |}])%list |}) as Hs.
    destruct (k rows _) as [[a|e] st1]; simpl in *; rewrite Hs, drop_app_length;
      intros [= <-]; by rewrite Hq.
Qed.

End DriverLogic.

Ltac driver_go :=
  intros; cbv beta zeta;
  lazymatch goal with
  | |- rethrows_driver (throw _) => apply rethrows_throw
  | |- rethrows_driver (M_bind (lift _) _) => apply rethrows_lift; driver_go
  | |- rethrows_driver (rethrowing (M_bind (query _ _) _)) => apply rethrows_query; silent_go
  | |- rethrows_driver (if ?b then _ else _) => destruct b; driver_go
  | |- rethrows_driver ?m => unfold_head m; driver_go
  end.

Section DriverFacts.
Context {rt : Runtime} {db : Database}.

Lemma models_rethrow :
  Forall (fun f => forall args, rethrows_driver (mf_run f args)) model_functions.
Proof. unfold model_functions. each_entry; cbn [mf_run]; driver_go. Qed.

(** X4.  The data-access functions add nothing to an error of the driver
    and hide nothing of it: when the statement a function has sent is
    rejected, the function rejects with that very error object (message,
    SQLSTATE code and detail as the driver gave them, no [statusCode]). *)
Theorem models_rethrow_driver_error
    (i : nat) (f : ModelFn) (args : list JsVal) (st : St) (q : Query) (pe : PgError) :
  model_functions !! i = Some f ->
  new_events (mf_run f args) st = [EvQuery q] ->
  answer_to q st = inl pe ->
  (mf_run f args st).1 = Throw (pg_error_obj pe)
  /\ field (pg_error_obj pe) "statusCode" = JUndefined.
Proof.
  intros Hi Hev Hans. split.
  - exact (Forall_lookup_1 _ _ _ _ models_rethrow Hi args st q pe Hev Hans).
  - apply pg_error_no_status.
Qed.

End DriverFacts.

Section DriverRuns.
#[local] Existing Instance Node.runtime.
#[local] Existing Instance Scripted.database.

Lemma models_rethrow_driver_error_witness :
  (@EntrenadorModel.desactivar Scripted.database (JStr un_uuid)
     (Scripted.start [inl sin_conexion])).1
  = Throw (pg_error_obj sin_conexion)
  /\ field (pg_error_obj sin_conexion) "statusCode" = JUndefined.
Proof.
  exact (@models_rethrow_driver_error Node.runtime Scripted.database 3%nat _ [JStr un_uuid]
           (Scripted.start [inl sin_conexion])
           {| sql := "SELECT * FROM CC.DesactivarEntrenadorUFT($1);"; params := [JStr un_uuid] |}
           sin_conexion eq_refl eq_refl eq_refl).
Defined.

End DriverRuns.

(** ** Identifiers *)

Section Shapes.
Context {rt : Runtime}.

(** An anchored pattern of character classes accepts a string exactly when
    the string has one character per class and each character is in its
    class. *)
Lemma match_shape_spec shape s :
  match_shape shape s = true
  <-> String.length s = length shape
      /\ forall i p c, shape !! i = Some p -> String.get i s = Some c -> p c = true.
Proof.
  revert s. induction shape as [|p shape IH]; intros [|c s]; simpl.
  - split; [|done]. intros _. split; [done|]. by intros i p c.
  - split; [done|]. by intros [[=] _].
  - split; [done|]. by intros [[=] _].
  - rewrite andb_true_iff, IH. split.
    + intros (Hp & Hlen & Hall). split; [by rewrite Hlen|].
      intros [|i] p' c'; simpl; [by intros [= <-] [= <-]|]. apply Hall.
    + intros (Hlen & Hall). split; [exact (Hall 0%nat p c eq_refl eq_refl)|].
      split; [by injection Hlen|]. intros i p' c'. exact (Hall (S i) p' c').
Qed.

Lemma string_get_lt i s c : String.get i s = Some c -> (i < String.length s)%nat.
Proof.
  revert i. induction s as [|a s IH]; intros [|i]; simpl; try done; [lia|].
  intros Hc. specialize (IH i Hc). lia.
Qed.

Lemma uuid_shape_lookup i :
  (i < 36)%nat ->
  uuid_shape !! i
  = Some (if bool_decide (i ∈ uuid_hyphens) then is_char "-" else is_hex).
Proof.
  intros Hi. do 36 (destruct i as [|i]; [reflexivity|]). lia.
Qed.

(** X5.  [isValidUUID] accepts exactly the strings of 36 characters with a
    hyphen at positions 8, 13, 18 and 23 and a hexadecimal digit, in
    either case, everywhere else.  The version and variant digits are not
    checked, and a value that is not a string is refused. *)
Theorem isValidUUID_spelled (v : JsVal) :
  EntrenamientoCognitivoService.isValidUUID v = true
  <-> exists s,
        v = JStr s /\ String.length s = 36%nat
        /\ forall i c, String.get i s = Some c ->
             if bool_decide (i ∈ uuid_hyphens) then c = "-"%char else is_hex c = true.
Proof.
  unfold EntrenamientoCognitivoService.isValidUUID. split.
  - intros [Hs Hm]%andb_true_iff. destruct v; try done. cbn [str_of] in Hm.
    apply match_shape_spec in Hm as [Hlen Hall]. exists s. split; [done|]. split; [done|].
    intros i c Hc.
    assert (i < 36)%nat as Hi.
    { change 36%nat with (length uuid_shape). rewrite <- Hlen. by eapply string_get_lt. }
    pose proof (Hall i _ c (uuid_shape_lookup i Hi) Hc) as Hp.
    destruct (bool_decide (i ∈ uuid_hyphens)); [|done].
    unfold is_char in Hp. by apply Ascii.eqb_eq in Hp.
  - intros (s & -> & Hlen & Hall). cbn [str_of]. apply andb_true_iff. split; [done|].
    apply match_shape_spec. split; [done|]. intros i p c Hp Hc.
    assert (i < 36)%nat as Hi by (apply lookup_lt_Some in Hp; exact Hp).
    rewrite (uuid_shape_lookup i Hi) in Hp. injection Hp as <-.
    specialize (Hall i c Hc). destruct (bool_decide (i ∈ uuid_hyphens)); [|done].
    subst c. reflexivity.
Qed.

End Shapes.

(** ** Running a service against an answer of the database *)

(** Unfold the combinators of a run, down to the call of the pool. *)
Ltac run_all :=
  repeat (progress (unfold try_catch, rethrowing, M_bind, lift, throw, call, query, mret, M_ret;
                    cbv beta; cbn [world trace fst snd])).

(** Replace the answer of the pool by the one assumed in [Hq]. *)
Ltac answer_with Hq :=
  match goal with
  | |- context [pool_query ?q ?w] =>
      let H := fresh "Hans" in
      pose proof (Hq q) as H; unfold answer_to in H; cbn [world] in H;
      destruct (pool_query q w) as [?r ?w']; cbn [fst] in H; subst
  end.

(** Case analysis on the conditions left in a goal between two results. *)
Ltac settle_cbn := cbn -[clientError new_Error str_includes pg_error_obj field].

Ltac settle :=
  settle_cbn; try reflexivity;
  repeat (match goal with
          | |- context [field (clientError ?v ?n) "statusCode"] =>
              rewrite (field_insert_eq (new_Error v) "statusCode" (JNum n))
          | |- context [if negb ?b then _ else _] => destruct b eqn:?
          | |- context [if ?b || _ then _ else _] => destruct b eqn:?
          | |- context [if ?b && _ then _ else _] => destruct b eqn:?
          | |- context [if ?b then _ else _] => destruct b eqn:?
          end; settle_cbn; try reflexivity; try congruence).

Section ValueFacts.
Context {rt : Runtime}.

Lemma get_prop_obj (m : gmap string JsVal) k : get_prop (JObj m) k = Ret (field m k).
Proof. reflexivity. Qed.

Lemma rows_not_empty (row : Row) rows :
  num_eq (get_opt (rows_array (row :: rows)) "length") 0 = false.
Proof. reflexivity. Qed.

Lemma first_of_rows (row : Row) rows : get_index0 (rows_array (row :: rows)) = Ret (JObj row).
Proof. reflexivity. Qed.

Lemma blank_false x : blank x = false -> exists s, x = JStr s.
Proof.
  unfold blank. intros H. apply orb_false_iff in H as [H _].
  apply orb_false_iff in H as [_ H]. destruct x; try done. by eexists.
Qed.

Lemma js_trim_all l :
  existsb (fun v => negb (is_string v) || String.eqb (trim (str_of v)) "") l = false ->
  mapM js_trim l = Ret ((fun v => trim (str_of v)) <$> l).
Proof.
  induction l as [|v l IH]; simpl; [done|].
  intros [Hv Hl]%orb_false_iff. apply orb_false_iff in Hv as [Hv _].
  destruct v; try done. cbn. rewrite (IH Hl). reflexivity.
Qed.

Lemma lower_of_message (m : string) :
  js_toLowerCase (js_or (JStr m) (JStr "")) = Ret (toLowerCase m).
Proof.
  unfold js_or. cbn [truthy]. destruct (String.eqb_spec m "") as [->|]; reflexivity.
Qed.

Lemma js_or_defined (a : JsVal) (s : string) : is_undefined (js_or a (JStr s)) = false.
Proof. unfold js_or. destruct (truthy a) eqn:E; [|done]. by destruct a. Qed.

(** The exception of a failed conversion to a string is the engine's
    TypeError, which has no [statusCode]. *)
Lemma js_to_string_throws v e :
  js_to_string v = Throw e -> e = TypeError "Cannot convert object to primitive value".
Proof. unfold js_to_string. destruct (has_string_form v); [done|]. by intros [= <-]. Qed.

Lemma Date_of_throws v e :
  Date_of v = Throw e -> e = TypeError "Cannot convert object to primitive value".
Proof.
  destruct v; try done; cbn [Date_of];
    (destruct (js_to_string _) eqn:E; [done|]; intros [= <-]; by apply js_to_string_throws in E).
Qed.

Lemma isValidDateString_throws v e :
  EstudianteService.isValidDateString v = Throw e ->
  e = TypeError "Cannot convert object to primitive value".
Proof.
  unfold EstudianteService.isValidDateString.
  destruct (js_to_string v) eqn:E; cbn [Res_bind].
  - destruct (negb _); [done|]. destruct (Date_of v) eqn:E'; [done|].
    intros [= <-]. by apply Date_of_throws in E'.
  - intros [= <-]. by apply js_to_string_throws in E.
Qed.

Lemma isValidDateTimeString_throws v e :
  EntrenamientoCognitivoService.isValidDateTimeString v = Throw e ->
  e = TypeError "Cannot convert object to primitive value".
Proof.
  unfold EntrenamientoCognitivoService.isValidDateTimeString.
  destruct (js_to_string v) eqn:E; cbn [Res_bind].
  - destruct (negb _); [done|]. destruct (Date_of v) eqn:E'; [done|].
    intros [= <-]. by apply Date_of_throws in E'.
  - intros [= <-]. by apply js_to_string_throws in E.
Qed.

Lemma TypeError_no_status msg : field (TypeError msg) "statusCode" = JUndefined.
Proof. reflexivity. Qed.

End ValueFacts.

(** ** Cognitive trainings *)

Section TrainingFacts.
Context {rt : Runtime} {db : Database}.
Import EntrenamientoCognitivoService.

Lemma validarDatosCrearEntrenamiento_passed datos :
  validarDatosCrearEntrenamiento datos = Ret JNull ->
  let d := get_opt datos in
  is_nullish datos = false
  /\ blank (d "siglaTipoDocEstudiante") = false /\ blank (d "numeroDocEstudiante") = false
  /\ blank (d "siglaTipoDocEntrenador") = false /\ blank (d "numeroDocEntrenador") = false
  /\ existsb (fun v => negb (is_string v) || String.eqb (trim (str_of v)) "")
       (elements (d "variablesCognitivas")) = false.
Proof.
  unfold validarDatosCrearEntrenamiento, destructure.
  destruct (is_nullish datos); [done|]. cbn [Res_bind].
  repeat match goal with
         | |- context [if blank ?x then _ else _] => destruct (blank x) eqn:?; [done|]
         end.
  match goal with |- context [Res_bind ?r _] => destruct r as [[]|e] end;
    cbv beta iota delta [Res_bind]; [done| |done].
  repeat match goal with
         | |- context [if ?b then Ret (failure _ _) else _] => destruct b eqn:?; [done|]
         end.
  intros _. repeat split; done.
Qed.

(** X6.  When the input passes [validarDatosCrearEntrenamiento],
    [crearNuevoEntrenamientoCognitivo] sends exactly one statement, the
    call of CC.CrearEntrenamientoCognitivoUFT, with the four document
    fields and every name of a cognitive variable trimmed of surrounding
    white space, and with the end date as given, or '2500-12-31' when the
    input has none. *)
Theorem crear_sends_trimmed_data (datos : JsVal) (st : St) :
  validarDatosCrearEntrenamiento datos = Ret JNull ->
  let d := get_opt datos in
  let recortado k := JStr (trim (str_of (d k))) in
  statements (new_events (crearNuevoEntrenamientoCognitivo datos) st)
  = [ {| sql := nl +:+ "    SELECT * FROM CC.CrearEntrenamientoCognitivoUFT($1, $2, $3, $4, $5, $6);"
                +:+ nl +:+ "  ";
         params := [ recortado "siglaTipoDocEstudiante"; recortado "numeroDocEstudiante";
                     recortado "siglaTipoDocEntrenador"; recortado "numeroDocEntrenador";
                     JArr ((fun v => JStr (trim (str_of v))) <$> elements (d "variablesCognitivas"));
                     js_or (d "fechaFinEntrenamiento") (JStr "2500-12-31") ] |} ].
Proof.
  intros Hval d recortado.
  pose proof (validarDatosCrearEntrenamiento_passed _ Hval) as (Hd & H1 & H2 & H3 & H4 & Hvars).
  fold d in H1, H2, H3, H4, Hvars.
  destruct (blank_false _ H1) as [s1 E1], (blank_false _ H2) as [s2 E2],
           (blank_false _ H3) as [s3 E3], (blank_false _ H4) as [s4 E4].
  assert (prepararDatosEntrenamientoParaDB datos
          = Ret (obj [("pSiglaTipoDocEstudiante", recortado "siglaTipoDocEstudiante");
                      ("pNumeroDocEstudiante", recortado "numeroDocEstudiante");
                      ("pSiglaTipoDocEntrenador", recortado "siglaTipoDocEntrenador");
                      ("pNumeroDocEntrenador", recortado "numeroDocEntrenador");
                      ("pVariablesCognitivas",
                       JArr ((fun v => JStr (trim (str_of v))) <$> elements (d "variablesCognitivas")));
                      ("pFechaFinEntrenamiento", d "fechaFinEntrenamiento")])) as Hprep.
  { unfold prepararDatosEntrenamientoParaDB, destructure, recortado. rewrite Hd. cbn [Res_bind].
    fold d. rewrite E1, E2, E3, E4. cbn [js_trim Res_bind str_of].
    rewrite (js_trim_all _ Hvars). cbn [Res_bind]. by rewrite <- list_fmap_compose. }
  unfold crearNuevoEntrenamientoCognitivo.
  rewrite new_events_try by trace_side.
  rewrite Hval, Hprep. step_lift. cbn [truthy]. step_lift.
  rewrite new_events_bind by trace_side.
  rewrite new_events_call by trace_side.
  unfold EntrenamientoModel.crearEntrenamientoCognitivoDB, destructure. cbn [is_nullish obj].
  step_lift.
  rewrite new_events_query by trace_side.
  reflexivity.
Qed.

(** X7.  Once the input has passed the six checks of
    [registrarNuevaAsignacionService] and the database has answered with a
    row whose [mensaje] is a string, the service returns (it does not
    throw): success with [statusCode] 201 when the message contains
    "éxito", and otherwise a failure object with [statusCode] 400 carrying
    the message, or "Ocurrió un error en la base de datos." when the
    message is empty. *)
Theorem registrarNuevaAsignacion_outcome
    (datos : JsVal) (st : St) (row : Row) (rest : list Row) (s : string) :
  is_nullish datos = false ->
  validaciones_asignacion datos = Ret None ->
  (forall q, answer_to q st = inr (row :: rest)) ->
  field row "mensaje" = JStr s ->
  (registrarNuevaAsignacionService datos st).1
  = Ret (if str_includes "éxito" s
         then obj [("success", JBool true); ("message", JStr s); ("statusCode", JNum 201)]
         else failure
                (if String.eqb s "" then JStr "Ocurrió un error en la base de datos." else JStr s)
                400).
Proof.
  intros Hd Hval Hq Hs.
  unfold registrarNuevaAsignacionService, destructure.
  unfold validaciones_asignacion in Hval.
  rewrite Hd. step_lift. revert Hval.
  repeat asignacion_case ltac:(done).
  intros _. step_lift.
  repeat match goal with
         | |- context [if ?b then mret (failure _ _) else _] => destruct b; [done|]
         end.
  unfold EntrenamientoModel.registrarEntrenamientoAsignacionDB, destructure.
  cbn [is_nullish obj]. step_lift. run_all. answer_with Hq.
  rewrite Hs. unfold and_includes, js_or.
  cbn [truthy js_includes].
  destruct (String.eqb s "") eqn:Hempty; cbn [negb Res_bind].
  - apply String.eqb_eq in Hempty as ->. reflexivity.
  - by destruct (str_includes "éxito" s).
Qed.

Lemma validation_exception_TypeError op datos e :
  validation_exception op datos = Some e -> exists msg, e = TypeError msg.
Proof.
  destruct op; simpl.
  - unfold validarDatosCrearEntrenamiento, destructure.
    destruct (is_nullish datos); [intros [= <-]; by eexists|]. cbn [Res_bind].
    repeat (match goal with |- context [if blank ?x then _ else _] => destruct (blank x) end;
            [done|]).
    destruct (truthy (get_opt datos "fechaFinEntrenamiento")); cbn [Res_bind].
    + destruct (isValidDateTimeString _) as [[]|e'] eqn:E; cbn [Res_bind negb].
      * by repeat (match goal with |- context [if ?b then _ else _] => destruct b end; [done|]).
      * done.
      * intros [= <-]. apply isValidDateTimeString_throws in E. by eexists.
    + by repeat (match goal with |- context [if ?b then _ else _] => destruct b end; [done|]).
  - unfold destructure. destruct (is_nullish datos); [intros [= <-]; by eexists|].
    unfold validaciones_asignacion.
    repeat (match goal with |- context [if ?b then Ret (Some _) else _] => destruct b end; [done|]).
    destruct (primer_id_invalido _) as [id|].
    + destruct (js_to_string id) eqn:E; [done|]. intros [= <-].
      apply js_to_string_throws in E. by eexists.
    + destruct (truthy (get_opt datos "fechaInicio")); cbn [Res_bind].
      * destruct (isValidDateTimeString _) as [[]|e'] eqn:E; cbn [Res_bind negb].
        -- by repeat (match goal with |- context [if ?b then _ else _] => destruct b end; [done|]).
        -- done.
        -- intros [= <-]. apply isValidDateTimeString_throws in E. by eexists.
      * done.
Qed.

(** X28.  When the validation of [crearNuevoEntrenamientoCognitivo] or of
    [registrarNuevaAsignacionService] ends in an exception instead of a
    verdict (the input is [null] or [undefined], or a date or an
    identifier of the body cannot be converted to a string, as an object
    with a property [toString]), the service throws and leaves the state
    as it was: no statement is sent.  The exception is a TypeError of the
    engine, without [statusCode].  [registrarNuevaAsignacionService], whose
    checks precede its [try], throws it as it is;
    [crearNuevoEntrenamientoCognitivo], whose validation runs inside its
    [try], adds [statusCode] 500.  Neither answers 400 to such input. *)
Theorem validation_exception_leaves_database
    (op : Validated) (datos : JsVal) (e : ErrObj) (st : St) :
  validation_exception op datos = Some e ->
  run_validated op datos st
  = (Throw match op with
           | CrearEntrenamiento => <[ "statusCode" := JNum 500 ]> e
           | RegistrarAsignacion => e
           end, st)
  /\ (exists msg, e = TypeError msg)
  /\ field e "statusCode" = JUndefined.
Proof.
  intros He. destruct (validation_exception_TypeError _ _ _ He) as [msg Hmsg].
  split; [|split; [by eexists|by rewrite Hmsg]].
  destruct op; simpl in *.
  - unfold crearNuevoEntrenamientoCognitivo, try_catch, M_bind, lift, throw.
    destruct (validarDatosCrearEntrenamiento datos) as [v|e']; [done|].
    injection He as ->. unfold with_default_status.
    by rewrite Hmsg, TypeError_no_status.
  - unfold destructure in He. destruct (is_nullish datos) eqn:Hd.
    + injection He as <-. unfold registrarNuevaAsignacionService, destructure, M_bind, lift.
      by rewrite Hd.
    + pose proof (registrarNuevaAsignacionService_stops datos st Hd) as H.
      destruct (validaciones_asignacion datos) as [o|e']; [done|].
      by injection He as ->.
Qed.

End TrainingFacts.

Section TrainingRuns.
#[local] Existing Instance Node.runtime.
#[local] Existing Instance Scripted.database.

Lemma crear_sends_trimmed_data_witness :
  statements
    (new_events
       (@EntrenamientoCognitivoService.crearNuevoEntrenamientoCognitivo
          Node.runtime Scripted.database datos_entrenamiento)
       (Scripted.start [inr []]))
  = [ {| sql := nl +:+ "    SELECT * FROM CC.CrearEntrenamientoCognitivoUFT($1, $2, $3, $4, $5, $6);"
                +:+ nl +:+ "  ";
         params := [ JStr "CC"; JStr "1020304050"; JStr "CC"; JStr "79000111";
                     JArr [JStr "Memoria"; JStr "Atención"]; JStr "2500-12-31" ] |} ].
Proof.
  exact (@crear_sends_trimmed_data Node.runtime Scripted.database datos_entrenamiento
           (Scripted.start [inr []]) eq_refl).
Defined.

Lemma validation_exception_leaves_database_witness :
  exists e,
    @run_validated Node.runtime Scripted.database RegistrarAsignacion fecha_sin_texto
      (Scripted.start [])
    = (Throw e, Scripted.start [])
    /\ (exists msg, e = TypeError msg)
    /\ field e "statusCode" = JUndefined.
Proof.
  eexists.
  exact (@validation_exception_leaves_database Node.runtime Scripted.database
           RegistrarAsignacion fecha_sin_texto _ (Scripted.start []) eq_refl).
Defined.

Lemma registrarNuevaAsignacion_outcome_witness :
  (@EntrenamientoCognitivoService.registrarNuevaAsignacionService
     Node.runtime Scripted.database datos_asignacion
     (Scripted.start [inr [fila_asignacion]])).1
  = Ret (obj [("success", JBool true); ("message", JStr "Asignación registrada con éxito.");
              ("statusCode", JNum 201)]).
Proof.
  exact (@registrarNuevaAsignacion_outcome Node.runtime Scripted.database datos_asignacion
           (Scripted.start [inr [fila_asignacion]]) fila_asignacion []
           "Asignación registrada con éxito." eq_refl eq_refl (fun q => eq_refl) eq_refl).
Defined.

End TrainingRuns.

(** ** Students *)

Section StudentFacts.
Context {rt : Runtime} {db : Database}.

(** What it means for the input of [registrarEstudiante] to pass the nine
    checks. *)
Lemma estudiante_aceptado datosEntrada :
  estudiante_rechazado datosEntrada = Ret false ->
  let d := get_opt datosEntrada in
  blank (d "siglaTipoDocumento") = false /\ blank (d "nombreGenero") = false
  /\ blank (d "nombres") = false /\ blank (d "apellidos") = false
  /\ blank (d "numeroDocumento") = false
  /\ (if truthy (d "fechaNacimiento")
      then Res_bind (EstudianteService.isValidDateString (d "fechaNacimiento"))
             (fun valida => Ret (negb valida))
      else Ret true) = Ret false
  /\ is_string (d "correo") = true
  /\ negb (truthy (d "correo")) || negb (is_string (d "correo"))
     || negb (matches loose_email (trim (str_of (d "correo")))) = false
  /\ negb (isArray (d "programaNombres"))
     || (Z.of_nat (length (elements (d "programaNombres"))) =? 0) = false
  /\ existsb (fun p => negb (is_string p) || String.eqb (trim (str_of p)) "")
       (elements (d "programaNombres")) = false.
Proof.
  intros H d. unfold estudiante_rechazado in H. cbv zeta in H. fold d in H.
  destruct (blank (d "siglaTipoDocumento")); [done|].
  destruct (blank (d "nombreGenero")); [done|].
  destruct (blank (d "nombres")); [done|].
  destruct (blank (d "apellidos")); [done|].
  destruct (blank (d "numeroDocumento")); [done|].
  cbn [orb] in H.
  destruct (if truthy (d "fechaNacimiento") then _ else _) as [[]|e]; [done| |done].
  cbn [Res_bind orb] in H. injection H as H.
  apply orb_false_iff in H as [H Hp]. apply orb_false_iff in H as [Hc Ha].
  repeat split; try done.
  apply orb_false_iff in Hc as [Hc _]. apply orb_false_iff in Hc as [_ Hc].
  by apply negb_false_iff in Hc.
Qed.

(** X8.  [registrarEstudiante] reaches the database only with input that
    passes its nine checks.  When one of them fails it throws a client
    error with [statusCode] 400 and leaves the database and the trace as
    they were.  When the date of birth cannot be converted to a string (an
    object with a property [toString], or an array that holds one), the
    check of the date throws a TypeError, which leaves the service as it
    is, without [statusCode], and the database and the trace are as they
    were.  When all checks pass the service sends exactly one statement,
    the call of CC.registrarestudianteuft, with the text fields and every
    programme name trimmed and the date of birth as given, in the order of
    the function's parameters (sigla, names, surnames, number, e-mail,
    gender, date, programmes). *)
Theorem registrarEstudiante_validates (datosEntrada : JsVal) (st : St) :
  is_nullish datosEntrada = false ->
  let d := get_opt datosEntrada in
  let recortado k := JStr (trim (str_of (d k))) in
  let run := EstudianteService.registrarEstudiante datosEntrada in
  match estudiante_rechazado datosEntrada with
  | Ret true =>
      (run st).2 = st /\ exists message, (run st).1 = Throw (clientError (JStr message) 400)
  | Ret false =>
      statements (new_events run st)
      = [ {| sql := nl +:+ "    SELECT * FROM CC.registrarestudianteuft($1, $2, $3, $4, $5, $6, $7, $8);"
                    +:+ nl +:+ "  ";
             params := [ recortado "siglaTipoDocumento"; recortado "nombres"; recortado "apellidos";
                         recortado "numeroDocumento"; recortado "correo"; recortado "nombreGenero";
                         d "fechaNacimiento";
                         JArr ((fun p => JStr (trim (str_of p))) <$> elements (d "programaNombres")) ] |} ]
  | Throw e =>
      run st = (Throw e, st)
      /\ (exists msg, e = TypeError msg)
      /\ field e "statusCode" = JUndefined
  end.
Proof.
  intros Hd d recortado run.
  destruct (estudiante_rechazado datosEntrada) as [[]|e] eqn:Hval.
  - (* some check fails *)
    revert Hval.
    unfold run, EstudianteService.registrarEstudiante, estudiante_rechazado, destructure.
    rewrite Hd. step_lift. fold d. unfold M_bind at 1. unfold lift at 1.
    repeat match goal with
           | |- context [if blank ?x then throwClientError _ _ else Ret tt] =>
               destruct (blank x); [intros _; split; [reflexivity | eexists; reflexivity]|];
               cbn [Res_bind orb]
           end.
    destruct (if truthy (d "fechaNacimiento") then _ else _) as [[]|e]; cbn [Res_bind orb];
      [intros _; split; [reflexivity | eexists; reflexivity]| |done].
    repeat match goal with
           | |- context [Res_bind (if ?b then throwClientError _ _ else Ret tt) _] =>
               destruct b; [intros _; split; [reflexivity | eexists; reflexivity]|];
               cbn [Res_bind orb]
           end.
    destruct (existsb _ (elements (d "programaNombres"))); [|done].
    intros _; split; [reflexivity | eexists; reflexivity].
  - (* all checks pass *)
    pose proof (estudiante_aceptado _ Hval) as (H1 & H2 & H3 & H4 & H5 & Hf & Hs & Hc & Ha & Hprog).
    fold d in H1, H2, H3, H4, H5, Hf, Hs, Hc, Ha, Hprog.
    unfold run, recortado, EstudianteService.registrarEstudiante, destructure.
    clear run recortado. rewrite Hd. step_lift. fold d.
    rewrite H1, H2, H3, H4, H5, Hf, Hc, Ha, Hprog. cbn [Res_bind]. step_lift.
    destruct (blank_false _ H1) as [s1 E1], (blank_false _ H2) as [s2 E2],
             (blank_false _ H3) as [s3 E3], (blank_false _ H4) as [s4 E4],
             (blank_false _ H5) as [s5 E5].
    rewrite E1, E2, E3, E4, E5.
    destruct (d "correo") as [| |?|?|c|?|?|?] eqn:Ecorreo; try done.
    rewrite new_events_try by trace_side.
    cbn [js_trim Res_bind str_of]. rewrite (js_trim_all _ Hprog). cbn [Res_bind]. step_lift.
    rewrite new_events_bind by trace_side.
    rewrite new_events_call by trace_side.
    unfold EstudianteModel.registrarEstudianteDB, destructure. cbn [is_nullish obj]. step_lift.
    rewrite new_events_query by trace_side.
    cbn [str_of]. rewrite <- list_fmap_compose. reflexivity.
  - (* the date cannot be converted *)
    revert Hval.
    unfold run, EstudianteService.registrarEstudiante, estudiante_rechazado, destructure.
    rewrite Hd. step_lift. fold d. unfold M_bind at 1. unfold lift at 1.
    repeat match goal with
           | |- context [if blank ?x then throwClientError _ _ else Ret tt] =>
               destruct (blank x); [done|]; cbn [Res_bind orb]
           end.
    destruct (if truthy (d "fechaNacimiento") then _ else _) as [[]|e'] eqn:Hf;
      cbn [Res_bind orb]; [done|done|].
    intros [= <-]. split; [reflexivity|].
    assert (e' = TypeError "Cannot convert object to primitive value") as ->;
      [|split; [by eexists|done]].
    destruct (truthy (d "fechaNacimiento")); [|done].
    destruct (EstudianteService.isValidDateString (d "fechaNacimiento")) eqn:Hv; [done|].
    cbn [Res_bind] in Hf. injection Hf as <-. by apply isValidDateString_throws in Hv.
Qed.

(** X9.  What [registrarEstudiante] answers for input that passes its
    checks.  An error of the driver, or an answer without rows, becomes
    the generic error 500 "Ocurrió un error inesperado en el servidor.":
    the driver's message is not passed on.  With a row, the [mensaje]
    decides: containing "exitosamente" once lower-cased, success with the
    [estudianteId] of the row; containing "unicidad" or "violates unique
    constraint", a conflict 409 with one of three fixed messages; any
    other, a client error 400 with that message (a fixed one when the
    message is missing or empty).  A message that is not a string and not
    falsy ends in the generic error 500. *)
Theorem registrarEstudiante_outcome (datosEntrada : JsVal) (st : St) (ans : PgError + list Row) :
  is_nullish datosEntrada = false ->
  estudiante_rechazado datosEntrada = Ret false ->
  (forall q, answer_to q st = ans) ->
  let inesperado : Res JsVal :=
    Throw (<[ "statusCode" := JNum 500 ]>
             (new_Error (JStr "Ocurrió un error inesperado en el servidor."))) in
  (EstudianteService.registrarEstudiante datosEntrada st).1
  = match ans with
    | inl _ | inr [] => inesperado
    | inr (row :: _) =>
        let mensaje := field row "mensaje" in
        let lower := toLowerCase (str_of mensaje) in
        if truthy mensaje && negb (is_string mensaje) then inesperado
        else if truthy mensaje && str_includes "exitosamente" lower then
          Ret (obj [("success", JBool true);
                    ("data", obj [("id", field row "estudianteId"); ("message", mensaje)]);
                    ("message", mensaje)])
        else if str_includes "unicidad" lower || str_includes "violates unique constraint" lower then
          Throw (clientError
                   (JStr (if str_includes "correo" lower
                          then "El correo electrónico ingresado ya está registrado."
                          else if str_includes "numerodocumento" lower
                          then "El número de documento ingresado ya está registrado."
                          else "El valor de un campo único ya está registrado."))
                   409)
        else
          Throw (clientError
                   (js_or mensaje
                      (JStr "La operación en la base de datos no se completó correctamente."))
                   400)
    end.
Proof.
  intros Hd Hval Hq inesperado.
  pose proof (estudiante_aceptado _ Hval) as (H1 & H2 & H3 & H4 & H5 & Hf & Hs & Hc & Ha & Hprog).
  unfold EstudianteService.registrarEstudiante, destructure.
  rewrite Hd. step_lift.
  rewrite H1, H2, H3, H4, H5, Hf, Hc, Ha, Hprog. cbn [Res_bind]. step_lift.
  destruct (blank_false _ H1) as [s1 E1], (blank_false _ H2) as [s2 E2],
           (blank_false _ H3) as [s3 E3], (blank_false _ H4) as [s4 E4],
           (blank_false _ H5) as [s5 E5].
  rewrite E1, E2, E3, E4, E5.
  destruct (get_opt datosEntrada "correo") as [| |?|?|c|?|?|?] eqn:Ecorreo; try done.
  cbn [js_trim Res_bind str_of]. rewrite (js_trim_all _ Hprog). cbn [Res_bind]. step_lift.
  unfold EstudianteModel.registrarEstudianteDB, destructure. cbn [is_nullish obj]. step_lift.
  run_all. answer_with Hq.
  destruct ans as [pe|[|row rows]].
  - by rewrite pg_error_no_status.
  - reflexivity.
  - cbn [fst snd is_nullish obj Res_bind].
    change (get_opt (obj [("estudianteId", field row "estudianteId"); ("mensaje", field row "mensaje")])
              "mensaje") with (field row "mensaje").
    change (get_opt (obj [("estudianteId", field row "estudianteId"); ("mensaje", field row "mensaje")])
              "estudianteId") with (field row "estudianteId").
    generalize (field row "estudianteId"). intros id.
    generalize (field row "mensaje"). intros mensaje.
    destruct mensaje as [| |[]|n|s|l|m|t]; unfold js_or; cbn [truthy];
      try destruct (n =? 0)%Z; try destruct (String.eqb_spec s "") as [->|]; settle.
Qed.

(** X10.  What [modificarEstudiante] answers, by the answer of the
    database.  An error of the driver becomes the generic error 500, its
    message not passed on; an answer without rows is an error 500 of its
    own.  With a row, the [mensaje] decides: missing or empty, the row is
    returned; containing "ya está en uso por otro estudiante" once
    lower-cased, a conflict 409 with the message; containing "procesada
    para actualización", the row is returned; any other message is a
    client error 400. *)
Theorem modificarEstudiante_outcome
    (siglaTipoDocActual numeroDocActual datosParaActualizar : JsVal) (st : St)
    (ans : PgError + list Row) :
  is_nullish datosParaActualizar = false ->
  (forall q, answer_to q st = ans) ->
  let inesperado : Res JsVal :=
    Throw (<[ "statusCode" := JNum 500 ]>
             (new_Error (JStr "Ocurrió un error inesperado en el servidor al intentar modificar el estudiante."))) in
  (EstudianteService.modificarEstudiante siglaTipoDocActual numeroDocActual datosParaActualizar st).1
  = match ans with
    | inl _ => inesperado
    | inr [] =>
        Throw (clientError (JStr "La operación de modificación no devolvió ningún resultado.") 500)
    | inr (row :: _) =>
        match field row "mensaje" with
        | JStr s =>
            if String.eqb s "" then Ret (JObj row)
            else if str_includes "ya está en uso por otro estudiante" (toLowerCase s)
            then Throw (clientError (JStr s) 409)
            else if str_includes "procesada para actualización" (toLowerCase s)
            then Ret (JObj row)
            else Throw (clientError (JStr s) 400)
        | mensaje => if truthy mensaje then inesperado else Ret (JObj row)
        end
    end.
Proof.
  intros Hd Hq inesperado.
  unfold EstudianteService.modificarEstudiante, EstudianteModel.modificarInformacionEstudiante,
    destructure.
  rewrite Hd. cbn [is_nullish obj]. run_all. answer_with Hq.
  destruct ans as [pe|[|row rows]].
  - by rewrite pg_error_no_status.
  - reflexivity.
  - rewrite rows_not_empty, first_of_rows. cbn [truthy rows_array negb orb Res_bind throwClientError].
    rewrite get_prop_obj. generalize (field row "mensaje"). intros mensaje.
    destruct mensaje as [| |[]|n|s|l|m|t]; settle.
Qed.

End StudentFacts.

Section StudentRuns.
#[local] Existing Instance Node.runtime.
#[local] Existing Instance Scripted.database.

Lemma registrarEstudiante_validates_witness :
  statements
    (new_events
       (@EstudianteService.registrarEstudiante Node.runtime Scripted.database datos_estudiante)
       (Scripted.start [inr [fila_registro]]))
  = [ {| sql := nl +:+ "    SELECT * FROM CC.registrarestudianteuft($1, $2, $3, $4, $5, $6, $7, $8);"
                +:+ nl +:+ "  ";
         params := [ JStr "CC"; JStr "Ana"; JStr "Paz"; JStr "1020304050";
                     JStr "ana@universidad.edu.co"; JStr "Femenino"; JStr "2001-02-03";
                     JArr [JStr "Ingeniería de Sistemas"] ] |} ].
Proof.
  exact (@registrarEstudiante_validates Node.runtime Scripted.database datos_estudiante
           (Scripted.start [inr [fila_registro]]) eq_refl).
Defined.

(** A date of birth that is the object [{"toString": 1}] makes the check
    of the date throw: the service sends nothing and throws a TypeError
    that has no [statusCode]. *)
Example registrarEstudiante_fecha_objeto :
  exists msg,
    @EstudianteService.registrarEstudiante Node.runtime Scripted.database estudiante_fecha_objeto
      (Scripted.start [])
    = (Throw (TypeError msg), Scripted.start []).
Proof. by eexists. Qed.

(** An address with a line separator after the at sign does not match
    [/.+@.+\..+/]: the input is rejected with 400 and nothing is sent. *)
Example registrarEstudiante_correo_partido :
  @EstudianteService.registrarEstudiante Node.runtime Scripted.database estudiante_correo_partido
    (Scripted.start [])
  = (Throw (clientError
              (JStr "El correo electrónico es requerido y debe tener un formato válido.") 400),
     Scripted.start []).
Proof. by vm_compute. Qed.

Lemma registrarEstudiante_outcome_witness :
  (@EstudianteService.registrarEstudiante Node.runtime Scripted.database datos_estudiante
     (Scripted.start [inl correo_repetido])).1
  = Throw (<[ "statusCode" := JNum 500 ]>
             (new_Error (JStr "Ocurrió un error inesperado en el servidor."))).
Proof.
  exact (@registrarEstudiante_outcome Node.runtime Scripted.database datos_estudiante
           (Scripted.start [inl correo_repetido]) (inl correo_repetido)
           eq_refl eq_refl (fun q => eq_refl)).
Defined.

Lemma modificarEstudiante_outcome_witness :
  (@EstudianteService.modificarEstudiante Node.runtime Scripted.database
     (JStr "CC") (JStr "1020304050") (obj [("correo", JStr "ana@universidad.edu.co")])
     (Scripted.start [inr []])).1
  = Throw (clientError (JStr "La operación de modificación no devolvió ningún resultado.") 500).
Proof.
  exact (@modificarEstudiante_outcome Node.runtime Scripted.database
           (JStr "CC") (JStr "1020304050") (obj [("correo", JStr "ana@universidad.edu.co")])
           (Scripted.start [inr []]) (inr []) eq_refl (fun q => eq_refl)).
Defined.

End StudentRuns.

(** ** Cognitive variables and look-ups *)

Section VariableFacts.
Context {rt : Runtime} {db : Database}.

(** X11.  [abandonarVariableCognitiva] and [reactivarVariableCognitiva]
    of the service layer answer alike.  With one of the three fields
    missing they throw a client error 400 and leave database and trace
    untouched.  Otherwise: an error of the driver is thrown on as it is,
    with [statusCode] 500 added; no row, or a row whose [exito] is falsy,
    is a client error 400 with the row's [mensaje] (a fixed message when
    there is none); a row whose [exito] is truthy is returned as it is,
    provided the identifier of the variable and the document number can be
    converted to a string for the log message: when one of them cannot
    (an object with a property [toString]), the service throws the
    engine's TypeError with [statusCode] 500 added, although the statement
    has been sent. *)
Theorem variable_abandono_outcome (datos : JsVal) (st : St) (ans : PgError + list Row) :
  is_nullish datos = false ->
  (forall q, answer_to q st = ans) ->
  let d := get_opt datos in
  let incompleto :=
    negb (truthy (d "siglaDocumento")) || negb (truthy (d "numeroDocumento"))
    || negb (truthy (d "idVariableCognitiva")) in
  let outcome (falta sin_exito : string) (r : Res JsVal) : Prop :=
    if incompleto then r = Throw (clientError (JStr falta) 400)
    else match ans with
         | inl pe => r = Throw (<[ "statusCode" := JNum 500 ]> (pg_error_obj pe))
         | inr [] => r = Throw (clientError (JStr sin_exito) 400)
         | inr (row :: _) =>
             if truthy (field row "exito") then
               if has_string_form (d "idVariableCognitiva") && has_string_form (d "numeroDocumento")
               then r = Ret (JObj row)
               else exists msg, r = Throw (<[ "statusCode" := JNum 500 ]> (TypeError msg))
             else r = Throw (clientError (js_or (field row "mensaje") (JStr sin_exito)) 400)
         end in
  outcome "Datos incompletos. Se requiere siglaDocumento, numeroDocumento y idVariableCognitiva."
          "No se pudo completar la operación de abandono."
          (VariablesCognitivasService.abandonarVariableCognitiva datos st).1
  /\ outcome "Datos incompletos para reactivar. Se requiere siglaDocumento, numeroDocumento y idVariableCognitiva."
             "No se pudo completar la reactivación."
             (VariablesCognitivasService.reactivarVariableCognitiva datos st).1
  /\ (incompleto = true ->
      (VariablesCognitivasService.abandonarVariableCognitiva datos st).2 = st
      /\ (VariablesCognitivasService.reactivarVariableCognitiva datos st).2 = st).
Proof.
  intros Hd Hq d incompleto outcome.
  unfold VariablesCognitivasService.abandonarVariableCognitiva,
    VariablesCognitivasService.reactivarVariableCognitiva,
    VariablesCognitivasModel.abandonarVariableCognitiva,
    VariablesCognitivasModel.reactivarVariableCognitiva, destructure, outcome.
  rewrite Hd. step_lift. fold d. fold incompleto.
  destruct incompleto.
  - by repeat split.
  - split; [|split; [|done]].
    + run_all. answer_with Hq. destruct ans as [pe|[|row rows]].
      * unfold with_default_status. by rewrite pg_error_no_status.
      * reflexivity.
      * cbn [first_row truthy negb orb get_opt].
        destruct (truthy (field row "exito")); cbn [negb fst snd]; [|done].
        cbn [interpolated]. unfold js_to_string.
        destruct (has_string_form (d "idVariableCognitiva")); cbn [Res_bind andb fst];
          [|by eexists].
        destruct (has_string_form (d "numeroDocumento")); cbn [Res_bind fst]; [done|by eexists].
    + run_all. answer_with Hq. destruct ans as [pe|[|row rows]].
      * unfold with_default_status. by rewrite pg_error_no_status.
      * reflexivity.
      * cbn [first_row truthy negb orb get_opt].
        destruct (truthy (field row "exito")); cbn [negb fst snd]; [|done].
        cbn [interpolated]. unfold js_to_string.
        destruct (has_string_form (d "idVariableCognitiva")); cbn [Res_bind andb fst];
          [|by eexists].
        destruct (has_string_form (d "numeroDocumento")); cbn [Res_bind fst]; [done|by eexists].
Qed.

(** X12.  [obtenerIdEstudiantePorDocumentoService] looks a student up by
    document.  A blank type or number gives a failure object with
    [statusCode] 400 and no statement is sent.  Otherwise one statement is
    sent, with both values trimmed, and the service returns the
    identifier found, or a failure object with [statusCode] 404 when the
    database gives no row or an empty identifier; an error of the driver is
    thrown on with [statusCode] 500 added. *)
Theorem obtenerIdEstudiante_outcome
    (tipoDocumento numeroDocumento : JsVal) (st : St) (ans : PgError + list Row) :
  (forall q, answer_to q st = ans) ->
  let run := UtilidadesService.obtenerIdEstudiantePorDocumentoService tipoDocumento numeroDocumento in
  let no_encontrado :=
    obj [("success", JBool false);
         ("message", JStr "No se encontró estudiante con el tipo y número de documento especificados.");
         ("statusCode", JNum 404)] in
  if blank tipoDocumento || blank numeroDocumento then
    (run st).2 = st
    /\ exists message,
         (run st).1 = Ret (obj [("success", JBool false); ("message", JStr message);
                                ("statusCode", JNum 400)])
  else
    (run st).1
    = match ans with
      | inl pe => Throw (<[ "statusCode" := JNum 500 ]> (pg_error_obj pe))
      | inr [] => Ret no_encontrado
      | inr (row :: _) =>
          if truthy (field row "estudiante_id")
          then Ret (obj [("success", JBool true); ("data", field row "estudiante_id");
                         ("message", JStr "ID de estudiante obtenido exitosamente.")])
          else Ret no_encontrado
      end
    /\ statements (new_events run st)
       = [ {| sql := "SELECT CC.obteneridestudiantepordocumentoufs($1, $2) AS estudiante_id;";
              params := [JStr (trim (str_of tipoDocumento)); JStr (trim (str_of numeroDocumento))] |} ].
Proof.
  intros Hq run no_encontrado. unfold run, UtilidadesService.obtenerIdEstudiantePorDocumentoService.
  destruct (blank tipoDocumento) eqn:H1; [split; [done|by eexists]|].
  destruct (blank numeroDocumento) eqn:H2; [split; [done|by eexists]|].
  cbn [orb].
  destruct (blank_false _ H1) as [s1 ->], (blank_false _ H2) as [s2 ->].
  cbn [js_trim str_of]. step_lift.
  split.
  - unfold UtilidadesModel.obtenerIdEstudiantePorDocumentoDB. run_all. answer_with Hq.
    destruct ans as [pe|[|row rows]].
    + unfold with_default_status. by rewrite pg_error_no_status.
    + reflexivity.
    + destruct (truthy (field row "estudiante_id")) eqn:E; cbn [fst snd]; by rewrite ?E.
  - rewrite new_events_try by trace_side.
    rewrite new_events_bind by trace_side.
    rewrite new_events_call by trace_side.
    unfold UtilidadesModel.obtenerIdEstudiantePorDocumentoDB.
    rewrite new_events_query by trace_side. reflexivity.
Qed.

End VariableFacts.

Section VariableRuns.
#[local] Existing Instance Node.runtime.
#[local] Existing Instance Scripted.database.

Lemma variable_abandono_outcome_witness :
  (@VariablesCognitivasService.abandonarVariableCognitiva Node.runtime Scripted.database
     datos_abandono (Scripted.start [inr [fila_sin_exito]])).1
  = Throw (clientError (JStr "La variable ya fue abandonada.") 400).
Proof.
  exact (proj1 (@variable_abandono_outcome Node.runtime Scripted.database datos_abandono
                  (Scripted.start [inr [fila_sin_exito]]) (inr [fila_sin_exito])
                  eq_refl (fun q => eq_refl))).
Defined.

(** An identifier that is the object [{"toString": 1}] is sent to the
    database as it is; the row says success, and the log message of the
    service then fails: the service throws a TypeError with [statusCode]
    500. *)
Example abandonar_id_objeto :
  let r :=
    @VariablesCognitivasService.abandonarVariableCognitiva Node.runtime Scripted.database
      abandono_id_objeto (Scripted.start [inr [fila_con_exito]]) in
  (exists msg, r.1 = Throw (<[ "statusCode" := JNum 500 ]> (TypeError msg)))
  /\ length (statements (trace r.2)) = 1%nat.
Proof. split; [by eexists|by vm_compute]. Qed.

Lemma obtenerIdEstudiante_outcome_witness :
  let run :=
    @UtilidadesService.obtenerIdEstudiantePorDocumentoService Node.runtime Scripted.database
      (JStr " CC ") (JStr "1020304050") in
  (run (Scripted.start [inr []])).1
  = Ret (obj [("success", JBool false);
              ("message", JStr "No se encontró estudiante con el tipo y número de documento especificados.");
              ("statusCode", JNum 404)])
  /\ statements (new_events run (Scripted.start [inr []]))
     = [ {| sql := "SELECT CC.obteneridestudiantepordocumentoufs($1, $2) AS estudiante_id;";
            params := [JStr "CC"; JStr "1020304050"] |} ].
Proof.
  exact (@obtenerIdEstudiante_outcome Node.runtime Scripted.database
           (JStr " CC ") (JStr "1020304050") (Scripted.start [inr []]) (inr [])
           (fun q => eq_refl)).
Defined.

End VariableRuns.

(** ** Sessions *)

Section SessionFacts.
Context {rt : Runtime} {db : Database}.
Import EntrenamientoCognitivoService.

(** X13.  [crearNuevaSesion] with a missing student or variable name
    throws a client error 400 and touches nothing.  Otherwise it sends one
    statement, the call of CC.CrearSesionEntrenamientoUFT, whose fourth
    parameter is the start date given or, when none is given, the time of
    the clock, and whose fifth, the observation, is always the empty
    string.  The session is created when the row carries a
    [sesionentrenamientoid]; no row, or a row without it, is a client
    error 400; an error of the driver is thrown on with [statusCode] 500
    added. *)
Theorem crearNuevaSesion_outcome (datos : JsVal) (st : St) (ans : PgError + list Row) :
  is_nullish datos = false ->
  (forall q, answer_to q st = ans) ->
  let d := get_opt datos in
  let run := crearNuevaSesion datos in
  if negb (truthy (d "siglaTipoDocEstudiante")) || negb (truthy (d "numeroDocEstudiante"))
     || negb (truthy (d "nombreVariableCognitiva"))
  then run st = (Throw (clientError
                          (JStr "Se requieren los datos del estudiante y el nombre de la variable.") 400),
                 st)
  else
    statements (new_events run st)
    = [ {| sql := "SELECT * FROM CC.CrearSesionEntrenamientoUFT($1, $2, $3, $4, $5);";
           params := [d "siglaTipoDocEstudiante"; d "numeroDocEstudiante";
                      d "nombreVariableCognitiva";
                      if truthy (d "fechaInicio") then d "fechaInicio"
                      else JDate (clock (world st));
                      JStr ""] |} ]
    /\ (run st).1
       = match ans with
         | inl pe => Throw (<[ "statusCode" := JNum 500 ]> (pg_error_obj pe))
         | inr [] => Throw (clientError (JStr "Error al crear la sesión en la base de datos.") 400)
         | inr (row :: _) =>
             if truthy (field row "sesionentrenamientoid")
             then Ret (obj [("mensaje", JStr "Sesión creada exitosamente"); ("data", JObj row)])
             else Throw (clientError
                           (js_or (field row "mensaje")
                                  (JStr "Error al crear la sesión en la base de datos.")) 400)
         end.
Proof.
  intros Hd Hq d run. unfold run, crearNuevaSesion, destructure.
  rewrite Hd. step_lift. fold d.
  destruct (negb (truthy (d "siglaTipoDocEstudiante")) || negb (truthy (d "numeroDocEstudiante"))
            || negb (truthy (d "nombreVariableCognitiva"))) eqn:Hinc.
  - unfold try_catch, M_bind, lift, throwClientError, throw, with_default_status, clientError.
    by rewrite field_insert_eq.
  - step_lift. split.
    + rewrite new_events_try by trace_side.
      rewrite new_events_now, new_events_bind by trace_side.
      rewrite new_events_call by trace_side.
      unfold EntrenamientoModel.crearSesionDB. cbn [get_prop obj]. step_lift.
      rewrite new_events_query by trace_side. reflexivity.
    + unfold EntrenamientoModel.crearSesionDB. cbn [get_prop obj]. step_lift.
      destruct (truthy (d "fechaInicio")); run_all; unfold new_Date; cbn [fst snd world trace];
        answer_with Hq; (destruct ans as [pe|[|row rows]];
          [ unfold with_default_status; by rewrite pg_error_no_status
          | reflexivity
          | cbn [first_row truthy negb orb get_opt];
            by destruct (truthy (field row "sesionentrenamientoid")) ]).
Qed.

(** X14.  [iniciarSesion] sends the call of
    CC.IniciarSesionEntrenamientoUFT with the identifier as it came, and
    nothing else.  The session is started when the row's [exito] is
    truthy; no row, or a falsy [exito], is a client error 400 with the
    row's message; an error of the driver is thrown on with [statusCode]
    500 added. *)
Theorem iniciarSesion_outcome (idSesion : JsVal) (st : St) (ans : PgError + list Row) :
  (forall q, answer_to q st = ans) ->
  (iniciarSesion idSesion st).1
  = match ans with
    | inl pe => Throw (<[ "statusCode" := JNum 500 ]> (pg_error_obj pe))
    | inr [] => Throw (clientError (JStr "No se pudo iniciar la sesión.") 400)
    | inr (row :: _) =>
        if truthy (field row "exito")
        then Ret (obj [("mensaje", JStr "Sesión iniciada correctamente"); ("data", JObj row)])
        else Throw (clientError (js_or (field row "mensaje") (JStr "No se pudo iniciar la sesión.")) 400)
    end
  /\ statements (new_events (iniciarSesion idSesion) st)
     = [ {| sql := "SELECT * FROM CC.IniciarSesionEntrenamientoUFT($1);"; params := [idSesion] |} ].
Proof.
  intros Hq. unfold iniciarSesion. split.
  - unfold EntrenamientoModel.iniciarSesionDB. run_all. answer_with Hq.
    destruct ans as [pe|[|row rows]].
    + unfold with_default_status. by rewrite pg_error_no_status.
    + reflexivity.
    + cbn [first_row truthy negb orb get_opt]. by destruct (truthy (field row "exito")).
  - rewrite new_events_try by trace_side.
    rewrite new_events_bind by trace_side.
    rewrite new_events_call by trace_side.
    unfold EntrenamientoModel.iniciarSesionDB.
    rewrite new_events_query by trace_side. reflexivity.
Qed.

(** X15.  [finalizarSesion] refuses, with a client error 400 and without
    touching the database, an identifier that is not a UUID and metrics or
    an initial level that are not plain objects.  Past these checks, and
    with a [mensaje] column that is text: an error of the driver is
    thrown on with [statusCode] 500 added; no row, or a row whose message
    is missing or empty, is an error 500; a message containing "Error" or
    "error" (in exactly these two spellings) is a client error 400 with
    that message; any other message is the success. *)
Theorem finalizarSesion_outcome
    (idSesion nuevasMetricas nuevoNivelInicial : JsVal) (st : St) (ans : PgError + list Row) :
  (forall q, answer_to q st = ans) ->
  (forall row rest, ans = inr (row :: rest) -> str_or_absent (field row "mensaje")) ->
  let run := finalizarSesion idSesion nuevasMetricas nuevoNivelInicial in
  let sin_resultado : Res JsVal :=
    Throw (clientError (JStr "Error al finalizar la sesión en la base de datos.") 500) in
  if negb (truthy idSesion) || negb (isValidUUID idSesion)
     || no_es_objeto nuevasMetricas || no_es_objeto nuevoNivelInicial
  then (run st).2 = st
       /\ exists message, (run st).1 = Throw (clientError (JStr message) 400)
  else
    (run st).1
    = match ans with
      | inl pe => Throw (<[ "statusCode" := JNum 500 ]> (pg_error_obj pe))
      | inr [] => sin_resultado
      | inr (row :: _) =>
          match field row "mensaje" with
          | JStr s =>
              if String.eqb s "" then sin_resultado
              else if str_includes "Error" s || str_includes "error" s
              then Throw (clientError (JStr s) 400)
              else Ret (obj [("mensaje", JStr s);
                             ("data", obj [("idSesion", field row "idsesion");
                                           ("detalles", field row "detalles")])])
          | _ => sin_resultado
          end
      end.
Proof.
  intros Hq Hmsg run sin_resultado.
  unfold run, sin_resultado, finalizarSesion.
  destruct (negb (truthy idSesion) || negb (isValidUUID idSesion)) eqn:H1.
  { cbn [orb]. split; [done|]. eexists. unfold try_catch, M_bind, lift, throwClientError, throw.
    cbn [fst]. unfold with_default_status, clientError. by rewrite field_insert_eq. }
  cbn [orb]. step_lift.
  destruct (no_es_objeto nuevasMetricas) eqn:H2.
  { cbn [orb]. split; [done|]. eexists. unfold try_catch, M_bind, lift, throwClientError, throw.
    cbn [fst]. unfold with_default_status, clientError. by rewrite field_insert_eq. }
  cbn [orb]. step_lift.
  destruct (no_es_objeto nuevoNivelInicial) eqn:H3.
  { split; [done|]. eexists. unfold try_catch, M_bind, lift, throwClientError, throw.
    cbn [fst]. unfold with_default_status, clientError. by rewrite field_insert_eq. }
  step_lift. unfold EntrenamientoModel.finalizarSesionDB. run_all. answer_with Hq.
  destruct ans as [pe|[|row rows]].
  - unfold with_default_status. by rewrite pg_error_no_status.
  - settle_cbn. unfold with_default_status, clientError. by rewrite field_insert_eq.
  - specialize (Hmsg row rows eq_refl).
    cbn [first_row truthy negb orb get_opt Res_bind]. rewrite get_prop_obj.
    destruct (field row "mensaje") as [| |b|n|s|l|m|t]; try done.
    cbn [truthy]. destruct (String.eqb s ""); cbn [negb Res_bind throwClientError fst].
    + unfold with_default_status, clientError. by rewrite field_insert_eq.
    + cbn [js_includes Res_bind].
      destruct (str_includes "Error" s); cbn [orb Res_bind throwClientError fst].
      * unfold with_default_status, clientError. by rewrite field_insert_eq.
      * destruct (str_includes "error" s); cbn [Res_bind throwClientError fst]; [|done].
        unfold with_default_status, clientError. by rewrite field_insert_eq.
Qed.

(** X16.  [finalizarAsignacionVariable] refuses an identifier that is not
    a UUID with a client error 400, touching nothing.  Otherwise: an error
    of the driver with SQLSTATE P0001 (an exception raised by the stored
    function) becomes a client error 400 with the driver's message, and
    every other error of the driver the generic error 500, its message not
    passed on; no row is an error 500; a row whose [exito] is falsy is a
    client error 400 with the row's message; a truthy [exito] is the
    success. *)
Theorem finalizarAsignacionVariable_outcome
    (idAsignacionVariable : JsVal) (st : St) (ans : PgError + list Row) :
  (forall q, answer_to q st = ans) ->
  let run := finalizarAsignacionVariable idAsignacionVariable in
  if negb (truthy idAsignacionVariable) || negb (isValidUUID idAsignacionVariable)
  then run st
       = (Throw (clientError
                   (JStr "El ID de la asignación de variable es requerido y debe ser un UUID válido.")
                   400), st)
  else
    (run st).1
    = match ans with
      | inl pe =>
          if bool_decide (pg_code pe = Some "P0001")
          then Throw (clientError (JStr (pg_message pe)) 400)
          else Throw (<[ "statusCode" := JNum 500 ]>
                        (new_Error (JStr "Ocurrió un error inesperado en el servidor al intentar finalizar la asignación de variable.")))
      | inr [] =>
          Throw (clientError
                   (JStr "Error al finalizar la asignación de variable en la base de datos.") 500)
      | inr (row :: _) =>
          if truthy (field row "exito")
          then Ret (obj [("mensaje", field row "mensaje");
                         ("data", obj [("asignacionId", field row "asignacionid");
                                       ("detalles", field row "detalles")])])
          else Throw (clientError
                        (js_or (field row "mensaje")
                               (JStr "No se pudo finalizar la asignación de variable.")) 400)
      end.
Proof.
  intros Hq run. unfold run, finalizarAsignacionVariable.
  destruct (negb (truthy idAsignacionVariable)
            || negb (isValidUUID idAsignacionVariable)) eqn:H1.
  { unfold try_catch, M_bind, lift, throwClientError, throw, clientError.
    by rewrite field_insert_eq. }
  step_lift. unfold EntrenamientoModel.finalizarAsignacionVariableDB. run_all. answer_with Hq.
  destruct ans as [pe|[|row rows]].
  - rewrite pg_error_no_status, pg_error_code, pg_error_message. cbn [truthy].
    destruct (pg_code pe) as [c|]; cbn [str_eq].
    + destruct (String.eqb_spec c "P0001") as [->|Hne].
      * by rewrite bool_decide_eq_true_2.
      * rewrite bool_decide_eq_false_2; [done|]. by intros [= ->].
    + by rewrite bool_decide_eq_false_2.
  - settle_cbn. unfold clientError. by rewrite field_insert_eq.
  - cbn [first_row truthy negb orb get_opt Res_bind].
    destruct (truthy (field row "exito")); cbn [negb Res_bind throwClientError fst]; [done|].
    unfold clientError. by rewrite field_insert_eq.
Qed.

(** X17.  [actualizarObservacionSesion] returns a failure object 400,
    without touching the database, when the observation is not a string.
    Otherwise it sends the call of CC.ActualizarObservacionSesionUFT with
    the identifier and the observation as they came.  In this service an
    error of the driver is thrown on with [statusCode] 400, not 500; no
    row and a row without [sesionid] are client errors 400 as well. *)
Theorem actualizarObservacionSesion_outcome
    (idSesion nuevaObservacion : JsVal) (st : St) (ans : PgError + list Row) :
  (forall q, answer_to q st = ans) ->
  let run := actualizarObservacionSesion idSesion nuevaObservacion in
  if is_string nuevaObservacion then
    (run st).1
    = match ans with
      | inl pe => Throw (<[ "statusCode" := JNum 400 ]> (pg_error_obj pe))
      | inr [] =>
          Throw (clientError (JStr "La operación en la base de datos no devolvió un resultado.") 400)
      | inr (row :: _) =>
          if truthy (field row "sesionid")
          then Ret (obj [("success", JBool true); ("data", JObj row);
                         ("message", field row "mensaje")])
          else Throw (clientError (field row "mensaje") 400)
      end
    /\ statements (new_events run st)
       = [ {| sql := "SELECT * FROM CC.ActualizarObservacionSesionUFT($1, $2);";
              params := [idSesion; nuevaObservacion] |} ]
  else
    run st = (Ret (failure (JStr "La observación debe ser una cadena de texto.") 400), st).
Proof.
  intros Hq run. unfold run, actualizarObservacionSesion.
  destruct (is_string nuevaObservacion); cbn [negb]; [|done].
  split.
  - unfold EntrenamientoModel.actualizarObservacionSesionDB. run_all. answer_with Hq.
    destruct ans as [pe|[|row rows]].
    + unfold with_default_status. by rewrite pg_error_no_status.
    + settle_cbn. unfold with_default_status, new_Error. by rewrite field_singleton_ne.
    + cbn [truthy andb get_opt].
      destruct (truthy (field row "sesionid")); cbn [fst]; [done|].
      unfold with_default_status, clientError. by rewrite field_insert_eq.
  - rewrite new_events_try by trace_side.
    rewrite new_events_bind by trace_side.
    rewrite new_events_call by trace_side.
    unfold EntrenamientoModel.actualizarObservacionSesionDB.
    rewrite new_events_query by trace_side. reflexivity.
Qed.

End SessionFacts.

Section SessionRuns.
#[local] Existing Instance Node.runtime.
#[local] Existing Instance Scripted.database.

Lemma crearNuevaSesion_outcome_witness :
  let run := @EntrenamientoCognitivoService.crearNuevaSesion Node.runtime Scripted.database
               datos_sesion in
  statements (new_events run (Scripted.start [inr []]))
  = [ {| sql := "SELECT * FROM CC.CrearSesionEntrenamientoUFT($1, $2, $3, $4, $5);";
         params := [JStr "CC"; JStr "1020304050"; JStr "Memoria"; JDate 0; JStr ""] |} ]
  /\ (run (Scripted.start [inr []])).1
     = Throw (clientError (JStr "Error al crear la sesión en la base de datos.") 400).
Proof.
  exact (@crearNuevaSesion_outcome Node.runtime Scripted.database datos_sesion
           (Scripted.start [inr []]) (inr []) eq_refl (fun q => eq_refl)).
Defined.

Lemma iniciarSesion_outcome_witness :
  (@EntrenamientoCognitivoService.iniciarSesion Node.runtime Scripted.database (JStr un_uuid)
     (Scripted.start [inl sin_conexion])).1
  = Throw (<[ "statusCode" := JNum 500 ]> (pg_error_obj sin_conexion)).
Proof.
  exact (proj1 (@iniciarSesion_outcome Node.runtime Scripted.database (JStr un_uuid)
                  (Scripted.start [inl sin_conexion]) (inl sin_conexion) (fun q => eq_refl))).
Defined.

Lemma finalizarSesion_outcome_witness :
  (@EntrenamientoCognitivoService.finalizarSesion Node.runtime Scripted.database
     (JStr un_uuid) (obj []) (obj []) (Scripted.start [inr [fila_sesion_con_error]])).1
  = Throw (clientError (JStr "Error: la sesión no está en curso.") 400).
Proof.
  refine (@finalizarSesion_outcome Node.runtime Scripted.database
            (JStr un_uuid) (obj []) (obj []) (Scripted.start [inr [fila_sesion_con_error]])
            (inr [fila_sesion_con_error]) (fun q => eq_refl) _).
  intros row rest [= <- <-]. vm_compute. exact I.
Defined.

Lemma finalizarAsignacionVariable_outcome_witness :
  (@EntrenamientoCognitivoService.finalizarAsignacionVariable Node.runtime Scripted.database
     (JStr un_uuid) (Scripted.start [inl excepcion_de_funcion])).1
  = Throw (clientError (JStr "La asignación ya fue finalizada.") 400).
Proof.
  exact (@finalizarAsignacionVariable_outcome Node.runtime Scripted.database (JStr un_uuid)
           (Scripted.start [inl excepcion_de_funcion]) (inl excepcion_de_funcion)
           (fun q => eq_refl)).
Defined.

Lemma actualizarObservacionSesion_outcome_witness :
  (@EntrenamientoCognitivoService.actualizarObservacionSesion Node.runtime Scripted.database
     (JStr un_uuid) (JStr "Buen avance.") (Scripted.start [inl sin_conexion])).1
  = Throw (<[ "statusCode" := JNum 400 ]> (pg_error_obj sin_conexion)).
Proof.
  exact (proj1 (@actualizarObservacionSesion_outcome Node.runtime Scripted.database
                  (JStr un_uuid) (JStr "Buen avance.") (Scripted.start [inl sin_conexion])
                  (inl sin_conexion) (fun q => eq_refl))).
Defined.

End SessionRuns.

(** ** Trainers *)

Section TrainerFacts.
Context {rt : Runtime} {db : Database}.

(** X18.  [registrarEntrenador] never passes the text of a driver error
    on.  Whatever the driver rejects the statement with, the service
    throws one of four fixed messages: with [statusCode] 409 when the
    error is a unique violation (SQLSTATE 23505, or a message naming
    "unicidad" or one of the two constraints of CC.entrenador), and with
    500 otherwise. *)
Theorem registrarEntrenador_masks_driver_errors (datos : JsVal) (st : St) (pe : PgError) :
  is_nullish datos = false ->
  (forall q, answer_to q st = inl pe) ->
  let lower := toLowerCase (pg_message pe) in
  let unicidad :=
    match pg_code pe with Some c => String.eqb c "23505" | None => false end
    || str_includes "unicidad" lower || str_includes "ccentrenador001uq" lower
    || str_includes "ccentrenador002uq" lower in
  exists message,
    (EntrenadorService.registrarEntrenador datos st).1
    = Throw (clientError (JStr message) (if unicidad then 409 else 500))
    /\ existsb (String.eqb message)
         [ "El correo electrónico ingresado ya está registrado.";
           "Ya existe un entrenador con ese tipo y número de documento.";
           "Ya existe un entrenador con el documento o correo proporcionado.";
           "Ocurrió un error inesperado al registrar al entrenador." ] = true.
Proof.
  intros Hd Hq lower unicidad.
  unfold EntrenadorService.registrarEntrenador, EntrenadorModel.registrar, destructure.
  rewrite Hd. step_lift. run_all. answer_with Hq.
  rewrite pg_error_no_status. cbn [truthy].
  unfold EntrenadorService.clasificarErrorRegistro.
  rewrite pg_error_message, pg_error_code, lower_of_message.
  cbn [Res_bind]. fold lower.
  assert (str_eq match pg_code pe with Some c => JStr c | None => JUndefined end "23505"
          = match pg_code pe with Some c => String.eqb c "23505" | None => false end) as ->.
  { by destruct (pg_code pe). }
  fold unicidad. destruct unicidad.
  - destruct (str_includes "correo" lower).
    + eexists. split; reflexivity.
    + rewrite pg_error_detail. destruct (pg_detail pe) as [d|]; cbn [truthy].
      * destruct (negb (String.eqb d "")); cbn [js_toLowerCase Res_bind].
        -- destruct (str_includes "correo" (toLowerCase d)); [eexists; split; reflexivity|].
           destruct (str_includes "documento" lower); eexists; split; reflexivity.
        -- destruct (str_includes "documento" lower); eexists; split; reflexivity.
      * cbn [Res_bind].
        destruct (str_includes "documento" lower); eexists; split; reflexivity.
  - eexists. split; reflexivity.
Qed.

(** X19.  How [crearEntrenadorEntrenamientoService] classifies an error of
    the driver, for two well-formed identifiers: a foreign-key violation
    (SQLSTATE 23503) is a client error 404 with one of three fixed
    messages, a unique violation (23505) a conflict 409 with a fixed
    message, and any other error is thrown on as the driver gave it, with
    [statusCode] 500 added. *)
Theorem crearEntrenadorEntrenamiento_classifies_driver_errors
    (entrenadorId entrenamientoCognitivoId : JsVal) (st : St) (pe : PgError) :
  blank entrenadorId = false -> blank entrenamientoCognitivoId = false ->
  match_shape uuid_shape (string_form entrenadorId) = true ->
  match_shape uuid_shape (string_form entrenamientoCognitivoId) = true ->
  (forall q, answer_to q st = inl pe) ->
  let r :=
    (EntrenadorService.crearEntrenadorEntrenamientoService entrenadorId entrenamientoCognitivoId st).1 in
  let sin_clasificar := r = Throw (<[ "statusCode" := JNum 500 ]> (pg_error_obj pe)) in
  match pg_code pe with
  | Some code =>
      if String.eqb code "23503"
      then exists message,
             r = Throw (clientError (JStr message) 404)
             /\ existsb (String.eqb message)
                  [ "El ID del entrenador proporcionado no existe en la base de datos.";
                    "El ID del entrenamiento cognitivo proporcionado no existe en la base de datos.";
                    "Uno de los IDs proporcionados no existe en la base de datos." ] = true
      else if String.eqb code "23505"
      then r = Throw (clientError
                        (JStr "Ya existe una relación entre este entrenador y este entrenamiento cognitivo.")
                        409)
      else sin_clasificar
  | None => sin_clasificar
  end.
Proof.
  intros H1 H2 U1 U2 Hq r sin_clasificar. unfold sin_clasificar, r.
  unfold EntrenadorService.crearEntrenadorEntrenamientoService.
  rewrite H1, H2. cbn [negb Res_bind].
  destruct (blank_false _ H1) as [s1 ->], (blank_false _ H2) as [s2 ->].
  cbn [string_form] in U1, U2. cbn [str_of]. rewrite U1, U2. cbn [negb Res_bind]. step_lift.
  cbn [js_trim]. step_lift.
  unfold EntrenadorModel.crearEntrenadorEntrenamiento. run_all. answer_with Hq.
  unfold EntrenadorService.clasificarErrorRelacion.
  rewrite pg_error_code, pg_error_message.
  destruct (pg_code pe) as [code|]; cbn [str_eq].
  - destruct (String.eqb code "23503").
    + rewrite lower_of_message. cbn [Res_bind].
      destruct (str_includes "entrenador" _); [eexists; split; reflexivity|].
      destruct (str_includes "entrenamientocognitivo" _); eexists; split; reflexivity.
    + destruct (String.eqb code "23505"); [reflexivity|].
      cbn [Res_bind]. unfold with_default_status. by rewrite pg_error_no_status.
  - cbn [Res_bind]. unfold with_default_status. by rewrite pg_error_no_status.
Qed.

(** X20.  What [desactivarEntrenador] answers.  An error of the driver is
    thrown on with [statusCode] 500 added, and no row is an error 500.  A
    row whose [exito] is truthy is the success.  A row whose [exito] is
    falsy is a client error with the row's [mensaje]: 404 when the
    message, lower-cased, contains "no encontrado", and 400 otherwise; a
    message that is not a string cannot be lower-cased, and the error is
    then a 500. *)
Theorem desactivarEntrenador_outcome (entrenadorID : JsVal) (st : St) (ans : PgError + list Row) :
  (forall q, answer_to q st = ans) ->
  let r := (EntrenadorService.desactivarEntrenador entrenadorID st).1 in
  match ans with
  | inl pe => r = Throw (<[ "statusCode" := JNum 500 ]> (pg_error_obj pe))
  | inr [] =>
      r = Throw (clientError
                   (JStr "No se pudo completar la desactivación, la operación no produjo resultado.") 500)
  | inr (row :: _) =>
      if truthy (field row "exito")
      then r = Ret (obj [("success", JBool true); ("message", field row "mensaje");
                         ("data", obj [("entrenadorId", field row "entrenadorid")])])
      else match field row "mensaje" with
           | JStr s =>
               r = Throw (clientError (JStr s)
                            (if str_includes "no encontrado" (toLowerCase s) then 404 else 400))
           | _ => exists e, r = Throw e /\ field e "statusCode" = JNum 500
           end
  end.
Proof.
  intros Hq r. unfold r, EntrenadorService.desactivarEntrenador, EntrenadorModel.desactivar.
  run_all. answer_with Hq. destruct ans as [pe|[|row rows]].
  - unfold with_default_status. by rewrite pg_error_no_status.
  - reflexivity.
  - cbn [truthy negb Res_bind get_opt]. destruct (truthy (field row "exito")); [reflexivity|].
    cbn [negb]. rewrite get_prop_obj. cbn [Res_bind].
    destruct (field row "mensaje") as [| |b|n|s|l|m|t]; cbn [js_toLowerCase Res_bind];
      try (eexists; split; [reflexivity|];
           unfold with_default_status, TypeError, not_a_function, TypeError;
           rewrite ?field_insert_ne by done; unfold new_Error;
           rewrite ?field_singleton_ne by done; cbn [truthy]; apply field_insert_eq).
    unfold with_default_status, clientError. rewrite field_insert_eq.
    by destruct (str_includes "no encontrado" (toLowerCase s)).
Qed.

End TrainerFacts.

Section TrainerRuns.
#[local] Existing Instance Node.runtime.
#[local] Existing Instance Scripted.database.

Lemma registrarEntrenador_masks_driver_errors_witness :
  exists message,
    (@EntrenadorService.registrarEntrenador Node.runtime Scripted.database
       (obj [("pCorreo", JStr "ana@universidad.edu.co")])
       (Scripted.start [inl correo_repetido])).1
    = Throw (clientError (JStr message) 409)
    /\ existsb (String.eqb message)
         [ "El correo electrónico ingresado ya está registrado.";
           "Ya existe un entrenador con ese tipo y número de documento.";
           "Ya existe un entrenador con el documento o correo proporcionado.";
           "Ocurrió un error inesperado al registrar al entrenador." ] = true.
Proof.
  exact (@registrarEntrenador_masks_driver_errors Node.runtime Scripted.database
           (obj [("pCorreo", JStr "ana@universidad.edu.co")])
           (Scripted.start [inl correo_repetido]) correo_repetido eq_refl (fun q => eq_refl)).
Defined.

Lemma crearEntrenadorEntrenamiento_classifies_driver_errors_witness :
  exists message,
    (@EntrenadorService.crearEntrenadorEntrenamientoService Node.runtime Scripted.database
       (JStr un_uuid) (JStr otro_uuid) (Scripted.start [inl entrenador_desconocido])).1
    = Throw (clientError (JStr message) 404)
    /\ existsb (String.eqb message)
         [ "El ID del entrenador proporcionado no existe en la base de datos.";
           "El ID del entrenamiento cognitivo proporcionado no existe en la base de datos.";
           "Uno de los IDs proporcionados no existe en la base de datos." ] = true.
Proof.
  exact (@crearEntrenadorEntrenamiento_classifies_driver_errors Node.runtime Scripted.database
           (JStr un_uuid) (JStr otro_uuid) (Scripted.start [inl entrenador_desconocido])
           entrenador_desconocido eq_refl eq_refl eq_refl eq_refl (fun q => eq_refl)).
Defined.

Lemma desactivarEntrenador_outcome_witness :
  (@EntrenadorService.desactivarEntrenador Node.runtime Scripted.database (JStr un_uuid)
     (Scripted.start [inr [fila_no_encontrado]])).1
  = Throw (clientError (JStr "Entrenador No Encontrado.") 404).
Proof.
  exact (@desactivarEntrenador_outcome Node.runtime Scripted.database (JStr un_uuid)
           (Scripted.start [inr [fila_no_encontrado]]) (inr [fila_no_encontrado])
           (fun q => eq_refl)).
Defined.

End TrainerRuns.

(** ** Answers of the handlers *)

Section ResponseFacts.
Context {rt : Runtime} {db : Database}.

(** X21.  GET .../facultad/:facultadId/estudiantes.  An identifier that
    is missing or not a UUID is answered 400 at once, the database
    untouched.  Otherwise the handler sends one statement with the
    identifier, and answers 200 with the rows, or 200 with an empty list
    and a message of its own when there are none; an error of the driver
    is handed to [next] as it is. *)
Theorem obtenerEstudiantesPorFacultad_response (req : Request) (st : St) (ans : PgError + list Row) :
  (forall q, answer_to q st = ans) ->
  let facultadId := field (req_params req) "facultadId" in
  let run := EntrenamientoCognitivoController.obtenerEstudiantesPorFacultadController req in
  if negb (truthy facultadId) || negb (match_shape uuid_shape (string_form facultadId)) then
    run st
    = (Ret (Sent (JNum 400)
              (obj [("success", JBool false);
                    ("message", JStr "El ID de la facultad proporcionado es inválido o no tiene el formato UUID correcto.")])),
       st)
  else
    (run st).1
    = Ret match ans with
          | inl pe => Next (pg_error_obj pe)
          | inr [] =>
              Sent (JNum 200)
                (obj [("success", JBool true);
                      ("message", JStr ("No se encontraron estudiantes para la facultad con ID "
                                        +:+ string_form facultadId +:+ "."));
                      ("data", JArr [])])
          | inr rows =>
              Sent (JNum 200)
                (obj [("success", JBool true);
                      ("message", JStr ("Datos de estudiantes para la facultad ID "
                                        +:+ string_form facultadId +:+ " obtenidos correctamente."));
                      ("data", rows_array rows)])
          end
    /\ statements (new_events run st)
       = [ {| sql := "SELECT * FROM CC.obtenerestudiantesporfacultaduft($1);";
              params := [facultadId] |} ].
Proof.
  intros Hq facultadId run.
  unfold run, EntrenamientoCognitivoController.obtenerEstudiantesPorFacultadController.
  fold facultadId.
  destruct (negb (truthy facultadId)) eqn:Ht; [done|]. cbn [orb].
  destruct (negb (match_shape uuid_shape (string_form facultadId))); [done|].
  unfold EntrenamientoModel.obtenerEstudiantesPorFacultad. rewrite Ht. split.
  - run_all. answer_with Hq. by destruct ans as [pe|[|row rows]].
  - rewrite new_events_try by trace_side.
    rewrite new_events_bind by trace_side.
    rewrite new_events_call by trace_side.
    rewrite new_events_query by trace_side. reflexivity.
Qed.

(** X22.  GET .../facultad-entrenador/:correo.  This handler answers by
    itself and hands nothing to [next].  An address without "@" is
    answered 400 and no statement is sent.  Otherwise: no row is answered
    404, rows are answered 200 with the bare array as body, and an error of
    the driver is answered 500 with the driver's message in the field
    [error] of the body (or 400, should that message happen to be
    "Correo electrónico inválido."). *)
Theorem obtenerFacultadesPorEmail_response (req : Request) (st : St) (ans : PgError + list Row) :
  (forall q, answer_to q st = ans) ->
  let correo := field (req_params req) "correo" in
  let run := EntrenadorController.obtenerFacultadesPorEmailController req in
  let invalido := Sent (JNum 400) (obj [("message", JStr "Correo electrónico inválido.")]) in
  if negb (truthy correo) || negb (is_string correo) || negb (str_includes "@" (str_of correo)) then
    (run st).1 = Ret invalido /\ statements (new_events run st) = []
  else
    (run st).1
    = Ret match ans with
          | inl pe =>
              if String.eqb (pg_message pe) "Correo electrónico inválido." then invalido
              else Sent (JNum 500)
                     (obj [("message", JStr "Error interno del servidor al obtener facultades.");
                           ("error", JStr (pg_message pe))])
          | inr [] =>
              Sent (JNum 404)
                (obj [("message", JStr "No se encontraron facultades para el entrenador con el correo proporcionado.")])
          | inr rows => Sent (JNum 200) (rows_array rows)
          end.
Proof.
  intros Hq correo run invalido.
  unfold run, invalido, EntrenadorController.obtenerFacultadesPorEmailController,
    EntrenadorService.obtenerFacultadesPorEmailService.
  fold correo.
  destruct (negb (truthy correo) || negb (is_string correo)
            || negb (str_includes "@" (str_of correo))).
  - split; [reflexivity|].
    rewrite new_events_try by trace_side.
    rewrite new_events_bind by trace_side.
    rewrite new_events_call by trace_side.
    unfold new_events, throw, lift. cbn [snd]. by rewrite drop_all.
  - unfold EntrenadorModel.obtenerFacultadesPorEmailDB. run_all. answer_with Hq.
    destruct ans as [pe|[|row rows]]; [|done|done].
    rewrite pg_error_message. cbn [str_eq].
    by destruct (String.eqb_spec (pg_message pe) "Correo electrónico inválido.") as [->|].
Qed.

(** X23.  GET /api/estudiantes/:siglaTipoDoc/:numeroDoc.  The handler
    sends one statement with the two path parameters as they came.  A
    student found is answered 200, the columns of the row spread at the
    top level of the body beside [success] and [message] (a column named
    like one of these two replaces it); none found hands the error 404
    "Estudiante no encontrado." to [next]; an error of the driver hands
    the generic error 500 to [next], the driver's message not passed on. *)
Theorem obtenerEstudiante_response (req : Request) (st : St) (ans : PgError + list Row) :
  (forall q, answer_to q st = ans) ->
  let run := EstudianteController.obtenerEstudianteController req in
  (run st).1
  = Ret match ans with
        | inl _ =>
            Next (<[ "statusCode" := JNum 500 ]>
                    (new_Error (JStr "Ocurrió un error inesperado en el servidor al buscar el estudiante.")))
        | inr [] => Next (clientError (JStr "Estudiante no encontrado.") 404)
        | inr (row :: _) =>
            Sent (JNum 200)
              (JObj (row ∪ list_to_map [("success", JBool true);
                                        ("message", JStr "Estudiante encontrado exitosamente.")]))
        end
  /\ statements (new_events run st)
     = [ {| sql := nl +:+ "    SELECT * FROM cc.obtenerinformacioncompletaestudianteufs($1, $2);"
                   +:+ nl +:+ "  ";
            params := [field (req_params req) "siglaTipoDoc"; field (req_params req) "numeroDoc"] |} ].
Proof.
  intros Hq run.
  unfold run, EstudianteController.obtenerEstudianteController,
    EstudianteService.obtenerEstudiantePorDocumento. split.
  - unfold EstudianteModel.obtenerInformacionCompleta. run_all. answer_with Hq.
    destruct ans as [pe|[|row rows]].
    + by rewrite pg_error_no_status.
    + reflexivity.
    + reflexivity.
  - rewrite new_events_try by trace_side.
    rewrite new_events_bind by trace_side.
    rewrite new_events_call by trace_side.
    rewrite new_events_try by trace_side.
    rewrite new_events_bind by trace_side.
    rewrite new_events_call by trace_side.
    unfold EstudianteModel.obtenerInformacionCompleta.
    rewrite new_events_query by trace_side. reflexivity.
Qed.

(** X24.  PATCH /api/variables-cognitivas/abandonar and .../reactivar,
    handler, service and data access together.  The two handlers answer
    by themselves.  An incomplete body is answered 400; a row whose
    [exito] is truthy is answered 200 with its message; no row, or a
    falsy [exito], is answered 400 with the row's message; and an error of
    the driver is answered 500 with the driver's own message as text of
    the response.  The answer to a row whose [exito] is truthy is 200 only
    if the identifier of the variable and the document number of the body
    can be converted to a string: the service converts them for its log
    message after the statement, and when one of them cannot be converted
    (an object with a property [toString]) the answer is 500 with the
    message of the engine's TypeError. *)
Theorem variable_abandono_response (req : Request) (st : St) (ans : PgError + list Row) :
  is_nullish (req_body req) = false ->
  (forall q, answer_to q st = ans) ->
  let b := get_opt (req_body req) in
  let incompleto :=
    negb (truthy (b "siglaDocumento")) || negb (truthy (b "numeroDocumento"))
    || negb (truthy (b "idVariableCognitiva")) in
  let respuesta (sin_exito interno : string) (r : Res Outcome) : Prop :=
    if incompleto then
      r = Ret (sendError (JNum 400)
                 (JStr "Datos incompletos. Se requiere siglaDocumento, numeroDocumento y idVariableCognitiva.")
                 JUndefined)
    else match ans with
         | inl pe =>
             r = Ret (sendError (JNum 500) (js_or (JStr (pg_message pe)) (JStr interno)) JUndefined)
         | inr [] => r = Ret (sendError (JNum 400) (JStr sin_exito) JUndefined)
         | inr (row :: _) =>
             if truthy (field row "exito") then
               if has_string_form (b "idVariableCognitiva") && has_string_form (b "numeroDocumento")
               then
                 r = Ret (sendSuccess (JNum 200) (field row "mensaje")
                            (obj [("asignacionId", field row "asignacionid");
                                  ("detalles", field row "detalles")]))
               else
                 exists msg,
                   r = Ret (sendError (JNum 500) (js_or (JStr msg) (JStr interno)) JUndefined)
             else
               r = Ret (sendError (JNum 400)
                          (js_or (JStr (string_form (js_or (field row "mensaje") (JStr sin_exito))))
                                 (JStr interno))
                          JUndefined)
         end in
  respuesta "No se pudo completar la operación de abandono."
            "Error interno del servidor al abandonar la variable cognitiva"
            (VariablesCognitivasController.abandonarVariableCognitiva req st).1
  /\ respuesta "No se pudo completar la reactivación."
               "Error interno del servidor al reactivar la variable cognitiva"
               (VariablesCognitivasController.reactivarVariableCognitiva req st).1.
Proof.
  intros Hb Hq b incompleto respuesta.
  unfold VariablesCognitivasController.abandonarVariableCognitiva,
    VariablesCognitivasController.reactivarVariableCognitiva,
    VariablesCognitivasService.abandonarVariableCognitiva,
    VariablesCognitivasService.reactivarVariableCognitiva,
    VariablesCognitivasModel.abandonarVariableCognitiva,
    VariablesCognitivasModel.reactivarVariableCognitiva, destructure, respuesta.
  rewrite Hb. step_lift. fold b. fold incompleto. cbn [is_nullish obj]. step_lift.
  destruct incompleto eqn:Hinc; [done|].
  change (get_opt (obj [("siglaDocumento", ?x); ("numeroDocumento", ?y); ("idVariableCognitiva", ?z)])
            "siglaDocumento") with x.
  change (get_opt (obj [("siglaDocumento", ?x); ("numeroDocumento", ?y); ("idVariableCognitiva", ?z)])
            "numeroDocumento") with y.
  change (get_opt (obj [("siglaDocumento", ?x); ("numeroDocumento", ?y); ("idVariableCognitiva", ?z)])
            "idVariableCognitiva") with z.
  fold incompleto. rewrite Hinc.
  split.
  - run_all. answer_with Hq. destruct ans as [pe|[|row rows]].
    + unfold with_default_status. rewrite pg_error_no_status. cbn [truthy fst].
      rewrite field_insert_eq, field_insert_ne, pg_error_message by done. reflexivity.
    + reflexivity.
    + cbn [first_row]. change (get_opt (JObj row)) with (field row). cbn [truthy negb orb andb].
      destruct (truthy (field row "exito")) eqn:E; cbn [negb fst snd].
      { cbn [interpolated]. unfold js_to_string.
        destruct (has_string_form (b "idVariableCognitiva")); cbn [Res_bind andb fst snd];
          [|by eexists].
        destruct (has_string_form (b "numeroDocumento")); cbn [Res_bind fst snd]; [|by eexists].
        change (get_opt (JObj row)) with (field row). cbn [truthy andb]. by rewrite E. }
      unfold with_default_status, clientError. rewrite field_insert_eq.
      cbn [truthy Z.eqb negb fst]. rewrite field_insert_eq, field_insert_ne by done.
      unfold new_Error. rewrite field_singleton_eq, js_or_defined. reflexivity.
  - run_all. answer_with Hq. destruct ans as [pe|[|row rows]].
    + unfold with_default_status. rewrite pg_error_no_status. cbn [truthy fst].
      rewrite field_insert_eq, field_insert_ne, pg_error_message by done. reflexivity.
    + reflexivity.
    + cbn [first_row]. change (get_opt (JObj row)) with (field row). cbn [truthy negb orb andb].
      destruct (truthy (field row "exito")) eqn:E; cbn [negb fst snd].
      { cbn [interpolated]. unfold js_to_string.
        destruct (has_string_form (b "idVariableCognitiva")); cbn [Res_bind andb fst snd];
          [|by eexists].
        destruct (has_string_form (b "numeroDocumento")); cbn [Res_bind fst snd]; [|by eexists].
        change (get_opt (JObj row)) with (field row). cbn [truthy andb]. by rewrite E. }
      unfold with_default_status, clientError. rewrite field_insert_eq.
      cbn [truthy Z.eqb negb fst]. rewrite field_insert_eq, field_insert_ne by done.
      unfold new_Error. rewrite field_singleton_eq, js_or_defined. reflexivity.
Qed.

(** X25.  GET /api/admin/entrenadores, handler, service and data access
    together.  The filter [nombreFacultad] of the query string, when it is
    there, reaches the database as the only parameter of the statement,
    whose text then has the clause [WHERE $1 = ANY(facultadesAsignadas)];
    without the filter the statement has no [WHERE] and no parameter.  The
    rows are answered 200 with [total] their number and the filter echoed;
    an error of the driver is handed to [next] with [statusCode] 500
    added. *)
Theorem listarTodosLosEntrenadores_response (req : Request) (st : St) (ans : PgError + list Row) :
  (forall q, answer_to q st = ans) ->
  let nombreFacultad := field (req_query req) "nombreFacultad" in
  let filtrosAplicar :=
    if truthy nombreFacultad then obj [("nombreFacultad", nombreFacultad)] else obj [] in
  let run := EntrenadorController.listarTodosLosEntrenadores req in
  (run st).1
  = Ret match ans with
        | inl pe => Next (<[ "statusCode" := JNum 500 ]> (pg_error_obj pe))
        | inr rows =>
            Sent (JNum 200)
              (obj [("message", JStr "Lista de entrenadores obtenida exitosamente.");
                    ("total", JNum (Z.of_nat (length rows)));
                    ("filtrosAplicados", filtrosAplicar);
                    ("entrenadores", rows_array rows)])
        end
  /\ statements (new_events run st)
     = [ if truthy nombreFacultad
         then {| sql := "SELECT * FROM CC.DetalleEntrenadoresFacultadesUV WHERE $1 = ANY(facultadesAsignadas) ORDER BY apellidosEntrenador, nombresEntrenador;";
                 params := [nombreFacultad] |}
         else {| sql := "SELECT * FROM CC.DetalleEntrenadoresFacultadesUV ORDER BY apellidosEntrenador, nombresEntrenador;";
                 params := [] |} ].
Proof.
  intros Hq nombreFacultad filtrosAplicar run.
  unfold run, filtrosAplicar, EntrenadorController.listarTodosLosEntrenadores,
    EntrenadorService.obtenerListaCompletaEntrenadores, EntrenadorModel.obtenerTodos.
  fold nombreFacultad.
  destruct (truthy nombreFacultad) eqn:Ht.
  - change (is_undefined (obj [("nombreFacultad", nombreFacultad)])) with false. cbv iota.
    change (get_prop (obj [("nombreFacultad", nombreFacultad)]) "nombreFacultad")
      with (Ret (A:=JsVal) nombreFacultad).
    step_lift. rewrite Ht.
    change (is_undefined (obj [("nombreFacultad", nombreFacultad)])) with false. cbv iota.
    change (get_prop (obj [("nombreFacultad", nombreFacultad)]) "nombreFacultad")
      with (Ret (A:=JsVal) nombreFacultad).
    step_lift. rewrite Ht. split.
    + run_all. answer_with Hq. destruct ans as [pe|rows].
      * unfold with_default_status. by rewrite pg_error_no_status.
      * cbn [fst get_prop rows_array Res_bind String.eqb Ascii.eqb Bool.eqb].
        match goal with
        | |- context [get_prop (obj ?l) "data"] =>
            change (get_prop (obj l) "data") with (Ret (A:=JsVal) (JArr (JObj <$> rows)))
        end.
        cbn [fst get_prop rows_array Res_bind String.eqb Ascii.eqb Bool.eqb].
        by rewrite length_fmap.
    + rewrite new_events_try by trace_side.
      rewrite new_events_bind by trace_side.
      rewrite new_events_call by trace_side.
      rewrite new_events_try by trace_side.
      rewrite new_events_bind by trace_side.
      rewrite new_events_call by trace_side.
      rewrite new_events_query by trace_side. reflexivity.
  - change (is_undefined (obj [])) with false. cbv iota.
    change (get_prop (obj []) "nombreFacultad") with (Ret (A:=JsVal) JUndefined).
    step_lift. cbn [truthy].
    change (is_undefined (obj [])) with false. cbv iota.
    change (get_prop (obj []) "nombreFacultad") with (Ret (A:=JsVal) JUndefined).
    step_lift. cbn [truthy]. split.
    + run_all. answer_with Hq. destruct ans as [pe|rows].
      * unfold with_default_status. by rewrite pg_error_no_status.
      * cbn [fst get_prop rows_array Res_bind String.eqb Ascii.eqb Bool.eqb].
        match goal with
        | |- context [get_prop (obj ?l) "data"] =>
            change (get_prop (obj l) "data") with (Ret (A:=JsVal) (JArr (JObj <$> rows)))
        end.
        cbn [fst get_prop rows_array Res_bind String.eqb Ascii.eqb Bool.eqb].
        by rewrite length_fmap.
    + rewrite new_events_try by trace_side.
      rewrite new_events_bind by trace_side.
      rewrite new_events_call by trace_side.
      rewrite new_events_try by trace_side.
      rewrite new_events_bind by trace_side.
      rewrite new_events_call by trace_side.
      rewrite new_events_query by trace_side. reflexivity.
Qed.

End ResponseFacts.

Section ResponseRuns.
#[local] Existing Instance Node.runtime.
#[local] Existing Instance Scripted.database.

Lemma obtenerEstudiantesPorFacultad_response_witness :
  (@EntrenamientoCognitivoController.obtenerEstudiantesPorFacultadController
     Node.runtime Scripted.database una_facultad (Scripted.start [inl sin_conexion])).1
  = Ret (Next (pg_error_obj sin_conexion)).
Proof.
  exact (proj1 (@obtenerEstudiantesPorFacultad_response Node.runtime Scripted.database
                  una_facultad (Scripted.start [inl sin_conexion]) (inl sin_conexion)
                  (fun q => eq_refl))).
Defined.

Lemma obtenerFacultadesPorEmail_response_witness :
  (@EntrenadorController.obtenerFacultadesPorEmailController Node.runtime Scripted.database
     un_correo (Scripted.start [inl sin_conexion])).1
  = Ret (Sent (JNum 500)
           (obj [("message", JStr "Error interno del servidor al obtener facultades.");
                 ("error", JStr "connect ECONNREFUSED 127.0.0.1:5432")])).
Proof.
  exact (@obtenerFacultadesPorEmail_response Node.runtime Scripted.database
           un_correo (Scripted.start [inl sin_conexion]) (inl sin_conexion)
           (fun q => eq_refl)).
Defined.

Lemma obtenerEstudiante_response_witness :
  (@EstudianteController.obtenerEstudianteController Node.runtime Scripted.database
     un_estudiante (Scripted.start [inr [fila_estudiante]])).1
  = Ret (Sent (JNum 200)
           (obj [("success", JBool false);
                 ("message", JStr "Estudiante encontrado exitosamente.");
                 ("nombres", JStr "Ana"); ("apellidos", JStr "Paz")])).
Proof.
  refine (eq_trans
            (proj1 (@obtenerEstudiante_response Node.runtime Scripted.database
                      un_estudiante (Scripted.start [inr [fila_estudiante]])
                      (inr [fila_estudiante]) (fun q => eq_refl))) _).
  by vm_compute.
Defined.

Lemma variable_abandono_response_witness :
  (@VariablesCognitivasController.abandonarVariableCognitiva Node.runtime Scripted.database
     una_variable (Scripted.start [inl sin_conexion])).1
  = Ret (sendError (JNum 500) (JStr "connect ECONNREFUSED 127.0.0.1:5432") JUndefined).
Proof.
  exact (proj1 (@variable_abandono_response Node.runtime Scripted.database
                  una_variable (Scripted.start [inl sin_conexion]) (inl sin_conexion)
                  eq_refl (fun q => eq_refl))).
Defined.

Lemma listarTodosLosEntrenadores_response_witness :
  statements
    (new_events
       (@EntrenadorController.listarTodosLosEntrenadores Node.runtime Scripted.database
          entrenadores_de_facultad)
       (Scripted.start [inr []]))
  = [ {| sql := "SELECT * FROM CC.DetalleEntrenadoresFacultadesUV WHERE $1 = ANY(facultadesAsignadas) ORDER BY apellidosEntrenador, nombresEntrenador;";
         params := [JStr "Ingeniería"] |} ].
Proof.
  exact (proj2 (@listarTodosLosEntrenadores_response Node.runtime Scripted.database
                  entrenadores_de_facultad (Scripted.start [inr []]) (inr [])
                  (fun q => eq_refl))).
Defined.

End ResponseRuns.

(** ** Status codes *)

Section PostLogic.
Context {rt : Runtime} {db : Database}.

Lemma post_ret {A} (P : A -> Prop) Q a : P a -> post P Q (mret a).
Proof. by intros H st. Qed.

Lemma post_lift {A} (P : A -> Prop) Q (r : Res A) : Rpost P Q r -> post P Q (lift r).
Proof. by intros H st. Qed.

Lemma post_throw {A} (P : A -> Prop) (Q : ErrObj -> Prop) e : Q e -> post P Q (throw e).
Proof. by intros H st. Qed.

Lemma post_new_Date (P : JsVal -> Prop) Q : (forall t, P (JDate t)) -> post P Q new_Date.
Proof. intros H st. apply H. Qed.

Lemma post_bind {A B} (R : A -> Prop) (P : B -> Prop) Q (m : M A) (f : A -> M B) :
  post R Q m -> (forall a, R a -> post P Q (f a)) -> post P Q (M_bind m f).
Proof.
  intros Hm Hf st. unfold M_bind. specialize (Hm st).
  destruct (m st) as [[a|e] st1]; simpl in *; [by apply Hf|done].
Qed.

Lemma post_bind_lift {A B} (P : B -> Prop) Q (r : Res A) (f : A -> M B) :
  Rpost (fun a => post P Q (f a)) Q r -> post P Q (M_bind (lift r) f).
Proof. intros H st. unfold M_bind, lift. destruct r as [a|e]; simpl in *; [apply H|done]. Qed.

Lemma post_try {A} (Q' : ErrObj -> Prop) (P : A -> Prop) Q (m : M A) h :
  post P Q' m -> (forall e, Q' e -> post P Q (h e)) -> post P Q (try_catch m h).
Proof.
  intros Hm Hh st. unfold try_catch. specialize (Hm st).
  destruct (m st) as [[a|e] st1]; simpl in *; [done|by apply Hh].
Qed.

Lemma post_call {A} (P : A -> Prop) Q c1 c2 name (m : M A) :
  post P Q m -> post P Q (call c1 c2 name m).
Proof. intros H st. apply H. Qed.

Lemma post_query (P : list Row -> Prop) (Q : ErrObj -> Prop) text values :
  (forall rows, P rows) -> (forall pe, Q (pg_error_obj pe)) -> post P Q (query text values).
Proof.
  intros HP HQ st. unfold query. destruct (pool_query _ _) as [[pe|rows] w]; simpl; [apply HQ|apply HP].
Qed.

Lemma Rpost_bind {A B} (P : B -> Prop) Q (r : Res A) (f : A -> Res B) :
  Rpost (fun a => Rpost P Q (f a)) Q r -> Rpost P Q (Res_bind r f).
Proof. by destruct r. Qed.

(** A step that may return anything and throws what [Q] allows. *)
Lemma Rpost_any {A} (P : A -> Prop) Q (r : Res A) :
  (forall a, P a) -> Rthrows Q r -> Rpost P Q r.
Proof. intros HP HQ. destruct r as [a|e]; simpl; [apply HP|by apply HQ]. Qed.

Lemma get_opt_of_get_prop v k x : get_prop v k = Ret x -> get_opt v k = x.
Proof. destruct v; simpl; try done; by intros [= <-]. Qed.

(** Reading the [statusCode] of a result known to be well formed. *)
Lemma Rpost_status {A} (P : A -> Prop) (Q : ErrObj -> Prop) v (f : JsVal -> Res A) :
  status_field_ok v -> (forall x, code_in codes x -> Rpost P Q (f x)) ->
  admits_TypeError Q ->
  Rpost P Q (Res_bind (get_prop v "statusCode") f).
Proof.
  intros Hv Hf HQ. destruct (get_prop v "statusCode") as [x|e] eqn:E; simpl.
  - apply Hf. by rewrite <- (get_opt_of_get_prop _ _ _ E).
  - destruct v; simpl in E; try done; injection E as <-; apply HQ.
Qed.

Lemma code_in_absent l v : truthy v = false -> code_in l v.
Proof. by left. Qed.

Lemma code_in_num l n : n ∈ l -> code_in l (JNum n).
Proof. right. by exists n. Qed.

Lemma tame_no_fields (e : ErrObj) :
  field e "statusCode" = JUndefined -> field e "status" = JUndefined -> tame e.
Proof. intros H1 H2. split; [left; by rewrite H1|done]. Qed.

Lemma tame_new_Error v : tame (new_Error v).
Proof. apply tame_no_fields; unfold new_Error; by rewrite field_singleton_ne. Qed.

Lemma tame_TypeError msg : tame (TypeError msg).
Proof.
  apply tame_no_fields; unfold TypeError, new_Error;
    by rewrite field_insert_ne, field_singleton_ne.
Qed.

Lemma admits_tame : admits_TypeError tame.
Proof. intros msg. apply tame_TypeError. Qed.

Lemma tame_pg_error_obj pe : tame (pg_error_obj pe).
Proof.
  apply tame_no_fields; destruct pe as [m [c|] [d|]]; unfold pg_error_obj, set_opt; simpl;
    repeat first [ rewrite field_insert_ne by done | rewrite field_singleton_ne by done ]; done.
Qed.

Lemma tame_set_status n e :
  n ∈ error_codes -> field e "status" = JUndefined -> tame (<[ "statusCode" := JNum n ]> e).
Proof.
  intros Hn He. split.
  - rewrite field_insert_eq. by apply code_in_num.
  - by rewrite field_insert_ne.
Qed.

Lemma tame_set_status_tame n e :
  n ∈ error_codes -> tame e -> tame (<[ "statusCode" := JNum n ]> e).
Proof. intros Hn [_ He]. by apply tame_set_status. Qed.

Lemma new_Error_no_status v : field (new_Error v) "status" = JUndefined.
Proof. unfold new_Error. by rewrite field_singleton_ne. Qed.

Lemma tame_clientError v n : n ∈ error_codes -> tame (clientError v n).
Proof. intros Hn. unfold clientError. apply tame_set_status; [done|apply new_Error_no_status]. Qed.

Lemma tame_with_default n e : n ∈ error_codes -> tame e -> tame (with_default_status n e).
Proof.
  intros Hn He. unfold with_default_status.
  destruct (truthy (field e "statusCode")); [done|]. by apply tame_set_status_tame.
Qed.

Lemma code_of_js_or l x n : code_in l x -> n ∈ l -> exists k, js_or x (JNum n) = JNum k /\ k ∈ l.
Proof.
  intros [Hx|(k & -> & Hk)] Hn; unfold js_or.
  - rewrite Hx. by exists n.
  - destruct (truthy (JNum k)); [by exists k|by exists n].
Qed.

Lemma code_in_weaken x : code_in error_codes x -> code_in codes x.
Proof.
  intros [Hx|(k & -> & Hk)]; [by left|right]. exists k. split; [done|].
  unfold codes. by do 2 apply list_elem_of_further.
Qed.

Lemma outcome_sendSuccess s message data :
  (exists n, s = JNum n /\ n ∈ codes) -> outcome_ok (sendSuccess s message data).
Proof. done. Qed.

Lemma outcome_sendError s message details :
  (exists n, s = JNum n /\ n ∈ codes) -> outcome_ok (sendError s message details).
Proof. done. Qed.

Lemma tame_status_code e : tame e -> code_in codes (field e "statusCode").
Proof. intros [H _]. by apply code_in_weaken. Qed.

(** The error middleware answers a tame error with one of [error_codes]. *)
Lemma errorHandler_tame e development :
  tame e -> exists n body, errorHandler development e = Sent (JNum n) body /\ n ∈ error_codes.
Proof.
  intros [Hsc Hst]. unfold errorHandler. rewrite Hst.
  destruct Hsc as [Hx|(k & Hk & Hin)].
  - unfold js_or at 2. rewrite Hx. unfold js_or at 1. cbn [truthy].
    eexists _, _. split; [reflexivity|]. unfold error_codes.
    repeat first [ apply list_elem_of_here | apply list_elem_of_further ].
  - rewrite Hk. unfold error_codes in Hin.
    repeat (apply elem_of_cons in Hin as [->|Hin];
            [ eexists _, _; split; [reflexivity|]; unfold error_codes;
              repeat first [ apply list_elem_of_here | apply list_elem_of_further ] |]).
    by apply elem_of_nil in Hin.
Qed.

End PostLogic.

Ltac elem_side :=
  solve [ unfold codes, error_codes;
          repeat first [ apply list_elem_of_here | apply list_elem_of_further ] ].

Create HintDb statuses.
#[export] Hint Resolve tame_new_Error tame_TypeError admits_tame tame_pg_error_obj
  new_Error_no_status tame_clientError tame_with_default tame_set_status tame_set_status_tame
  tame_status_code : statuses.
#[export] Hint Extern 1 (_ ∈ _) => elem_side : statuses.
#[export] Hint Resolve admits_tame : errs.

Ltac is_code_side :=
  first [ solve [ eexists; split; [reflexivity | elem_side] ]
        | solve [ eapply code_of_js_or; [ eauto with statuses | elem_side ] ] ].

Ltac leaf_side :=
  cbv beta;
  lazymatch goal with
  | |- True => exact I
  | |- outcome_ok (Sent _ _) => cbn [outcome_ok]; is_code_side
  | |- outcome_ok (Next _) => cbn [outcome_ok]; solve [ eauto with statuses ]
  | |- outcome_ok (sendSuccess _ _ _) => apply outcome_sendSuccess; is_code_side
  | |- outcome_ok (sendError _ _ _) => apply outcome_sendError; is_code_side
  | |- outcome_ok (handleControllerError _) =>
      unfold handleControllerError; cbn [outcome_ok]; solve [ eauto with statuses ]
  | |- status_field_ok _ =>
      unfold status_field_ok, EntrenamientoCognitivoService.failure;
      first [ solve [ left; reflexivity ]
            | solve [ right; eexists; split; [reflexivity | elem_side] ] ]
  | |- tame _ =>
      repeat match goal with |- context [if ?b then _ else _] => destruct b end;
      solve [ eauto with statuses ]
  end.

Ltac post_go :=
  intros; cbv beta zeta;
  lazymatch goal with
  | |- post _ _ (mret _) => apply post_ret; leaf_side
  | |- post _ _ (throw _) => apply post_throw; leaf_side
  | |- post _ _ (lift _) => apply post_lift; rpost_go
  | |- post _ _ new_Date => apply post_new_Date; intros; leaf_side
  | |- post _ _ (query _ _) => apply post_query; intros; leaf_side
  | |- post _ _ (call _ _ _ _) => apply post_call; post_go
  | |- post _ _ (M_bind (lift _) _) => apply post_bind_lift; rpost_go
  | |- post _ _ (M_bind _ _) =>
      first [ solve [ eapply (post_bind status_field_ok); post_go ]
            | eapply (post_bind (fun _ => True)); post_go ]
  | |- post _ _ (try_catch _ _) => eapply (post_try tame); post_go
  | |- post _ _ (if ?b then _ else _) => destruct b; post_go
  | |- post _ _ (match ?x with _ => _ end) => destruct x; post_go
  | |- post _ _ ?m => unfold_head m; post_go
  end
with rpost_go :=
  intros; cbv beta zeta;
  lazymatch goal with
  | |- Rpost _ _ (Ret _) => cbn [Rpost]; go_on
  | |- Rpost _ _ (Throw _) => cbn [Rpost]; leaf_side
  | |- Rpost _ _ (throwClientError _ _) => unfold throwClientError; cbn [Rpost]; leaf_side
  | |- Rpost _ _ (Res_bind (get_prop ?v "statusCode") _) =>
      first [ solve [ apply Rpost_status; [assumption | intros; rpost_go | eauto with statuses] ]
            | apply Rpost_bind; rpost_go ]
  | |- Rpost _ _ (Res_bind _ _) => apply Rpost_bind; rpost_go
  | |- Rpost _ _ (if ?b then _ else _) => destruct b; rpost_go
  | |- Rpost _ _ (match ?x with _ => _ end) => destruct x; rpost_go
  | |- Rpost _ _ ?r =>
      first [ apply Rpost_any; [ intros; go_on | solve [rthrows_go] ]
            | unfold_head r; rpost_go ]
  end
with go_on :=
  cbv beta;
  lazymatch goal with
  | |- post _ _ _ => post_go
  | |- Rpost _ _ _ => rpost_go
  | |- _ => leaf_side
  end.

Section StatusFacts.
Context {rt : Runtime} {db : Database}.

Lemma services_tame :
  Forall (fun s => forall args, post (fun _ => True) tame (sv_run s args)) services.
Proof. unfold services. each_entry; cbn [sv_run]; intros args; post_go. Qed.

Lemma controllers_statuses :
  Forall (fun h => forall req, post outcome_ok tame (h_run h req)) controllers.
Proof. unfold controllers. each_entry; cbn [h_run]; intros req; post_go. Qed.

(** X26.  The services set no status code but 400, 404, 409 and 500.
    Whatever its arguments and whatever the database answers, an error
    thrown by a function of the service files either has no truthy
    [statusCode] (a plain error, an error of the driver passed on, a
    [TypeError]) or has one of these four; and it has no [status]
    property, the other field the error middleware reads. *)
Theorem services_status_codes (i : nat) (s : ServiceFn) (args : list JsVal) (st : St) (e : ErrObj) :
  services !! i = Some s ->
  (sv_run s args st).1 = Throw e ->
  (truthy (field e "statusCode") = false
   \/ exists n, field e "statusCode" = JNum n /\ n ∈ error_codes)
  /\ field e "status" = JUndefined.
Proof.
  intros Hi Hrun.
  pose proof (Forall_lookup_1 _ _ _ _ services_tame Hi args st) as H.
  rewrite Hrun in H. exact H.
Qed.

(** X27.  The status codes of the API.  Whatever the request and whatever
    the database answers, a handler of the controller files either sends
    a response whose status is one of 200, 201, 400, 404, 409 and 500, or
    it ends with an error, handed to [next] or thrown, to which the error
    middleware of index.js answers with one of 400, 404, 409 and 500.
    No other status can come out of handlers, services and data access. *)
Theorem handlers_status_codes (i : nat) (h : Handler) (req : Request) (st : St) :
  controllers !! i = Some h ->
  match (h_run h req st).1 with
  | Ret (Sent s _) => exists n, s = JNum n /\ n ∈ codes
  | Ret (Next e) | Throw e =>
      forall development,
        exists n body, errorHandler development e = Sent (JNum n) body /\ n ∈ error_codes
  end.
Proof.
  intros Hi.
  pose proof (Forall_lookup_1 _ _ _ _ controllers_statuses Hi req st) as H.
  destruct (h_run h req st).1 as [[s body|e]|e]; cbn [Rpost outcome_ok] in H.
  - exact H.
  - intros development. by apply errorHandler_tame.
  - intros development. by apply errorHandler_tame.
Qed.

End StatusFacts.

Section StatusRuns.
#[local] Existing Instance Node.runtime.
#[local] Existing Instance Scripted.database.

Lemma services_status_codes_witness :
  (truthy (field (clientError (JStr "Entrenador No Encontrado.") 404) "statusCode") = false
   \/ exists n, field (clientError (JStr "Entrenador No Encontrado.") 404) "statusCode" = JNum n
                /\ n ∈ error_codes)
  /\ field (clientError (JStr "Entrenador No Encontrado.") 404) "status" = JUndefined.
Proof.
  refine (@services_status_codes Node.runtime Scripted.database 28%nat _ [JStr un_uuid]
            (Scripted.start [inr [fila_no_encontrado]]) _ eq_refl _).
  by vm_compute.
Defined.

Lemma handlers_status_codes_witness :
  exists n body,
    errorHandler false (<[ "statusCode" := JNum 500 ]> (pg_error_obj sin_conexion))
    = Sent (JNum n) body
    /\ n ∈ error_codes.
Proof.
  exact (@handlers_status_codes Node.runtime Scripted.database 4%nat _ una_sesion
           (Scripted.start [inl sin_conexion]) eq_refl false).
Defined.

End StatusRuns.
